(** * Illness plugin: catalog and lifecycle manager

    A shallow embedding of [illness_plugin/illness_types.py] and
    [illness_plugin/illness_manager.py].

    Conventions of the embedding.
    - Python floats (timestamps, durations, severities, probabilities) are
      exact rationals [Q]; integer weights and slice bounds are [Z].
    - Python [str] is [string]; a literal holds the UTF-8 bytes of the source
      text, so equality and emptiness of strings agree with Python's.
    - Values that travel through the storage collaborator are dynamically
      typed ([PyVal]): the manager does not validate what it reads.
    - [time.time()] and the [random] module are oracles of the [World]: the
      k-th call returns the k-th element of a fixed sequence.  A test that
      freezes the clock at [now] is a world whose clock is constantly [now].
    - An exception inside a [try] block is an explicit [Raise] result that the
      handler of the block inspects. *)

From Stdlib Require Import QArith ZArith Ascii String List Lia.
From stdpp Require Import gmap strings list.

Set Warnings "-register-all".
Open Scope Q_scope.

(** ** Rational comparisons as booleans *)

Definition Qltb (x y : Q) : bool := negb (Qle_bool y x).
Definition Qgeb (x y : Q) : bool := Qle_bool y x.

(** ** illness_types.py *)

Module IllnessTypes.

(** [class IllnessType(Enum)] *)
Inductive IllnessType : Type :=
  | SEVERE_COLD
  | MILD_COLD
  | TONSILLITIS
  | GASTROENTERITIS
  | SKIN_ALLERGY
  | MINOR_SCRATCH
  | HEADACHE
  | STIFF_NECK
  | ANKLE_SPRAIN
  | NOSEBLEED
  | MOUTH_ULCER.

#[global] Instance IllnessType_eq_dec : EqDecision IllnessType.
Proof. solve_decision. Defined.

(** [list(IllnessType)], in definition order. *)
Definition get_all_illness_types : list IllnessType :=
  [SEVERE_COLD; MILD_COLD; TONSILLITIS; GASTROENTERITIS; SKIN_ALLERGY;
   MINOR_SCRATCH; HEADACHE; STIFF_NECK; ANKLE_SPRAIN; NOSEBLEED; MOUTH_ULCER].

(** [illness_type.value] *)
Definition value (t : IllnessType) : string :=
  match t with
  | SEVERE_COLD => "重感冒"
  | MILD_COLD => "轻感冒"
  | TONSILLITIS => "扁桃体炎/咽炎"
  | GASTROENTERITIS => "肠胃不适(腹泻)"
  | SKIN_ALLERGY => "皮肤过敏/皮疹"
  | MINOR_SCRATCH => "轻微擦伤"
  | HEADACHE => "轻微头痛"
  | STIFF_NECK => "落枕"
  | ANKLE_SPRAIN => "脚踝扭伤"
  | NOSEBLEED => "鼻血"
  | MOUTH_ULCER => "口腔溃疡"
  end.

(** [IllnessType(v)] for a string [v]: the member whose value is [v];
    [None] stands for the [ValueError] of an unknown value. *)
Definition of_value (v : string) : option IllnessType :=
  find (fun t => bool_decide (value t = v)) get_all_illness_types.

(** [@dataclass class IllnessInfo], with the annotated field types. *)
Record IllnessInfo : Type := mkIllnessInfo {
  illness_type : IllnessType;
  start_time : Q;
  severity : Q;
  stage : string
}.

(** [IllnessInfo.get_duration_hours], given the reading of [time.time()]. *)
Definition get_duration_hours (now : Q) (i : IllnessInfo) : Q :=
  (now - start_time i) / 3600.

(** A dict keyed by [IllnessType], in insertion order, and [dict.get]. *)
Definition table (A : Type) : Type := list (IllnessType * A).

Fixpoint lookup_table {A} (tbl : table A) (k : IllnessType) : option A :=
  match tbl with
  | [] => None
  | (k', v) :: rest => if decide (k' = k) then Some v else lookup_table rest k
  end.

Definition dict_get {A} (tbl : table A) (k : IllnessType) (default : A) : A :=
  match lookup_table tbl k with
  | Some v => v
  | None => default
  end.

Definition ILLNESS_DESCRIPTIONS : table string :=
  [ (SEVERE_COLD, "目前出现较为明显的上呼吸道感染症状，包括：鼻塞、咽部轻微疼痛、可能伴有低热（37.5-38℃）。建议适当休息，多补充水分。");
    (MILD_COLD, "当前有轻微感冒症状，主要表现为：偶发喷嚏、鼻塞或轻微流涕，体温正常。保持充足睡眠即可。");
    (TONSILLITIS, "咽部或扁桃体区域有轻微红肿，吞咽时可能出现轻微不适感。可尝试温盐水漱口，避免辛辣刺激食物。");
    (GASTROENTERITIS, "胃肠道功能出现暂时性紊乱，表现为轻微腹痛或腹泻，每日排便次数略有增加。建议清淡饮食，避免生冷油腻。");
    (SKIN_ALLERGY, "皮肤出现局部轻微红疹或小范围荨麻疹样改变，伴有轻度瘙痒。建议避免搔抓，穿着宽松棉质衣物。");
    (MINOR_SCRATCH, "皮肤表层有轻微擦伤，范围较小，表皮略有破损，无活动性出血。保持局部清洁干燥即可。");
    (HEADACHE, "头部出现轻微胀痛或钝痛感，部位不固定，程度不影响日常活动。可尝试闭目休息片刻。");
    (STIFF_NECK, "颈部一侧肌肉有轻度紧张感，头部向某一方向转动时活动范围略受限，无明显疼痛。");
    (ANKLE_SPRAIN, "踝关节活动时可能有轻微不适感，局部未见明显肿胀，行走功能基本正常。建议减少长时间站立。");
    (NOSEBLEED, "鼻腔黏膜小血管破裂，单侧鼻孔有少量出血，通常在5分钟内可自行停止。建议保持头部前倾姿势。");
    (MOUTH_ULCER, "口腔黏膜出现一处小型溃疡面，直径约2-3毫米，接触酸性或较硬食物时可能有轻微刺痛感。") ].

Definition ILLNESS_DURATION_HOURS : table Q :=
  [ (SEVERE_COLD, 48); (MILD_COLD, 48); (TONSILLITIS, 48);
    (GASTROENTERITIS, 24); (SKIN_ALLERGY, 48); (MINOR_SCRATCH, 24);
    (HEADACHE, 24); (STIFF_NECK, 24); (ANKLE_SPRAIN, 48);
    (NOSEBLEED, 0.5); (MOUTH_ULCER, 48) ].

Definition ILLNESS_TRANSITIONS : table (list IllnessType) :=
  [ (SEVERE_COLD, [MILD_COLD]); (MILD_COLD, []); (TONSILLITIS, []);
    (GASTROENTERITIS, []); (SKIN_ALLERGY, []); (MINOR_SCRATCH, []);
    (HEADACHE, []); (STIFF_NECK, []); (ANKLE_SPRAIN, []);
    (NOSEBLEED, []); (MOUTH_ULCER, []) ].

Definition ILLNESS_SEVERITY : table Q :=
  [ (SEVERE_COLD, 0.8); (MILD_COLD, 0.3); (TONSILLITIS, 0.6);
    (GASTROENTERITIS, 0.5); (SKIN_ALLERGY, 0.4); (MINOR_SCRATCH, 0.2);
    (HEADACHE, 0.3); (STIFF_NECK, 0.3); (ANKLE_SPRAIN, 0.5);
    (NOSEBLEED, 0.3); (MOUTH_ULCER, 0.4) ].

(** The four lookups, first over an arbitrary table (the body of the Python
    function with the module-level dict as a parameter), then over the
    module's own dict. *)
Definition get_illness_description_in (tbl : table string) (t : IllnessType) : string :=
  dict_get tbl t "身体不适，需要休息。".

Definition get_illness_duration_in (tbl : table Q) (t : IllnessType) : Q :=
  dict_get tbl t 24.

Definition get_illness_severity_in (tbl : table Q) (t : IllnessType) : Q :=
  dict_get tbl t 0.5.

Definition get_possible_transitions_in (tbl : table (list IllnessType))
    (t : IllnessType) : list IllnessType :=
  dict_get tbl t [].

Definition get_illness_description : IllnessType -> string :=
  get_illness_description_in ILLNESS_DESCRIPTIONS.

Definition get_illness_duration : IllnessType -> Q :=
  get_illness_duration_in ILLNESS_DURATION_HOURS.

Definition get_illness_severity : IllnessType -> Q :=
  get_illness_severity_in ILLNESS_SEVERITY.

Definition get_possible_transitions : IllnessType -> list IllnessType :=
  get_possible_transitions_in ILLNESS_TRANSITIONS.

End IllnessTypes.

(** ** Dynamically typed values and exceptions *)

Module Py.

(** The values that the storage collaborator holds: JSON-compatible nested
    maps, sequences and scalars.  A dict keeps its insertion order. *)
Inductive PyVal : Type :=
  | VNone
  | VBool (b : bool)
  | VNum (q : Q)
  | VStr (s : string)
  | VList (l : list PyVal)
  | VDict (d : list (string * PyVal)).

Inductive Exception : Type :=
  | AttributeError | KeyError | TypeError | ValueError | IndexError
  | StorageError.

(** Result of a computation that may raise. *)
Inductive Exn (A : Type) : Type :=
  | Ok (a : A)
  | Raise (e : Exception).
Arguments Ok {A} a.
Arguments Raise {A} e.

Definition bindE {A B} (x : Exn A) (f : A -> Exn B) : Exn B :=
  match x with
  | Ok a => f a
  | Raise e => Raise e
  end.

Notation "x <-? c1 ;; c2" := (bindE c1 (fun x => c2))
  (at level 100, c1 at next level, right associativity).

(** Truth value of an object, as tested by [if obj:]. *)
Definition truthy (v : PyVal) : bool :=
  match v with
  | VNone => false
  | VBool b => b
  | VNum q => negb (Qeq_bool q 0)
  | VStr s => negb (bool_decide (s = ""))
  | VList l => negb (bool_decide (length l = 0%nat))
  | VDict d => negb (bool_decide (length d = 0%nat))
  end.

Fixpoint assoc (d : list (string * PyVal)) (key : string) : option PyVal :=
  match d with
  | [] => None
  | (k, v) :: rest => if decide (k = key) then Some v else assoc rest key
  end.

(** [obj.get(key, default)]: only a dict has the method. *)
Definition py_get (obj : PyVal) (key : string) (default : PyVal) : Exn PyVal :=
  match obj with
  | VDict d => Ok (match assoc d key with Some v => v | None => default end)
  | _ => Raise AttributeError
  end.

(** [obj[key]] for a string key: [KeyError] on a dict without the key,
    [TypeError] on every other kind of value. *)
Definition py_getitem (obj : PyVal) (key : string) : Exn PyVal :=
  match obj with
  | VDict d => match assoc d key with Some v => Ok v | None => Raise KeyError end
  | _ => Raise TypeError
  end.

(** Whether [obj] can stand on either side of [<] or [-] with a float:
    ints, floats and bools can, everything else raises [TypeError]. *)
Definition is_number (obj : PyVal) : bool :=
  match obj with
  | VNum _ | VBool _ => true
  | _ => false
  end.

(** [l[start:]] on a list, for an integer [start] of either sign: a negative
    start counts from the end and is clamped at the front, a start beyond
    the end gives the empty list. *)
Definition slice_from {A} (start : Z) (l : list A) : list A :=
  let n := Z.of_nat (length l) in
  let lo := if (start <? 0)%Z then Z.max 0 (n + start) else Z.min start n in
  drop (Z.to_nat lo) l.

(** [bisect.bisect_right(a, x, lo, hi)]: the loop
    [while lo < hi: mid = (lo+hi)//2; if x < a[mid]: hi = mid else: lo = mid+1],
    run for at most [fuel] iterations.  The caller keeps [hi] below
    [len(a)], so [a[mid]] exists; the loop stops if it does not. *)
Fixpoint bisect (fuel : nat) (a : list Q) (x : Q) (lo hi : nat) : nat :=
  match fuel with
  | O => lo
  | S fuel' =>
      if (lo <? hi)%nat then
        let mid := ((lo + hi) / 2)%nat in
        match a !! mid with
        | Some am => if Qltb x am then bisect fuel' a x lo mid
                     else bisect fuel' a x (S mid) hi
        | None => lo
        end
      else lo
  end.

(** [itertools.accumulate(weights)] *)
Fixpoint accumulate (acc : Z) (weights : list Z) : list Z :=
  match weights with
  | [] => []
  | w :: rest => (acc + w)%Z :: accumulate (acc + w)%Z rest
  end.

(** [s[start:]] on a str counts code points, not bytes: the bytes of [s]
    are grouped into code points (a lead byte and the continuation bytes
    10xxxxxx that follow it) before slicing. *)
Definition is_continuation (c : ascii) : bool :=
  let n := nat_of_ascii c in (128 <=? n)%nat && (n <? 192)%nat.

Fixpoint code_points (s : string) : list string :=
  match s with
  | EmptyString => []
  | String c rest =>
      match code_points rest with
      | String c' chunk :: chunks =>
          if is_continuation c'
          then String c (String c' chunk) :: chunks
          else String c EmptyString :: String c' chunk :: chunks
      | chunks => String c EmptyString :: chunks
      end
  end.

Definition str_slice_from (start : Z) (s : string) : string :=
  fold_right String.append EmptyString (slice_from start (code_points s)).

(** [obj[start:]] on a stored value: lists and strings slice, every other
    kind of value raises. *)
Definition py_slice_from (start : Z) (obj : PyVal) : Exn PyVal :=
  match obj with
  | VList l => Ok (VList (slice_from start l))
  | VStr s => Ok (VStr (str_slice_from start s))
  | _ => Raise TypeError
  end.

End Py.

(** ** illness_manager.py *)

Module IllnessManager.
Import IllnessTypes Py.

(** *** The world the manager runs in *)

(** Modelled from the spec: the storage collaborator injected into the
    manager, [get(key, default)] and [set(key, value)].  It is a key-value
    store with value semantics (what [get] returns is not aliased with the
    stored value); either operation may be switched to raise. *)
Record Storage : Type := mkStorage {
  cells : gmap string PyVal;
  get_raises : bool;
  set_raises : bool
}.

Definition storage_get (st : Storage) (key : string) (default : PyVal) : Exn PyVal :=
  if get_raises st then Raise StorageError
  else Ok (match cells st !! key with Some v => v | None => default end).

Definition storage_set (st : Storage) (key : string) (v : PyVal) : Exn Storage :=
  if set_raises st then Raise StorageError
  else Ok (mkStorage (<[key := v]> (cells st)) (get_raises st) (set_raises st)).

(** The attributes of an [IllnessManager] instance, with the annotated
    types. *)
Record Manager : Type := mkManager {
  current_illness : option IllnessInfo;
  last_recovery_time : Q;
  cool_down_end_time : Q
}.

Record World : Type := mkWorld {
  self : Manager;
  storage : Storage;
  clock : nat -> Q;        (* successive readings of [time.time()] *)
  ticks : nat;             (* readings taken so far *)
  rand : nat -> Q;         (* successive values of [random.random()] *)
  rand_below : nat -> nat; (* successive integers behind [random.choice] *)
  draws : nat              (* draws taken so far *)
}.

Definition M (A : Type) : Type := World -> A * World.

Definition ret {A} (a : A) : M A := fun w => (a, w).

Definition bind {A B} (c : M A) (f : A -> M B) : M B :=
  fun w => let (a, w') := c w in f a w'.

Notation "x <- c1 ;; c2" := (bind c1 (fun x => c2))
  (at level 100, c1 at next level, right associativity).
Notation "c1 ;;; c2" := (bind c1 (fun _ => c2))
  (at level 100, right associativity).

Definition get_self : M Manager := fun w => (self w, w).

Definition put_self (s : Manager) : M unit := fun w =>
  (tt, mkWorld s (storage w) (clock w) (ticks w) (rand w) (rand_below w) (draws w)).

Definition get_storage : M Storage := fun w => (storage w, w).

Definition put_storage (st : Storage) : M unit := fun w =>
  (tt, mkWorld (self w) st (clock w) (ticks w) (rand w) (rand_below w) (draws w)).

(** [time.time()] *)
Definition time_time : M Q := fun w =>
  (clock w (ticks w),
   mkWorld (self w) (storage w) (clock w) (S (ticks w)) (rand w) (rand_below w) (draws w)).

(** [random.random()] *)
Definition random_random : M Q := fun w =>
  (rand w (draws w),
   mkWorld (self w) (storage w) (clock w) (ticks w) (rand w) (rand_below w) (S (draws w))).

(** [random.choice(seq)] on a sequence known to be non-empty ([d] is its
    first element): the element at a drawn index below [len(seq)]. *)
Definition random_choice {A} (d : A) (seq : list A) : M A := fun w =>
  (nth (rand_below w (draws w) mod length seq) seq d,
   mkWorld (self w) (storage w) (clock w) (ticks w) (rand w) (rand_below w) (S (draws w))).

(** [random.choices(population, weights=weights, k=1)[0]]: the cumulative
    weights are checked first, then one [random()] is drawn and located in
    them by bisection. *)
Definition random_choices {A} (population : list A) (weights : list Z) : M (Exn A) :=
  let n := length population in
  let cum_weights := accumulate 0 weights in
  if negb (length cum_weights =? n)%nat then ret (Raise ValueError) else
  match last cum_weights with
  | None => ret (Raise IndexError)
  | Some total =>
      if (total <=? 0)%Z then ret (Raise ValueError) else
      u <- random_random ;;
      let i := bisect n (map inject_Z cum_weights) (u * inject_Z total) 0 (n - 1) in
      ret (match population !! i with
           | Some x => Ok x
           | None => Raise IndexError
           end)
  end.

(** *** Saving *)

Definition illness_to_val (i : IllnessInfo) : PyVal :=
  VDict [ ("type", VStr (value (illness_type i)));
          ("start_time", VNum (start_time i));
          ("severity", VNum (severity i));
          ("stage", VStr (stage i)) ].

Definition state_data_of (s : Manager) (last_update : Q) : PyVal :=
  VDict [ ("current_illness",
             match current_illness s with
             | Some i => illness_to_val i
             | None => VNone
             end);
          ("last_recovery_time", VNum (last_recovery_time s));
          ("cool_down_end_time", VNum (cool_down_end_time s));
          ("last_update", VNum last_update) ].

(** [save_state]: a failing [storage.set] is logged and swallowed. *)
Definition save_state : M unit :=
  s <- get_self ;;
  t <- time_time ;;
  st <- get_storage ;;
  match storage_set st "illness_state" (state_data_of s t) with
  | Ok st' => put_storage st'
  | Raise _ => ret tt
  end.

(** *** History *)

Definition history_record (illness : IllnessInfo) (end_time : Q) : PyVal :=
  VDict [ ("type", VStr (value (illness_type illness)));
          ("start_time", VNum (start_time illness));
          ("end_time", VNum end_time);
          ("duration_hours", VNum ((end_time - start_time illness) / 3600));
          ("severity", VNum (severity illness)) ].

(** [history.append(record)] followed by the cut to the last 20. *)
Definition append_bounded (history : list PyVal) (record : PyVal) : list PyVal :=
  let history := history ++ [record] in
  if (20 <? length history)%nat then slice_from (-20) history else history.

(** The body of the [try] in [_add_to_history]; only a list has [append]. *)
Definition _add_to_history_try (st : Storage) (illness : IllnessInfo) (end_time : Q)
    : Exn Storage :=
  history <-? storage_get st "illness_history" (VList []) ;;
  match history with
  | VList h =>
      storage_set st "illness_history"
        (VList (append_bounded h (history_record illness end_time)))
  | _ => Raise AttributeError
  end.

Definition _add_to_history (illness : IllnessInfo) (end_time : Q) : M unit :=
  st <- get_storage ;;
  match _add_to_history_try st illness end_time with
  | Ok st' => put_storage st'
  | Raise _ => ret tt
  end.

(** [get_illness_history(limit)] *)
Definition get_illness_history (st : Storage) (limit : Z) : PyVal :=
  match (history <-? storage_get st "illness_history" (VList []) ;;
         if truthy history then py_slice_from (- limit) history
         else Ok (VList [])) with
  | Ok v => v
  | Raise _ => VList []
  end.

(** *** State changes *)

Definition recover_from_illness : M unit :=
  s <- get_self ;;
  match current_illness s with
  | Some illness =>
      _duration <- time_time ;;      (* get_duration_hours(), logged only *)
      end_time <- time_time ;;
      _add_to_history illness end_time ;;;
      t <- time_time ;;
      put_self (mkManager None t (cool_down_end_time s)) ;;;
      save_state
  | None => ret tt
  end.

Definition transition_to_illness (new_illness_type : IllnessType) : M unit :=
  s <- get_self ;;
  t <- time_time ;;
  put_self (mkManager
              (Some (mkIllnessInfo new_illness_type t
                       (get_illness_severity new_illness_type) "initial"))
              (last_recovery_time s) (cool_down_end_time s)) ;;;
  save_state.

Definition stage_of_progress (progress : Q) : string :=
  if Qltb progress 0.3 then "initial"
  else if Qltb progress 0.7 then "progressing"
  else "recovering".

Definition _update_illness_stage (duration_hours expected_duration : Q) : M unit :=
  s <- get_self ;;
  match current_illness s with
  | None => ret tt
  | Some i =>
      let progress :=
        if Qltb 0 expected_duration then duration_hours / expected_duration else 0 in
      let new_stage := stage_of_progress progress in
      if bool_decide (stage i = new_stage) then ret tt
      else
        put_self (mkManager
                    (Some (mkIllnessInfo (illness_type i) (start_time i)
                             (severity i) new_stage))
                    (last_recovery_time s) (cool_down_end_time s)) ;;;
        save_state
  end.

Definition update_illness_state : M unit :=
  s <- get_self ;;
  match current_illness s with
  | None => ret tt
  | Some i =>
      _current_time <- time_time ;;
      t <- time_time ;;
      let duration_hours := get_duration_hours t i in
      let illness_type := illness_type i in
      let expected_duration := get_illness_duration illness_type in
      (if Qgeb duration_hours expected_duration then
         let possible_transitions := get_possible_transitions illness_type in
         match possible_transitions with
         | first :: _ =>
             u <- random_random ;;
             if Qltb u 0.7 then
               new_illness_type <- random_choice first possible_transitions ;;
               transition_to_illness new_illness_type
             else recover_from_illness
         | [] => recover_from_illness
         end
       else ret tt) ;;;
      _update_illness_stage duration_hours expected_duration
  end.

Definition should_get_sick (daily_probability : Q) : M bool :=
  current_time <- time_time ;;
  s <- get_self ;;
  if Qltb current_time (cool_down_end_time s) then ret false
  else match current_illness s with
       | Some _ => ret false
       | None =>
           u <- random_random ;;
           if Qltb u daily_probability then ret true else ret false
       end.

(** [_get_weighted_random_illness], with the local [weights] dict as a
    parameter; [weights_table] is the dict of the source. *)
Definition weights_table : table Z :=
  [ (MILD_COLD, 30%Z); (HEADACHE, 20%Z); (STIFF_NECK, 15%Z);
    (MINOR_SCRATCH, 15%Z); (NOSEBLEED, 10%Z); (MOUTH_ULCER, 15%Z);
    (GASTROENTERITIS, 10%Z); (SKIN_ALLERGY, 10%Z); (TONSILLITIS, 8%Z);
    (ANKLE_SPRAIN, 5%Z); (SEVERE_COLD, 3%Z) ].

Definition _get_weighted_random_illness_with (weights : table Z)
    : M (Exn IllnessType) :=
  let illness_types := map fst weights in
  let illness_weights := map snd weights in
  random_choices illness_types illness_weights.

Definition trigger_random_illness_with (weights : table Z)
    : M (option IllnessInfo) :=
  r <- _get_weighted_random_illness_with weights ;;
  match r with
  | Ok illness_type =>
      s <- get_self ;;
      t <- time_time ;;
      let illness :=
        mkIllnessInfo illness_type t (get_illness_severity illness_type) "initial" in
      put_self (mkManager (Some illness)
                  (last_recovery_time s) (cool_down_end_time s)) ;;;
      save_state ;;;
      ret (Some illness)
  | Raise _ => ret None
  end.

Definition _get_weighted_random_illness : M (Exn IllnessType) :=
  _get_weighted_random_illness_with weights_table.

Definition trigger_random_illness : M (option IllnessInfo) :=
  trigger_random_illness_with weights_table.

Definition force_recovery : M unit :=
  s <- get_self ;;
  match current_illness s with
  | Some _ => recover_from_illness
  | None => ret tt
  end.

Definition set_cool_down (cool_down_days : Q) : M unit :=
  s <- get_self ;;
  t <- time_time ;;
  put_self (mkManager (current_illness s) (last_recovery_time s)
              (t + (cool_down_days * 24 * 3600))) ;;;
  save_state.

Definition get_current_illness_description (s : Manager) : option string :=
  match current_illness s with
  | Some i => Some (get_illness_description (illness_type i))
  | None => None
  end.

(** *** Loading

    [load_state] stores what the blob holds without checking it against the
    annotations of [IllnessInfo], so the attributes it assigns are kept as
    dynamically typed values. *)

Record LoadedIllness : Type := mkLoadedIllness {
  l_illness_type : IllnessType;
  l_start_time : PyVal;
  l_severity : PyVal;
  l_stage : PyVal
}.

Record Loaded : Type := mkLoaded {
  l_current_illness : option LoadedIllness;
  l_last_recovery_time : PyVal;
  l_cool_down_end_time : PyVal
}.

(** The attributes set by [__init__] before it calls [load_state], which
    are also the ones the handler of [load_state] resets to. *)
Definition healthy_default : Loaded := mkLoaded None (VNum 0) (VNum 0).

(** [IllnessType(v)] on a stored value. *)
Definition IllnessType_call (v : PyVal) : Exn IllnessType :=
  match v with
  | VStr s => match of_value s with Some t => Ok t | None => Raise ValueError end
  | _ => Raise ValueError
  end.

Definition require_number (v : PyVal) : Exn unit :=
  if is_number v then Ok tt else Raise TypeError.

(** [get_health_status], as far as it can raise: it compares the clock with
    [cool_down_end_time] and, when an illness is present, subtracts its
    [start_time] from the clock; the other attributes are only copied into
    the result. *)
Definition get_health_status_check (s : Loaded) : Exn unit :=
  _ <-? require_number (l_cool_down_end_time s) ;;
  match l_current_illness s with
  | Some i => require_number (l_start_time i)
  | None => Ok tt
  end.

(** The body of the [try] in [load_state]; [prior] holds the attributes
    before the call. *)
Definition load_state_try (prior : Loaded) (st : Storage) : Exn Loaded :=
  state_data <-? storage_get st "illness_state" (VDict []) ;;
  cur <-? py_get state_data "current_illness" VNone ;;
  current <-? (if truthy cur then
                 illness_data <-? py_getitem state_data "current_illness" ;;
                 type_v <-? py_getitem illness_data "type" ;;
                 illness_type <-? IllnessType_call type_v ;;
                 start_time <-? py_getitem illness_data "start_time" ;;
                 severity <-? py_get illness_data "severity" (VNum 0.5) ;;
                 stage <-? py_get illness_data "stage" (VStr "initial") ;;
                 Ok (Some (mkLoadedIllness illness_type start_time severity stage))
               else Ok (l_current_illness prior)) ;;
  last_recovery_time <-? py_get state_data "last_recovery_time" (VNum 0) ;;
  cool_down_end_time <-? py_get state_data "cool_down_end_time" (VNum 0) ;;
  let s := mkLoaded current last_recovery_time cool_down_end_time in
  _ <-? get_health_status_check s ;;   (* evaluated for the log line *)
  Ok s.

Definition load_state (prior : Loaded) (st : Storage) : Loaded :=
  match load_state_try prior st with
  | Ok s => s
  | Raise _ => healthy_default
  end.

(** [IllnessManager(storage)]: a fresh manager. *)
Definition init (st : Storage) : Loaded := load_state healthy_default st.

(** The typed attributes seen as loaded ones, and back when the loaded
    values have the annotated types. *)
Definition loaded_of_illness (i : IllnessInfo) : LoadedIllness :=
  mkLoadedIllness (illness_type i) (VNum (start_time i)) (VNum (severity i))
    (VStr (stage i)).

Definition loaded_of (s : Manager) : Loaded :=
  mkLoaded (option_map loaded_of_illness (current_illness s))
    (VNum (last_recovery_time s)) (VNum (cool_down_end_time s)).

Definition manager_of (l : Loaded) : option Manager :=
  match l_last_recovery_time l, l_cool_down_end_time l with
  | VNum r, VNum c =>
      match l_current_illness l with
      | None => Some (mkManager None r c)
      | Some (mkLoadedIllness ty (VNum t) (VNum sev) (VStr stg)) =>
          Some (mkManager (Some (mkIllnessInfo ty t sev stg)) r c)
      | Some _ => None
      end
  | _, _ => None
  end.

End IllnessManager.

(** ** Vocabulary of the specification *)

Module Spec.
Import IllnessTypes Py IllnessManager.

(** A clock frozen at [now]: every reading of [time.time()] returns [now]. *)
Definition frozen (now : Q) (w : World) : Prop := forall k, clock w k = now.

(** A storage whose operations do not raise. *)
Definition working (st : Storage) : Prop :=
  get_raises st = false /\ set_raises st = false.

(** The history log as the manager reads it: the list under the history
    key, the empty list when the key is unset, nothing when the cell holds
    something that is not a list. *)
Definition stored_history (st : Storage) : option (list PyVal) :=
  match cells st !! "illness_history" with
  | None => Some []
  | Some (VList h) => Some h
  | Some _ => None
  end.

(** The [n] most recent entries of a log whose newest entry is last. *)
Definition most_recent {A} (n : nat) (l : list A) : list A :=
  drop (length l - n) l.

(** Resolving a sequence of episodes, one [_add_to_history] each. *)
Fixpoint add_all (episodes : list (IllnessInfo * Q)) : M unit :=
  match episodes with
  | [] => ret tt
  | (illness, end_time) :: rest =>
      bind (_add_to_history illness end_time) (fun _ => add_all rest)
  end.

(** A test world: the given manager attributes and history cell, a working
    storage, the clock frozen at [now], every [random()] equal to [u] and
    every integer draw equal to [0]. *)
Definition test_storage (cells : gmap string PyVal) : Storage :=
  mkStorage cells false false.

Definition test_world (s : Manager) (cells : gmap string PyVal) (now u : Q) : World :=
  mkWorld s (test_storage cells) (fun _ => now) 0 (fun _ => u) (fun _ => 0%nat) 0.

(** Twenty-five resolved episodes, the n-th one a headache that started at
    second [n] and ended a day later. *)
Definition episodes25 : list (IllnessInfo * Q) :=
  map (fun n : nat =>
         (mkIllnessInfo HEADACHE (inject_Z (Z.of_nat n)) 0.3 "recovering",
          inject_Z (Z.of_nat n) + 86400))
      (seq 0 25).

End Spec.

(** ** illness_types.py: the random kind *)

Module IllnessTypesRandom.
Import IllnessTypes Py IllnessManager.

(** [t not in exclude_types] *)
Definition not_in (exclude_types : list IllnessType) (t : IllnessType) : bool :=
  negb (existsb (fun e => bool_decide (e = t)) exclude_types).

(** [get_random_illness_type(exclude_types=None)]; [None] and the empty list
    are both false under [if exclude_types:]. *)
Definition get_random_illness_type (exclude_types : option (list IllnessType))
    : M IllnessType :=
  let available_types := get_all_illness_types in
  let available_types :=
    match exclude_types with
    | Some (e :: es) => List.filter (not_in (e :: es)) available_types
    | _ => available_types
    end in
  match available_types with
  | [] => ret MILD_COLD
  | first :: _ => random_choice first available_types
  end.

End IllnessTypesRandom.

(** ** Vocabulary for the further properties *)

Module Props.
Import IllnessTypes Py IllnessManager Spec.

(** The order in which an illness passes through its stages. *)
Definition stage_rank (stage : string) : nat :=
  if bool_decide (stage = "initial") then 0
  else if bool_decide (stage = "progressing") then 1
  else 2.

(** What a manager restarted on the storage would hold is what the running
    manager holds. *)
Definition in_sync (w : World) : Prop :=
  init (storage w) = loaded_of (self w).

(** Two worlds that agree on everything but the storage. *)
Definition same_memory (w w' : World) : Prop :=
  self w = self w' /\ clock w = clock w' /\ ticks w = ticks w' /\
  rand w = rand w' /\ rand_below w = rand_below w' /\ draws w = draws w'.

(** A computation whose result and in-memory effects do not depend on the
    storage. *)
Definition storage_blind {A} (c : M A) : Prop :=
  forall w w', same_memory w w' ->
    fst (c w) = fst (c w') /\ same_memory (snd (c w)) (snd (c w')).

(** The sum of the weights of the first [i] entries of a weight table. *)
Definition weight_below (weights : table Z) (i : nat) : Z :=
  fold_right Z.add 0%Z (map snd (take i weights)).

Definition total_weight (weights : table Z) : Z :=
  fold_right Z.add 0%Z (map snd weights).

(** The world [w] with its clock replaced by one frozen at [now]. *)
Definition at_time (now : Q) (w : World) : World :=
  mkWorld (self w) (storage w) (fun _ => now) (ticks w) (rand w)
    (rand_below w) (draws w).

End Props.


(** ** Reasoning about computations in [M] *)

Module Wp.
Import IllnessTypes Py IllnessManager.

(** [wp c Q w]: running [c] in [w] gives a result and a world that
    satisfy [Q]. *)
Definition wp {A} (c : M A) (Q : A -> World -> Prop) (w : World) : Prop :=
  Q (fst (c w)) (snd (c w)).

(** What no operation other than [set_cool_down] changes: the oracles and
    the cooldown deadline. *)
Definition kept (w0 w : World) : Prop :=
  clock w = clock w0 /\ rand w = rand w0 /\ rand_below w = rand_below w0 /\
  cool_down_end_time (self w) = cool_down_end_time (self w0).

End Wp.


(** ** illness_manager.py: the status report *)

Module Status.
Import IllnessTypes Py IllnessManager.

(** An f-string is kept as the sequence of its pieces: literal text, a
    number formatted with [:.1f], the text [str(e)] of an exception.  How
    Python renders the last two as characters is not computed here. *)
Inductive Piece : Type :=
  | Lit (s : string)
  | Fixed1 (x : Q)
  | StrOf (e : Exception).

Definition Text : Type := list Piece.

(** [max(0, x)]: the first argument unless the second is greater. *)
Definition max0 (x : Q) : Q := if Qltb 0 x then x else 0.

(** The dict under ["current_illness"] of the status. *)
Record IllnessStatus : Type := mkIllnessStatus {
  status_type : string;
  status_description : string;
  status_start_time : Q;
  status_duration_hours : Q;
  status_remaining_hours : Q;
  status_severity : Q;
  status_stage : string
}.

(** The dict returned by [get_health_status]; the two keys that are set
    only when an illness is present are optional fields. *)
Record HealthStatus : Type := mkHealthStatus {
  is_healthy : bool;
  in_cool_down : bool;
  status_current_illness : option IllnessStatus;
  cool_down_remaining : Q;
  status_last_recovery_time : Q;
  recovery_remaining_hours : option Q;
  recovery_time_text : option Text
}.

Definition remaining_text (remaining_hours : Q) : Text :=
  if Qltb 24 remaining_hours
  then [Lit "预计还有"; Fixed1 (remaining_hours / 24); Lit "天康复"]
  else [Lit "预计还有"; Fixed1 remaining_hours; Lit "小时康复"].

Definition get_health_status : M HealthStatus :=
  current_time <- time_time ;;
  s <- get_self ;;
  let in_cd := Qltb current_time (cool_down_end_time s) in
  let cd_remaining :=
    if in_cd then (cool_down_end_time s - current_time) / 3600 else 0 in
  match current_illness s with
  | Some illness =>
      t <- time_time ;;
      let duration_hours := get_duration_hours t illness in
      let expected_duration := get_illness_duration (illness_type illness) in
      let remaining_hours := max0 (expected_duration - duration_hours) in
      ret (mkHealthStatus false in_cd
             (Some (mkIllnessStatus
                      (value (illness_type illness))
                      (get_illness_description (illness_type illness))
                      (start_time illness) duration_hours remaining_hours
                      (severity illness) (stage illness)))
             cd_remaining (last_recovery_time s)
             (Some remaining_hours) (Some (remaining_text remaining_hours)))
  | None =>
      ret (mkHealthStatus true in_cd None cd_remaining (last_recovery_time s)
             None None)
  end.

End Status.

(** ** plugin.py: the event handler and the commands *)

Module Plugin.
Import IllnessTypes Py IllnessManager Status.

Definition nl : string := String (ascii_of_nat 10) EmptyString.

(** [HandlerResult(success, continue_process, message)]; [None] is a
    message that was not given. *)
Record HandlerResult : Type := mkHandlerResult {
  success : bool;
  continue_process : bool;
  message : option Text
}.

(** [should_get_sick] called with a value read from a dict: the comparison
    [random.random() < daily_probability] raises [TypeError] on a value that
    is not a number, but only when it is reached, after the draw. *)
Definition should_get_sick_dyn (daily_probability : PyVal) : M (Exn bool) :=
  match daily_probability with
  | VNum p => r <- should_get_sick p ;; ret (Ok r)
  | VBool b => r <- should_get_sick (if b then 1 else 0) ;; ret (Ok r)
  | _ =>
      current_time <- time_time ;;
      s <- get_self ;;
      if Qltb current_time (cool_down_end_time s) then ret (Ok false)
      else match current_illness s with
           | Some _ => ret (Ok false)
           | None => _u <- random_random ;; ret (Raise TypeError)
           end
  end.

(** [IllnessStateHandler.execute].  [has_manager] tells whether
    [set_components] gave the handler a manager, whose state is the one of
    the world; [config] is the dict it gave, if any.  An empty dict is as
    false as [None]. *)
Definition handler_execute (has_manager : bool)
    (config : option (list (string * PyVal))) : M HandlerResult :=
  match has_manager, config with
  | true, Some (c :: cs) =>
      update_illness_state ;;;
      let daily_probability :=
        match assoc (c :: cs) "daily_probability" with
        | Some v => v
        | None => VNum 0.05
        end in
      r <- should_get_sick_dyn daily_probability ;;
      match r with
      | Ok true =>
          _new_illness <- trigger_random_illness ;;
          ret (mkHandlerResult true true (Some [Lit "疾病状态更新完成"]))
      | Ok false =>
          ret (mkHandlerResult true true (Some [Lit "疾病状态更新完成"]))
      | Raise e =>
          ret (mkHandlerResult false true
                 (Some [Lit "疾病状态更新失败："; StrOf e]))
      end
  | _, _ => ret (mkHandlerResult true true None)
  end.

(** The result of a command: the returned triple and the texts passed to
    [send_text], in order. *)
Definition CommandResult : Type := (bool * string * bool) * list Text.

(** [HealthCheckCommand.execute].  Indexing ["current_illness"] of a status
    that has none would raise. *)
Definition health_check_execute (has_manager : bool) : M (Exn CommandResult) :=
  if negb has_manager then
    ret (Ok ((false, "系统未初始化", true), [[Lit "健康系统未初始化"]]))
  else
    status <- get_health_status ;;
    let sent (message : Text) : Exn CommandResult :=
      Ok ((true, "健康状态查询成功", true), [message]) in
    if is_healthy status then
      if in_cool_down status then
        let remaining_hours := cool_down_remaining status in
        if Qltb 24 remaining_hours then
          ret (sent [Lit ("✅ 麦麦目前很健康！" ++ nl ++ nl
                          ++ "刚刚康复不久，正在休息恢复中，还有")%string;
                     Fixed1 (remaining_hours / 24); Lit "天的恢复期。"])
        else
          ret (sent [Lit ("✅ 麦麦目前很健康！" ++ nl ++ nl
                          ++ "刚刚康复不久，正在休息恢复中，还有")%string;
                     Fixed1 remaining_hours; Lit "小时的恢复期。"])
      else ret (sent [Lit "✅ 麦麦目前非常健康，精力充沛！"])
    else
      match status_current_illness status with
      | None => ret (Raise TypeError)
      | Some illness_info =>
          let recovery_time : Text :=
            match recovery_remaining_hours status with
            | Some remaining =>
                if Qltb 24 remaining
                then [Lit "预计还有"; Fixed1 (remaining / 24); Lit "天康复"]
                else [Lit "预计还有"; Fixed1 remaining; Lit "小时康复"]
            | None => [Lit "突发性症状，很快就会恢复"]
            end in
          ret (sent ([Lit ("🤒 麦麦目前生病了" ++ nl ++ nl ++ "**疾病类型**: ")%string;
                      Lit (status_type illness_info);
                      Lit (nl ++ "**症状描述**: ")%string;
                      Lit (status_description illness_info);
                      Lit (nl ++ "**恢复时间**: ")%string]
                     ++ recovery_time
                     ++ [Lit (nl ++ nl ++ "请对麦麦温柔一些哦～")%string]))
      end.

(** [ForceRecoveryCommand.execute]; [cool_down_days] is the value that
    [get_config("recovery.cool_down_days", 3.0)] returns. *)
Definition force_recovery_execute (has_manager : bool) (cool_down_days : Q)
    : M CommandResult :=
  if negb has_manager then
    ret ((false, "系统未初始化", true), [[Lit "健康系统未初始化"]])
  else
    force_recovery ;;;
    set_cool_down cool_down_days ;;;
    ret ((true, "强制康复成功", true),
         [[Lit "✅ 已强制麦麦恢复健康，并开始休息恢复期。"]]).

(** [ForceSickCommand.execute], with the weight table of the draw as a
    parameter; a description of [None] would be rendered as "None". *)
Definition force_sick_execute_with (weights : table Z) (has_manager : bool)
    : M CommandResult :=
  if negb has_manager then
    ret ((false, "系统未初始化", true), [[Lit "健康系统未初始化"]])
  else
    new_illness <- trigger_random_illness_with weights ;;
    match new_illness with
    | Some illness =>
        s <- get_self ;;
        let illness_type := value (illness_type illness) in
        let description :=
          match get_current_illness_description s with
          | Some d => d
          | None => "None"
          end in
        ret ((true, "强制生病成功", true),
             [[Lit ("✅ 已强制麦麦生病" ++ nl ++ nl ++ "**疾病类型**: ")%string;
               Lit illness_type;
               Lit (nl ++ "**症状描述**: ")%string;
               Lit description;
               Lit (nl ++ nl ++ "请对麦麦温柔一些哦～")%string]])
    | None =>
        ret ((false, "触发疾病失败", true), [[Lit "❌ 触发疾病失败，请检查日志"]])
    end.

Definition force_sick_execute : bool -> M CommandResult :=
  force_sick_execute_with weights_table.

End Plugin.


(** ** plugin.py: the prompt *)

Module PluginPrompt.
Import IllnessTypes Py IllnessManager Plugin.



(** [str.isspace()] on one code point, given by its UTF-8 bytes: the
    characters U+0009 to U+000D, U+001C to U+0020, U+0085, U+00A0, U+1680,
    U+2000 to U+200A, U+2028, U+2029, U+202F, U+205F and U+3000. *)
Definition is_space (code_point : string) : bool :=
  match map N_of_ascii (list_ascii_of_string code_point) with
  | [b] => ((9 <=? b) && (b <=? 13) || (28 <=? b) && (b <=? 32))%N
  | [194; b] => ((b =? 133) || (b =? 160))%N
  | [225; 154; 128] => true
  | [226; 128; b] =>
      ((128 <=? b) && (b <=? 138) || (b =? 168) || (b =? 169) || (b =? 175))%N
  | [226; 129; 159] => true
  | [227; 128; 128] => true
  | _ => false
  end%N.

Fixpoint lstrip (code_points : list string) : list string :=
  match code_points with
  | [] => []
  | c :: rest => if is_space c then lstrip rest else c :: rest
  end.

(** [s.strip()] *)
Definition strip (s : string) : string :=
  fold_right String.append EmptyString
    (rev (lstrip (rev (lstrip (code_points s))))).

(** [table.get(key, default)] on a dict from strings to strings. *)
Fixpoint str_get (tbl : list (string * string)) (key default : string) : string :=
  match tbl with
  | [] => default
  | (k, v) :: rest => if decide (k = key) then v else str_get rest key default
  end.

Definition tone_adjustments : list (string * string) :=
  [ ("重感冒", "因为重感冒，声音有些沙哑，说话比较慢，需要经常停下来咳嗽或擤鼻涕。");
    ("轻感冒", "因为轻感冒，鼻子有点塞，偶尔会打喷嚏，声音听起来有点闷闷的。");
    ("扁桃体炎/咽炎", "因为咽喉炎，吞咽时会有点痛，说话声音比较轻，需要时不时喝水润喉。");
    ("肠胃不适(腹泻)", "因为肠胃不适，说话时会偶尔停顿，声音听起来有点虚弱。");
    ("皮肤过敏/皮疹", "因为皮肤过敏，感觉有些不适，语气中带着一点点烦躁。");
    ("轻微擦伤", "因为轻微擦伤，行动有些不便，但精神状态还不错。");
    ("轻微头痛", "因为轻微头痛，思考速度会慢一些，说话声音比较轻。");
    ("落枕", "因为落枕，颈部活动受限，转头时会有些不适。");
    ("脚踝扭伤", "因为脚踝扭伤，走路有些不便，需要坐着休息。");
    ("鼻血", "刚刚止住鼻血，说话时还会用纸巾轻轻按着鼻子。");
    ("口腔溃疡", "因为口腔溃疡，说话时会尽量避免碰到溃疡处，发音有些不清。") ].

Definition _generate_normal_prompt (illness_type : IllnessType)
    (illness_desc : string) : string :=
  let base_tone :=
    str_get tone_adjustments (value illness_type)
      "因为身体不适，精神不是很好，说话比较轻声细语。" in
  strip
    (nl ++ "请注意：麦麦目前生病了，具体症状是："
           ++ illness_desc
           ++ nl ++ nl ++ "回复时需要体现以下特点：" ++ nl ++ "1. "
           ++ base_tone
           ++ nl ++ "2. 回复内容可以稍微简短一些，因为精力有限" ++ nl ++ "3. 可以适当地表达需要休息的意愿" ++ nl ++ "4. 对于复杂的问题可能需要更多时间思考" ++ nl ++ "5. 语气要温和、耐心，但略带疲惫" ++ nl ++ nl ++ "记住：这只是模拟生病状态，麦麦的核心人格和知识不受影响。" ++ nl)%string.

Definition kfc_tone_adjustments : list (string * string) :=
  [ ("重感冒", "今天重感冒，声音沙哑，说话慢，会咳嗽");
    ("轻感冒", "今天有点感冒，鼻子不通，偶尔打喷嚏");
    ("扁桃体炎/咽炎", "今天喉咙痛，说话轻声，需要喝水");
    ("肠胃不适(腹泻)", "今天肚子不舒服，说话有气无力");
    ("皮肤过敏/皮疹", "今天皮肤过敏，有点烦躁，不太舒服");
    ("轻微擦伤", "今天有点小擦伤，行动不太方便");
    ("轻微头痛", "今天头有点痛，思考慢，声音轻");
    ("落枕", "今天落枕了，脖子不太能动");
    ("脚踝扭伤", "今天脚踝扭了，走路不太方便");
    ("鼻血", "刚刚流鼻血，说话还会按着鼻子");
    ("口腔溃疡", "今天口腔溃疡，说话不太清楚") ].

(** [kfc_mode] is the configured value; [kfc_mode == "unified"] holds for
    that string only. *)
Definition _generate_kfc_prompt (illness_type : IllnessType)
    (illness_desc : string) (kfc_mode : PyVal) : string :=
  let kfc_tone :=
    str_get kfc_tone_adjustments (value illness_type)
      "今天身体不太舒服，精神不太好" in
  let unified :=
    match kfc_mode with
    | VStr m => bool_decide (m = "unified")
    | _ => false
    end in
  if unified then
    strip
      (nl ++ "你当前生病了："
             ++ illness_desc
             ++ nl
             ++ kfc_tone
             ++ "，需要多休息。" ++ nl ++ "回复简短些，语气温和但疲惫，可以表达需要休息。" ++ nl ++ "记住这只是模拟状态，核心人格不变。" ++ nl)%string
  else
    strip
      (nl ++ "【身体状态】"
             ++ kfc_tone
             ++ nl ++ "【症状描述】"
             ++ illness_desc
             ++ nl ++ "【当前需求】需要休息，回复简短" ++ nl ++ "【语气要求】温和耐心，略带疲惫" ++ nl)%string.

Definition afc_tone_adjustments : list (string * string) :=
  [ ("重感冒", "因重感冒导致声音沙哑、语速缓慢，伴有咳嗽");
    ("轻感冒", "因轻感冒出现鼻塞、偶尔打喷嚏，声音略显沉闷");
    ("扁桃体炎/咽炎", "因咽喉炎导致吞咽不适，说话声音较轻");
    ("肠胃不适(腹泻)", "因肠胃不适导致说话时有气无力");
    ("皮肤过敏/皮疹", "因皮肤过敏感到不适，语气略显烦躁");
    ("轻微擦伤", "因轻微擦伤导致行动稍有不便");
    ("轻微头痛", "因轻微头痛导致思考缓慢，声音较轻");
    ("落枕", "因落枕导致颈部活动受限");
    ("脚踝扭伤", "因脚踝扭伤导致行走不便");
    ("鼻血", "因鼻血刚止，说话时仍需轻按鼻部");
    ("口腔溃疡", "因口腔溃疡导致发音不清") ].

Definition _generate_afc_prompt (illness_type : IllnessType)
    (illness_desc : string) : string :=
  let afc_tone :=
    str_get afc_tone_adjustments (value illness_type)
      "因身体不适导致精神状态不佳" in
  strip
    (nl ++ "请注意：麦麦目前生病了。" ++ nl ++ "症状："
           ++ illness_desc
           ++ nl ++ "表现："
           ++ afc_tone
           ++ nl ++ nl ++ "回复要求：" ++ nl ++ "1. 内容可适当简短，体现精力有限" ++ nl ++ "2. 可表达需要休息的意愿" ++ nl ++ "3. 对复杂问题可能需要更多思考时间" ++ nl ++ "4. 保持温和耐心的语气" ++ nl ++ nl ++ "此为模拟生病状态，核心功能不受影响。" ++ nl)%string.






End PluginPrompt.


(** ** Facts about the embedding *)

Import IllnessTypes Py IllnessManager Spec.
Import IllnessTypesRandom Props Wp Status Plugin PluginPrompt.

Lemma Qltb_lt (x y : Q) : Qltb x y = true <-> x < y.
Proof.
  unfold Qltb. rewrite negb_true_iff. split; intros H.
  - apply Qnot_le_lt. intros Hle. apply Qle_bool_iff in Hle. congruence.
  - destruct (Qle_bool y x) eqn:E; [|reflexivity].
    apply Qle_bool_iff in E. exfalso. exact (Qlt_not_le _ _ H E).
Qed.

Lemma Qgeb_le (x y : Q) : Qgeb x y = true <-> y <= x.
Proof. unfold Qgeb. apply Qle_bool_iff. Qed.

Lemma Qltb_irrefl (x : Q) : Qltb x x = false.
Proof.
  unfold Qltb. apply negb_false_iff. apply Qle_bool_iff. apply Qle_refl.
Qed.

Lemma Qltb_Qgeb (x y : Q) : Qltb x y = negb (Qgeb x y).
Proof. reflexivity. Qed.

Lemma Qltb_ge (x y : Q) : Qltb x y = false <-> y <= x.
Proof. unfold Qltb. rewrite negb_false_iff. apply Qle_bool_iff. Qed.

(** *** Catalog *)

Lemma of_value_value (t : IllnessType) : of_value (value t) = Some t.
Proof. destruct t; vm_compute; reflexivity. Qed.

Lemma all_illness_types_complete (t : IllnessType) : In t get_all_illness_types.
Proof. destruct t; simpl; tauto. Qed.

Lemma duration_positive (t : IllnessType) : 0 < get_illness_duration t.
Proof. destruct t; reflexivity. Qed.

(** C9: every one of the 11 kinds has a positive nominal duration and a
    non-empty description; each of the four catalog lookups is a total
    function, and on a table that lacks the kind it returns its fallback:
    the generic description, 24 hours, severity 0.5, no successors. *)
Theorem catalog_total_with_fallbacks :
  length get_all_illness_types = 11%nat /\
  NoDup get_all_illness_types /\
  forall k : IllnessType,
    In k get_all_illness_types /\
    0 < get_illness_duration k /\
    get_illness_description k <> "" /\
    (forall tbl, lookup_table tbl k = None ->
       get_illness_description_in tbl k = "身体不适，需要休息。") /\
    (forall tbl, lookup_table tbl k = None ->
       get_illness_duration_in tbl k = 24) /\
    (forall tbl, lookup_table tbl k = None ->
       get_illness_severity_in tbl k = 0.5) /\
    (forall tbl, lookup_table tbl k = None ->
       get_possible_transitions_in tbl k = []).
Proof.
  split; [reflexivity|]. split.
  - apply (bool_decide_unpack _). vm_compute. reflexivity.
  - intros k. split; [apply all_illness_types_complete|].
    split; [apply duration_positive|].
    split; [destruct k; vm_compute; discriminate|].
    unfold get_illness_description_in, get_illness_duration_in,
      get_illness_severity_in, get_possible_transitions_in, dict_get.
    repeat split; intros tbl ->; reflexivity.
Qed.

(** *** Triggering and cooldown *)

Ltac splits := repeat match goal with |- _ /\ _ => split end.

Ltac run :=
  unfold should_get_sick, set_cool_down, save_state, force_recovery,
    recover_from_illness, transition_to_illness, _add_to_history,
    bind, ret, get_self, put_self, get_storage, put_storage,
    time_time, random_random, random_choice; simpl.

Lemma save_state_self (w : World) : self (snd (save_state w)) = self w.
Proof. run. destruct (storage_set _ _ _); reflexivity. Qed.

Lemma save_state_oracles (w : World) :
  let w' := snd (save_state w) in
  clock w' = clock w /\ rand w' = rand w /\ rand_below w' = rand_below w /\
  draws w' = draws w /\ ticks w' = S (ticks w).
Proof. run. destruct (storage_set _ _ _); repeat split. Qed.

Lemma set_cool_down_self (days : Q) (w : World) :
  self (snd (set_cool_down days w)) =
  mkManager (current_illness (self w)) (last_recovery_time (self w))
    (clock w (ticks w) + days * 24 * 3600).
Proof. run. destruct (storage_set _ _ _); reflexivity. Qed.

Lemma should_get_sick_pure (p : Q) (w : World) :
  self (snd (should_get_sick p w)) = self w /\
  storage (snd (should_get_sick p w)) = storage w.
Proof.
  run. destruct (Qltb _ _); [split; reflexivity|].
  destruct (current_illness (self w)); [split; reflexivity|].
  simpl. destruct (Qltb _ _); split; reflexivity.
Qed.

Lemma should_get_sick_in_cool_down (p : Q) (w : World) :
  clock w (ticks w) < cool_down_end_time (self w) ->
  fst (should_get_sick p w) = false /\
  draws (snd (should_get_sick p w)) = draws w.
Proof.
  intros Hlt. apply Qltb_lt in Hlt. run. rewrite Hlt. split; reflexivity.
Qed.

Lemma should_get_sick_when_ill (p : Q) (w : World) :
  current_illness (self w) <> None ->
  fst (should_get_sick p w) = false /\
  draws (snd (should_get_sick p w)) = draws w.
Proof.
  intros Hill. run. destruct (Qltb _ _); [split; reflexivity|].
  destruct (current_illness (self w)); [split; reflexivity|congruence].
Qed.

Lemma should_get_sick_draw (p : Q) (w : World) :
  cool_down_end_time (self w) <= clock w (ticks w) ->
  current_illness (self w) = None ->
  draws (snd (should_get_sick p w)) = S (draws w) /\
  (fst (should_get_sick p w) = true <-> rand w (draws w) < p).
Proof.
  intros Hle Hnone. apply Qltb_ge in Hle. run. rewrite Hle, Hnone. simpl.
  destruct (Qltb (rand w (draws w)) p) eqn:Eu; simpl; split; try reflexivity.
  - split; [intros _; apply Qltb_lt; exact Eu|reflexivity].
  - split; [discriminate|]. intros Hlt. apply Qltb_lt in Hlt. congruence.
Qed.

(** C3: [should_get_sick] changes neither the manager nor the storage; it
    answers false without drawing when the clock is strictly before
    [cool_down_end_time], whatever the probability, and when an illness is
    present; otherwise it draws [random()] once and answers true exactly when
    the draw is below [daily_probability].  [set_cool_down(days)] sets the
    deadline to the clock reading plus [days * 24 * 3600], so any later call
    of [should_get_sick] whose clock is strictly before that deadline answers
    false. *)
Theorem should_get_sick_spec (daily_probability : Q) (w : World) :
  let now := clock w (ticks w) in
  let r := fst (should_get_sick daily_probability w) in
  let w' := snd (should_get_sick daily_probability w) in
  self w' = self w /\ storage w' = storage w /\
  (now < cool_down_end_time (self w) -> r = false /\ draws w' = draws w) /\
  (current_illness (self w) <> None -> r = false /\ draws w' = draws w) /\
  (cool_down_end_time (self w) <= now -> current_illness (self w) = None ->
     draws w' = S (draws w) /\
     (r = true <-> rand w (draws w) < daily_probability)) /\
  (forall days : Q,
     let w1 := snd (set_cool_down days w) in
     cool_down_end_time (self w1) = now + days * 24 * 3600 /\
     current_illness (self w1) = current_illness (self w) /\
     last_recovery_time (self w1) = last_recovery_time (self w) /\
     forall (p : Q) (w2 : World),
       self w2 = self w1 ->
       clock w2 (ticks w2) < now + days * 24 * 3600 ->
       fst (should_get_sick p w2) = false).
Proof.
  cbv zeta.
  split; [apply should_get_sick_pure|].
  split; [apply should_get_sick_pure|].
  split; [apply should_get_sick_in_cool_down|].
  split; [apply should_get_sick_when_ill|].
  split; [apply should_get_sick_draw|].
  intros days. rewrite set_cool_down_self. simpl.
  repeat split.
  intros p w2 Hs Hlt. apply should_get_sick_in_cool_down.
  rewrite Hs. simpl. exact Hlt.
Qed.

Lemma should_get_sick_spec_witness :
  let w := test_world (mkManager None 0 0) ∅ 1000 0 in
  let w1 := snd (set_cool_down 3 w) in
  let before := test_world (self w1) ∅ 260199 0 in
  let at_end := test_world (self w1) ∅ 260200 0 in
  cool_down_end_time (self w1) = 1000 + 3 * 24 * 3600 /\
  clock before (ticks before) < 1000 + 3 * 24 * 3600 /\
  fst (should_get_sick 1 before) = false /\
  fst (should_get_sick 1 at_end) = true.
Proof.
  cbv zeta.
  pose proof (proj2 (proj2 (proj2 (proj2 (proj2
                (should_get_sick_spec 1
                   (test_world (mkManager None 0 0) ∅ 1000 0)))))) 3) as H.
  cbv zeta in H. destruct H as (Hend & _ & _ & Hfalse).
  split; [exact Hend|]. split; [reflexivity|]. split.
  - apply Hfalse; reflexivity.
  - reflexivity.
Defined.

(** *** The weighted draw *)

Lemma bisect_bounds (fuel : nat) (a : list Q) (x : Q) :
  forall lo hi : nat, (lo <= hi)%nat ->
    (lo <= bisect fuel a x lo hi <= hi)%nat.
Proof.
  induction fuel as [|fuel IH]; intros lo hi Hle; cbn [bisect]; [lia|].
  destruct (lo <? hi)%nat eqn:Elt; [|lia].
  apply Nat.ltb_lt in Elt.
  assert (Hmid : (lo <= (lo + hi) / 2 < hi)%nat).
  { split.
    - apply Nat.div_le_lower_bound; lia.
    - apply Nat.Div0.div_lt_upper_bound; lia. }
  destruct (a !! ((lo + hi) / 2)%nat) as [am|]; [|lia].
  destruct (Qltb x am).
  - specialize (IH lo ((lo + hi) / 2)%nat). lia.
  - specialize (IH (S ((lo + hi) / 2)) hi). lia.
Qed.

(** The fuel [n] that [random_choices] gives the loop is enough: once the
    fuel covers the width of the interval, more fuel changes nothing. *)
Lemma bisect_fuel (a : list Q) (x : Q) :
  forall (f1 f2 lo hi : nat),
    (hi - lo <= f1)%nat -> (hi - lo <= f2)%nat ->
    bisect f1 a x lo hi = bisect f2 a x lo hi.
Proof.
  induction f1 as [|f1 IH]; intros f2 lo hi H1 H2.
  - destruct f2 as [|f2]; cbn [bisect]; [reflexivity|].
    replace (lo <? hi)%nat with false by (symmetry; apply Nat.ltb_ge; lia).
    reflexivity.
  - destruct f2 as [|f2]; cbn [bisect].
    + replace (lo <? hi)%nat with false by (symmetry; apply Nat.ltb_ge; lia).
      reflexivity.
    + destruct (lo <? hi)%nat eqn:Elt; [|reflexivity].
      apply Nat.ltb_lt in Elt.
      assert (Hmid : (lo <= (lo + hi) / 2 < hi)%nat).
      { split.
        - apply Nat.div_le_lower_bound; lia.
        - apply Nat.Div0.div_lt_upper_bound; lia. }
      destruct (a !! ((lo + hi) / 2)%nat) as [am|]; [|reflexivity].
      destruct (Qltb x am); apply IH; lia.
Qed.

Lemma random_choices_world {A} (population : list A) (weights : list Z) (w : World) :
  let w1 := snd (random_choices population weights w) in
  self w1 = self w /\ storage w1 = storage w /\ clock w1 = clock w /\
  ticks w1 = ticks w /\ rand w1 = rand w /\ rand_below w1 = rand_below w.
Proof.
  unfold random_choices.
  destruct (negb _); [repeat split|].
  destruct (last _) as [total|]; [|repeat split].
  destruct (total <=? 0)%Z; repeat split.
Qed.

(** With the weights of the source the draw never raises, and it returns a
    kind of the table. *)
Lemma weighted_draw_succeeds (w : World) :
  exists k : IllnessType,
    fst (_get_weighted_random_illness w) = Ok k /\
    In k (map fst weights_table).
Proof.
  unfold _get_weighted_random_illness, _get_weighted_random_illness_with,
    random_choices.
  change (accumulate 0 (map snd weights_table))
    with [30; 50; 65; 80; 90; 105; 115; 125; 133; 138; 141]%Z.
  change (length (map fst weights_table)) with 11%nat.
  cbn [length Nat.eqb negb last Z.leb Z.compare].
  unfold bind, random_random, ret. cbn [fst snd].
  set (i := bisect _ _ _ _ _).
  assert (Hi : (0 <= i <= 10)%nat) by (apply bisect_bounds; lia).
  destruct (map fst weights_table !! i) as [k|] eqn:Ek.
  - exists k. split; [reflexivity|].
    apply list_elem_of_In. eapply list_elem_of_lookup_2. exact Ek.
  - apply lookup_ge_None in Ek. simpl in Ek. lia.
Qed.

Lemma trigger_with_ok (weights : table Z) (w : World) (k : IllnessType) :
  fst (_get_weighted_random_illness_with weights w) = Ok k ->
  let i := mkIllnessInfo k (clock w (ticks w)) (get_illness_severity k) "initial" in
  fst (trigger_random_illness_with weights w) = Some i /\
  self (snd (trigger_random_illness_with weights w)) =
    mkManager (Some i) (last_recovery_time (self w)) (cool_down_end_time (self w)).
Proof.
  intros Hk. cbv zeta. unfold trigger_random_illness_with, bind.
  unfold _get_weighted_random_illness_with in *.
  pose proof (random_choices_world (map fst weights) (map snd weights) w) as Hw.
  cbv zeta in Hw.
  destruct (random_choices (map fst weights) (map snd weights) w) as [r w1].
  simpl in Hk, Hw. subst r.
  destruct Hw as (Hs & _ & Hc & Ht & _).
  run. rewrite Hs, Hc, Ht.
  destruct (storage_set _ _ _); split; reflexivity.
Qed.

Lemma trigger_with_raise (weights : table Z) (w : World) (e : Exception) :
  fst (_get_weighted_random_illness_with weights w) = Raise e ->
  fst (trigger_random_illness_with weights w) = None /\
  self (snd (trigger_random_illness_with weights w)) = self w /\
  storage (snd (trigger_random_illness_with weights w)) = storage w.
Proof.
  intros He. unfold trigger_random_illness_with, bind.
  unfold _get_weighted_random_illness_with in *.
  pose proof (random_choices_world (map fst weights) (map snd weights) w) as Hw.
  cbv zeta in Hw.
  destruct (random_choices (map fst weights) (map snd weights) w) as [r w1].
  simpl in He, Hw. subst r. simpl.
  destruct Hw as (Hs & Hst & _). auto.
Qed.

(** C4: whatever the manager holds before, an illness present or not,
    [trigger_random_illness] returns a new [IllnessInfo] of a kind of the
    weight table, with [start_time] the clock reading, the catalog severity
    of that kind and stage "initial", and makes it the current illness,
    leaving the other attributes alone.  When the draw raises (which needs a
    weight table other than the one in the source) it returns [None] and
    neither the attributes nor the storage change. *)
Theorem trigger_random_illness_spec (w : World) :
  (exists i : IllnessInfo,
     fst (trigger_random_illness w) = Some i /\
     In (illness_type i) (map fst weights_table) /\
     start_time i = clock w (ticks w) /\
     severity i = get_illness_severity (illness_type i) /\
     stage i = "initial" /\
     self (snd (trigger_random_illness w)) =
       mkManager (Some i) (last_recovery_time (self w))
         (cool_down_end_time (self w))) /\
  (forall (weights : table Z) (e : Exception),
     fst (_get_weighted_random_illness_with weights w) = Raise e ->
     fst (trigger_random_illness_with weights w) = None /\
     self (snd (trigger_random_illness_with weights w)) = self w /\
     storage (snd (trigger_random_illness_with weights w)) = storage w).
Proof.
  split.
  - destruct (weighted_draw_succeeds w) as (k & Hk & Hin).
    destruct (trigger_with_ok weights_table w k Hk) as (Hr & Hs).
    eexists. split; [exact Hr|]. simpl. repeat split; assumption.
  - intros weights e. apply trigger_with_raise.
Qed.

(** The empty weight table makes the draw raise: the failure path of
    [trigger_random_illness] is exercised, here on a manager that is ill. *)
Lemma trigger_random_illness_spec_witness :
  let w := test_world
             (mkManager (Some (mkIllnessInfo HEADACHE 100 0.3 "initial")) 0 0)
             ∅ 5000 0.5 in
  fst (_get_weighted_random_illness_with [] w) = Raise IndexError /\
  fst (trigger_random_illness_with [] w) = None /\
  self (snd (trigger_random_illness_with [] w)) = self w /\
  storage (snd (trigger_random_illness_with [] w)) = storage w.
Proof.
  cbv zeta. split; [reflexivity|].
  apply (proj2 (trigger_random_illness_spec _) [] IndexError). reflexivity.
Defined.

(** *** The bounded history log *)

Lemma slice_from_negative {A} (n : nat) (l : list A) :
  (0 < n)%nat -> slice_from (- Z.of_nat n) l = most_recent n l.
Proof.
  intros Hn. unfold slice_from, most_recent.
  replace (- Z.of_nat n <? 0)%Z with true by (symmetry; apply Z.ltb_lt; lia).
  f_equal. lia.
Qed.

Lemma most_recent_short {A} (n : nat) (l : list A) :
  (length l <= n)%nat -> most_recent n l = l.
Proof.
  intros Hle. unfold most_recent.
  replace (length l - n)%nat with 0%nat by lia. apply drop_0.
Qed.

Lemma most_recent_length {A} (n : nat) (l : list A) :
  (length (most_recent n l) <= n)%nat.
Proof. unfold most_recent. rewrite length_drop. lia. Qed.

Lemma most_recent_app {A} (n : nat) (l k : list A) :
  most_recent n (most_recent n l ++ k) = most_recent n (l ++ k).
Proof.
  unfold most_recent.
  rewrite !length_app, length_drop.
  rewrite (drop_app l k (length l + length k - n)).
  rewrite (drop_app (drop (length l - n) l)), drop_drop, length_drop.
  f_equal; f_equal; lia.
Qed.

Lemma append_bounded_most_recent (h : list PyVal) (r : PyVal) :
  append_bounded h r = most_recent 20 (h ++ [r]).
Proof.
  unfold append_bounded.
  destruct (20 <? length (h ++ [r]))%nat eqn:E.
  - apply (slice_from_negative 20). lia.
  - apply Nat.ltb_ge in E. symmetry. apply most_recent_short. exact E.
Qed.

Lemma add_to_history_frame (illness : IllnessInfo) (end_time : Q) (w : World) :
  let w' := snd (_add_to_history illness end_time w) in
  self w' = self w /\ clock w' = clock w /\ ticks w' = ticks w /\
  rand w' = rand w /\ rand_below w' = rand_below w /\ draws w' = draws w /\
  get_raises (storage w') = get_raises (storage w) /\
  set_raises (storage w') = set_raises (storage w) /\
  cells (storage w') !! "illness_state" = cells (storage w) !! "illness_state".
Proof.
  run. unfold _add_to_history_try, storage_get, storage_set.
  destruct (get_raises (storage w)) eqn:Eg; simpl;
    [rewrite ?Eg; splits; reflexivity|].
  destruct (match cells (storage w) !! "illness_history" with
            | Some v => v | None => VList [] end);
    simpl; rewrite ?Eg; try (splits; reflexivity).
  destruct (set_raises (storage w)) eqn:Es; simpl; rewrite ?Eg, ?Es;
    splits; try reflexivity.
  rewrite lookup_insert_ne by discriminate. reflexivity.
Qed.

Lemma add_to_history_ok (illness : IllnessInfo) (end_time : Q) (w : World)
    (h : list PyVal) :
  working (storage w) -> stored_history (storage w) = Some h ->
  stored_history (storage (snd (_add_to_history illness end_time w))) =
    Some (most_recent 20 (h ++ [history_record illness end_time])).
Proof.
  intros [Hg Hs] Hh. run.
  unfold _add_to_history_try, storage_get, storage_set, stored_history in *.
  rewrite Hg, Hs. simpl.
  destruct (cells (storage w) !! "illness_history") as [v|] eqn:Ec.
  - destruct v; try discriminate. injection Hh as ->. simpl.
    rewrite lookup_insert_eq, append_bounded_most_recent. reflexivity.
  - injection Hh as <-. simpl.
    rewrite lookup_insert_eq, append_bounded_most_recent. reflexivity.
Qed.

Lemma add_to_history_bounded (illness : IllnessInfo) (end_time : Q) (w : World)
    (h : list PyVal) :
  stored_history (storage w) = Some h -> (length h <= 20)%nat ->
  exists h' : list PyVal,
    stored_history (storage (snd (_add_to_history illness end_time w))) = Some h' /\
    (length h' <= 20)%nat.
Proof.
  intros Hh Hlen.
  destruct (get_raises (storage w)) eqn:Hg;
    [|destruct (set_raises (storage w)) eqn:Hs].
  - exists h. split; [|exact Hlen].
    run. unfold _add_to_history_try, storage_get. rewrite Hg. exact Hh.
  - exists h. split; [|exact Hlen].
    run. unfold _add_to_history_try, storage_get, storage_set.
    rewrite Hg, Hs. simpl.
    destruct (match cells (storage w) !! "illness_history" with
              | Some v => v | None => VList [] end); exact Hh.
  - eexists. split.
    + apply add_to_history_ok; [split; assumption|exact Hh].
    + apply most_recent_length.
Qed.

Lemma add_all_ok (episodes : list (IllnessInfo * Q)) :
  forall (w : World) (h : list PyVal),
    working (storage w) -> stored_history (storage w) = Some h ->
    (length h <= 20)%nat ->
    stored_history (storage (snd (add_all episodes w))) =
      Some (most_recent 20
              (h ++ map (fun e => history_record (fst e) (snd e)) episodes)).
Proof.
  induction episodes as [|[illness end_time] rest IH]; intros w h Hw Hh Hlen.
  - simpl. rewrite app_nil_r, most_recent_short by exact Hlen. exact Hh.
  - cbn [add_all]. unfold bind.
    pose proof (add_to_history_ok illness end_time w h Hw Hh) as H1.
    pose proof (add_to_history_frame illness end_time w) as Hf. cbv zeta in Hf.
    destruct (_add_to_history illness end_time w) as [[] w1]. simpl in H1, Hf.
    destruct Hw as [Hg Hs]. destruct Hf as (_ & _ & _ & _ & _ & _ & Hg1 & Hs1 & _).
    rewrite (IH w1 _ (conj (eq_trans Hg1 Hg) (eq_trans Hs1 Hs)) H1
               (most_recent_length _ _)).
    simpl. rewrite most_recent_app, <- app_assoc. reflexivity.
Qed.

(** C5: a history log that holds at most 20 records still holds at most 20
    after [_add_to_history], whether or not the storage raises; on a working
    storage the log becomes the 20 most recent entries of the old log
    followed by the new record, in order; hence resolving a sequence of
    episodes leaves the 20 most recent of all records, and 25 episodes on
    an empty log leave exactly the records of the last 20. *)
Theorem history_keeps_most_recent_20 (w : World) (h : list PyVal) :
  stored_history (storage w) = Some h ->
  (length h <= 20)%nat ->
  (forall illness end_time,
     exists h' : list PyVal,
       stored_history (storage (snd (_add_to_history illness end_time w))) = Some h' /\
       (length h' <= 20)%nat) /\
  (working (storage w) ->
     (forall illness end_time,
        stored_history (storage (snd (_add_to_history illness end_time w))) =
          Some (most_recent 20 (h ++ [history_record illness end_time]))) /\
     (forall episodes,
        stored_history (storage (snd (add_all episodes w))) =
          Some (most_recent 20
                  (h ++ map (fun e => history_record (fst e) (snd e)) episodes))) /\
     (forall episodes,
        h = [] -> length episodes = 25%nat ->
        stored_history (storage (snd (add_all episodes w))) =
          Some (map (fun e => history_record (fst e) (snd e)) (drop 5 episodes)))).
Proof.
  intros Hh Hlen. split.
  - intros illness end_time. eapply add_to_history_bounded; eassumption.
  - intros Hw. split; [|split].
    + intros illness end_time. apply add_to_history_ok; assumption.
    + intros episodes. apply add_all_ok; assumption.
    + intros episodes -> H25.
      rewrite (add_all_ok episodes w [] Hw Hh Hlen). simpl.
      unfold most_recent. rewrite length_map, H25. simpl.
      rewrite skipn_map. reflexivity.
Qed.

Lemma history_keeps_most_recent_20_witness :
  let w := test_world (mkManager None 0 0) ∅ 0 0 in
  stored_history (storage w) = Some [] /\
  (length (@nil PyVal) <= 20)%nat /\
  working (storage w) /\
  length episodes25 = 25%nat /\
  stored_history (storage (snd (add_all episodes25 w))) =
    Some (map (fun e => history_record (fst e) (snd e)) (drop 5 episodes25)).
Proof.
  cbv zeta. split; [reflexivity|]. split; [simpl; lia|].
  split; [split; reflexivity|]. split; [reflexivity|].
  refine (proj2 (proj2 (proj2
            (history_keeps_most_recent_20
               (test_world (mkManager None 0 0) ∅ 0 0) [] eq_refl _) _))
            episodes25 eq_refl eq_refl).
  - simpl. lia.
  - split; reflexivity.
Defined.

(** Running the 25 appends on the model itself gives the same log. *)
Example episodes25_run :
  stored_history
    (storage (snd (add_all episodes25 (test_world (mkManager None 0 0) ∅ 0 0)))) =
  Some (map (fun e => history_record (fst e) (snd e)) (drop 5 episodes25)).
Proof. vm_compute. reflexivity. Qed.

(** *** Recovery *)

Lemma recover_self (w : World) (i : IllnessInfo) :
  current_illness (self w) = Some i ->
  self (snd (recover_from_illness w)) =
    mkManager None (clock w (S (S (ticks w)))) (cool_down_end_time (self w)).
Proof.
  intros Hcur.
  unfold recover_from_illness, bind, get_self, time_time, put_self.
  simpl. rewrite Hcur.
  match goal with
  | |- context [_add_to_history ?a ?b ?w0] =>
      pose proof (add_to_history_frame a b w0) as Hf;
      destruct (_add_to_history a b w0) as [[] w1]
  end.
  cbv zeta in Hf. simpl in Hf. destruct Hf as (Hs & Hc & Ht & _).
  rewrite save_state_self. simpl. rewrite Hc, Ht. reflexivity.
Qed.

Lemma recover_storage (w : World) (i : IllnessInfo) (h : list PyVal) :
  current_illness (self w) = Some i ->
  working (storage w) -> stored_history (storage w) = Some h ->
  let w' := snd (recover_from_illness w) in
  stored_history (storage w') =
    Some (most_recent 20 (h ++ [history_record i (clock w (S (ticks w)))])) /\
  cells (storage w') !! "illness_state" =
    Some (state_data_of (self w') (clock w (S (S (S (ticks w)))))) /\
  working (storage w').
Proof.
  intros Hcur [Hg Hs] Hh. cbv zeta. run. rewrite Hcur. simpl.
  unfold _add_to_history_try, storage_get, storage_set, stored_history in *.
  rewrite Hg, Hs. simpl.
  assert (Hv : match cells (storage w) !! "illness_history" with
               | Some v => v | None => VList [] end = VList h).
  { destruct (cells (storage w) !! "illness_history") as [[]|];
      try discriminate; injection Hh as ->; reflexivity. }
  rewrite Hv. simpl. rewrite ?Hs, ?Hg. simpl.
  rewrite lookup_insert_ne by discriminate.
  rewrite !lookup_insert_eq, append_bounded_most_recent.
  splits; [reflexivity|reflexivity|split; reflexivity].
Qed.

Lemma recover_when_healthy (w : World) :
  current_illness (self w) = None -> recover_from_illness w = (tt, w).
Proof. intros Hcur. run. rewrite Hcur. reflexivity. Qed.

(** C6: with the clock frozen at [now] and an illness [i] present,
    [recover_from_illness] clears the current illness and sets
    [last_recovery_time] to [now]; on a working storage it appends to the
    history log (cut to its 20 most recent entries) the record made of the
    kind, the start time, the end time [now], the duration
    [(now - start_time) / 3600] and the severity of [i], and saves the new
    attributes.  [force_recovery] is the same call when an illness is
    present and changes nothing when the manager is healthy. *)
Theorem recover_from_illness_spec :
  (forall (w : World) (i : IllnessInfo) (now : Q),
     current_illness (self w) = Some i ->
     frozen now w ->
     let w' := snd (recover_from_illness w) in
     current_illness (self w') = None /\
     last_recovery_time (self w') = now /\
     cool_down_end_time (self w') = cool_down_end_time (self w) /\
     force_recovery w = recover_from_illness w /\
     forall h : list PyVal,
       working (storage w) -> stored_history (storage w) = Some h ->
       stored_history (storage w') =
         Some (most_recent 20
                 (h ++ [VDict [ ("type", VStr (value (illness_type i)));
                                ("start_time", VNum (start_time i));
                                ("end_time", VNum now);
                                ("duration_hours",
                                   VNum ((now - start_time i) / 3600));
                                ("severity", VNum (severity i)) ]])) /\
       cells (storage w') !! "illness_state" =
         Some (state_data_of (mkManager None now (cool_down_end_time (self w))) now)) /\
  (forall w : World,
     current_illness (self w) = None -> force_recovery w = (tt, w)).
Proof.
  split.
  - intros w i now Hcur Hfrozen. cbv zeta.
    rewrite (recover_self w i Hcur), Hfrozen. simpl.
    splits; try reflexivity.
    + unfold force_recovery, bind, get_self. rewrite Hcur. reflexivity.
    + intros h Hw Hh.
      destruct (recover_storage w i h Hcur Hw Hh) as (H1 & H2 & _).
      rewrite H1, H2, (recover_self w i Hcur), !Hfrozen. split; reflexivity.
  - intros w Hcur. unfold force_recovery, bind, get_self, ret.
    rewrite Hcur. reflexivity.
Qed.

Lemma recover_from_illness_spec_witness :
  let i := mkIllnessInfo SEVERE_COLD 0 0.8 "recovering" in
  let w := test_world (mkManager (Some i) 0 0) ∅ 176400 0.9 in
  let w' := snd (recover_from_illness w) in
  current_illness (self w) = Some i /\
  frozen 176400 w /\
  working (storage w) /\
  stored_history (storage w) = Some [] /\
  current_illness (self w') = None /\
  last_recovery_time (self w') = 176400 /\
  stored_history (storage w') =
    Some [VDict [ ("type", VStr "重感冒"); ("start_time", VNum 0);
                  ("end_time", VNum 176400);
                  ("duration_hours", VNum ((176400 - 0) / 3600));
                  ("severity", VNum 0.8) ]].
Proof.
  cbv zeta.
  split; [reflexivity|]. split; [intros k; reflexivity|].
  split; [split; reflexivity|]. split; [reflexivity|].
  pose proof (proj1 recover_from_illness_spec
                (test_world
                   (mkManager (Some (mkIllnessInfo SEVERE_COLD 0 0.8 "recovering")) 0 0)
                   ∅ 176400 0.9)
                (mkIllnessInfo SEVERE_COLD 0 0.8 "recovering") 176400
                eq_refl (fun _ => eq_refl)) as H.
  cbv zeta in H. destruct H as (H1 & H2 & _ & _ & H5).
  split; [exact H1|]. split; [exact H2|].
  exact (proj1 (H5 [] (conj eq_refl eq_refl) eq_refl)).
Defined.

(** *** Reading the history *)

Lemma get_illness_history_positive (st : Storage) (h : list PyVal) (limit : Z) :
  get_raises st = false -> stored_history st = Some h -> (0 < limit)%Z ->
  get_illness_history st limit = VList (most_recent (Z.to_nat limit) h).
Proof.
  intros Hg Hh Hpos. unfold get_illness_history, storage_get, stored_history in *.
  rewrite Hg.
  assert (Hv : match cells st !! "illness_history" with
               | Some v => v | None => VList [] end = VList h).
  { destruct (cells st !! "illness_history") as [[]|];
      try discriminate; injection Hh as ->; reflexivity. }
  rewrite Hv. simpl.
  destruct h as [|r h]; simpl.
  - unfold most_recent. rewrite drop_nil. reflexivity.
  - f_equal. rewrite <- (Z2Nat.id limit) at 1 by lia.
    apply slice_from_negative. lia.
Qed.

Lemma get_illness_history_read_failure (st : Storage) (limit : Z) :
  get_raises st = true -> get_illness_history st limit = VList [].
Proof.
  intros Hg. unfold get_illness_history, storage_get. rewrite Hg. reflexivity.
Qed.

(** C10, at limit 0: the slice [history[-0:]] is [history[0:]], so on a
    non-empty stored log [get_illness_history(0)] returns the whole log and
    not the empty sequence. *)
Theorem get_illness_history_limit_zero (st : Storage) (h : list PyVal) :
  get_raises st = false ->
  cells st !! "illness_history" = Some (VList h) ->
  h <> [] ->
  get_illness_history st 0 = VList h /\
  get_illness_history st 0 <> VList (most_recent 0 h).
Proof.
  intros Hg Hh Hne.
  assert (H0 : get_illness_history st 0 = VList h).
  { unfold get_illness_history, storage_get. rewrite Hg, Hh. simpl.
    destruct h as [|r h]; [congruence|]. reflexivity. }
  split; [exact H0|]. rewrite H0.
  unfold most_recent. rewrite Nat.sub_0_r, drop_all.
  intros Heq. injection Heq as ->. congruence.
Qed.

Lemma get_illness_history_limit_zero_witness :
  let r1 := history_record (mkIllnessInfo HEADACHE 0 0.3 "recovering") 86400 in
  let r2 := history_record (mkIllnessInfo NOSEBLEED 90000 0.3 "recovering") 91800 in
  let st := test_storage (<["illness_history" := VList [r1; r2]]> ∅) in
  get_illness_history st 0 = VList [r1; r2] /\
  get_illness_history st 1 = VList [r2].
Proof.
  cbv zeta. split.
  - apply get_illness_history_limit_zero.
    + reflexivity.
    + reflexivity.
    + discriminate.
  - reflexivity.
Defined.

(** *** Loading and the round trip *)

Lemma IllnessType_call_valid (v : PyVal) (t : IllnessType) :
  IllnessType_call v = Ok t <-> v = VStr (value t).
Proof.
  split.
  - destruct v; try discriminate. simpl.
    destruct (of_value s) as [t'|] eqn:E; [|discriminate].
    intros [= ->]. unfold of_value in E.
    apply find_some in E as [_ E]. apply bool_decide_eq_true_1 in E.
    congruence.
  - intros ->. simpl. rewrite of_value_value. reflexivity.
Qed.

Lemma IllnessType_call_invalid (v : PyVal) :
  (forall t, v <> VStr (value t)) -> IllnessType_call v = Raise ValueError.
Proof.
  intros Hv. destruct (IllnessType_call v) as [t|e] eqn:E.
  - apply IllnessType_call_valid in E. exfalso. exact (Hv t E).
  - destruct v; simpl in E; try congruence.
    destruct (of_value s); congruence.
Qed.

Lemma truthy_dict (d : list (string * PyVal)) : d <> [] -> truthy (VDict d) = true.
Proof. destruct d; [congruence|reflexivity]. Qed.

Lemma manager_of_loaded_of (s : Manager) : manager_of (loaded_of s) = Some s.
Proof. destruct s as [[[]|] ? ?]; reflexivity. Qed.

(** C7: [load_state] never raises: whatever goes wrong inside its [try]
    (the storage raising, a blob that is not a dict, an illness entry
    without a valid "type" or without "start_time", a "start_time" or
    "cool_down_end_time" that is not a number), the attributes are reset to
    no illness, [last_recovery_time = 0], [cool_down_end_time = 0].  When
    the blob holds an illness entry with a valid type and a numeric start
    time, the illness is rebuilt from these fields, with severity 0.5 and
    stage "initial" when the entry lacks them. *)
Theorem load_state_spec (prior : Loaded) (st : Storage) :
  (forall e, load_state_try prior st = Raise e ->
     load_state prior st = healthy_default) /\
  (get_raises st = true -> load_state prior st = healthy_default) /\
  (forall v, get_raises st = false -> cells st !! "illness_state" = Some v ->
     (forall d, v <> VDict d) -> load_state prior st = healthy_default) /\
  (forall d idata,
     get_raises st = false -> cells st !! "illness_state" = Some (VDict d) ->
     assoc d "current_illness" = Some (VDict idata) -> idata <> [] ->
     (forall t, assoc idata "type" <> Some (VStr (value t))) \/
     assoc idata "start_time" = None \/
     (exists start, assoc idata "start_time" = Some start /\
                    is_number start = false) \/
     is_number (default (VNum 0) (assoc d "cool_down_end_time")) = false ->
     load_state prior st = healthy_default) /\
  (forall d idata t start,
     get_raises st = false -> cells st !! "illness_state" = Some (VDict d) ->
     assoc d "current_illness" = Some (VDict idata) -> idata <> [] ->
     assoc idata "type" = Some (VStr (value t)) ->
     assoc idata "start_time" = Some start -> is_number start = true ->
     is_number (default (VNum 0) (assoc d "cool_down_end_time")) = true ->
     load_state prior st =
       mkLoaded
         (Some (mkLoadedIllness t start
                  (default (VNum 0.5) (assoc idata "severity"))
                  (default (VStr "initial") (assoc idata "stage"))))
         (default (VNum 0) (assoc d "last_recovery_time"))
         (default (VNum 0) (assoc d "cool_down_end_time"))).
Proof.
  splits.
  - intros e He. unfold load_state. rewrite He. reflexivity.
  - intros Hg. unfold load_state, load_state_try, storage_get.
    rewrite Hg. reflexivity.
  - intros v Hg Hc Hv. unfold load_state, load_state_try, storage_get.
    rewrite Hg, Hc. destruct v; try reflexivity. exfalso. exact (Hv d eq_refl).
  - intros d idata Hg Hc Hcur Hne Hbad.
    unfold load_state, load_state_try, storage_get.
    rewrite Hg, Hc. cbn [bindE py_get py_getitem]. rewrite Hcur.
    rewrite (truthy_dict idata Hne). cbn [bindE py_get py_getitem].
    destruct (assoc idata "type") as [tv|] eqn:Et;
      cbn [bindE py_get py_getitem]; [|reflexivity].
    destruct (IllnessType_call tv) as [t|e] eqn:Ecall;
      cbn [bindE py_get py_getitem]; [|reflexivity].
    apply IllnessType_call_valid in Ecall. subst tv.
    destruct (assoc idata "start_time") as [start|] eqn:Es;
      cbn [bindE py_get py_getitem]; [|reflexivity].
    unfold get_health_status_check, require_number.
    cbn [l_cool_down_end_time l_current_illness l_start_time].
    destruct Hbad as [Hbad|[Hbad|[(start' & Hs' & Hnum)|Hbad]]].
    + exfalso. exact (Hbad t eq_refl).
    + discriminate.
    + injection Hs' as <-.
      rewrite Hnum.
      destruct (is_number match assoc d "cool_down_end_time" with
                          | Some v => v | None => VNum 0 end); reflexivity.
    + destruct (assoc d "cool_down_end_time"); simpl in Hbad;
        [rewrite Hbad; reflexivity|discriminate].
  - intros d idata t start Hg Hc Hcur Hne Ht Hs Hnum Hcd.
    unfold load_state, load_state_try, storage_get.
    rewrite Hg, Hc. cbn [bindE py_get py_getitem]. rewrite Hcur.
    rewrite (truthy_dict idata Hne). cbn [bindE py_get py_getitem].
    rewrite Ht. cbn [bindE py_get py_getitem IllnessType_call].
    rewrite of_value_value. cbn [bindE py_get py_getitem]. rewrite Hs.
    cbn [bindE py_get py_getitem].
    unfold get_health_status_check, require_number.
    cbn [l_cool_down_end_time l_current_illness l_start_time].
    destruct (assoc d "cool_down_end_time"), (assoc d "last_recovery_time"),
      (assoc idata "severity"), (assoc idata "stage");
      simpl in Hcd |- *; rewrite ?Hcd; cbn [bindE]; rewrite Hnum; reflexivity.
Qed.

Lemma load_state_spec_witness :
  let entry := [("type", VStr "落枕"); ("start_time", VNum 1000)] in
  let blob := [("current_illness", VDict entry); ("last_recovery_time", VNum 500)] in
  let st := test_storage (<["illness_state" := VDict blob]> ∅) in
  init st =
    mkLoaded (Some (mkLoadedIllness STIFF_NECK (VNum 1000) (VNum 0.5) (VStr "initial")))
      (VNum 500) (VNum 0) /\
  init (mkStorage ∅ true false) = healthy_default /\
  init (test_storage (<["illness_state" := VStr "garbage"]> ∅)) = healthy_default.
Proof.
  cbv zeta. splits.
  - apply (proj2 (proj2 (proj2 (proj2 (load_state_spec healthy_default _))))
             [("current_illness",
               VDict [("type", VStr "落枕"); ("start_time", VNum 1000)]);
              ("last_recovery_time", VNum 500)]
             [("type", VStr "落枕"); ("start_time", VNum 1000)]
             STIFF_NECK (VNum 1000));
      solve [reflexivity | discriminate].
  - apply (proj1 (proj2 (load_state_spec healthy_default _))). reflexivity.
  - apply (proj1 (proj2 (proj2 (load_state_spec healthy_default _)))
             (VStr "garbage")); solve [reflexivity | discriminate].
Defined.

(** C8: on a working storage, a fresh manager built from the storage that
    [save_state] has just written holds the attributes that were saved: the
    same illness (kind, start time, severity, stage) or none, the same
    [last_recovery_time] and the same [cool_down_end_time]. *)
Theorem save_then_load_roundtrip (w : World) :
  working (storage w) ->
  init (storage (snd (save_state w))) = loaded_of (self w) /\
  manager_of (init (storage (snd (save_state w)))) = Some (self w).
Proof.
  intros [Hg Hs].
  assert (H : init (storage (snd (save_state w))) = loaded_of (self w)).
  { run. unfold storage_set. rewrite Hs. simpl.
    unfold init, load_state, load_state_try, storage_get. simpl.
    rewrite Hg, lookup_insert_eq. simpl.
    destruct (self w) as [[i|] lrt cd]; simpl; [|reflexivity].
    rewrite of_value_value. destruct i; reflexivity. }
  split; [exact H|]. rewrite H. apply manager_of_loaded_of.
Qed.

Lemma save_then_load_roundtrip_witness :
  let s := mkManager (Some (mkIllnessInfo TONSILLITIS 1700000000 0.6 "progressing"))
             1699000000 1699500000 in
  let w := test_world s ∅ 1700050000 0.5 in
  working (storage w) /\
  manager_of (init (storage (snd (save_state w)))) = Some s.
Proof.
  cbv zeta. split; [split; reflexivity|].
  apply (save_then_load_roundtrip
           (test_world
              (mkManager
                 (Some (mkIllnessInfo TONSILLITIS 1700000000 0.6 "progressing"))
                 1699000000 1699500000) ∅ 1700050000 0.5)).
  split; reflexivity.
Defined.

(** *** Advancing the state *)

Lemma stage_of_progress_done (d e : Q) :
  0 < e -> e <= d -> stage_of_progress (d / e) = "recovering".
Proof.
  intros He Hle. unfold stage_of_progress.
  assert (H1 : 1 <= d / e).
  { apply Qle_shift_div_l; [exact He|]. rewrite Qmult_1_l. exact Hle. }
  assert (H3 : Qltb (d / e) 0.3 = false).
  { apply Qltb_ge. eapply Qle_trans; [|exact H1]. discriminate. }
  assert (H7 : Qltb (d / e) 0.7 = false).
  { apply Qltb_ge. eapply Qle_trans; [|exact H1]. discriminate. }
  rewrite H3, H7. reflexivity.
Qed.

Lemma stage_of_progress_start (x e : Q) :
  x == 0 -> stage_of_progress (if Qltb 0 e then x / e else 0) = "initial".
Proof.
  intros Hx. unfold stage_of_progress.
  assert (H : Qltb (if Qltb 0 e then x / e else 0) 0.3 = true).
  { apply Qltb_lt. destruct (Qltb 0 e); [|reflexivity].
    unfold Qdiv. rewrite Hx, Qmult_0_l. reflexivity. }
  rewrite H. reflexivity.
Qed.

Ltac step_save :=
  match goal with
  | |- context [save_state ?W] =>
      let Hs := fresh "Hself" in
      let Ho := fresh "Horacle" in
      let w' := fresh "w" in
      pose proof (save_state_self W) as Hs;
      pose proof (save_state_oracles W) as Ho;
      cbv zeta in Ho;
      destruct (save_state W) as [[] w'];
      cbn [fst snd self clock ticks rand rand_below draws] in Hs, Ho;
      destruct Ho as (? & ? & ? & ? & ?)
  end.

Lemma update_stage_run (d e : Q) (w : World) (i : IllnessInfo) :
  current_illness (self w) = Some i ->
  let new_stage := stage_of_progress (if Qltb 0 e then d / e else 0) in
  let w' := snd (_update_illness_stage d e w) in
  self w' =
    mkManager (Some (mkIllnessInfo (illness_type i) (start_time i) (severity i)
                       new_stage))
      (last_recovery_time (self w)) (cool_down_end_time (self w)) /\
  clock w' = clock w.
Proof.
  intros Hcur. cbv zeta. unfold _update_illness_stage, bind, get_self, put_self.
  cbn [fst snd self clock]. rewrite Hcur.
  destruct (bool_decide _) eqn:Estage.
  - apply bool_decide_eq_true_1 in Estage. unfold ret. cbn [snd].
    split; [|reflexivity]. rewrite <- Estage.
    destruct (self w) as [cur lrt cd]. simpl in *. subst cur.
    destruct i; reflexivity.
  - cbn [fst snd self clock]. step_save. cbn [snd]. split; assumption.
Qed.

Lemma update_transition_branch (w : World) (i : IllnessInfo) (now : Q) :
  current_illness (self w) = Some i ->
  frozen now w ->
  get_illness_duration (illness_type i) <= (now - start_time i) / 3600 ->
  get_possible_transitions (illness_type i) <> [] ->
  rand w (draws w) < 0.7 ->
  let w' := snd (update_illness_state w) in
  exists k : IllnessType,
    In k (get_possible_transitions (illness_type i)) /\
    self w' =
      mkManager (Some (mkIllnessInfo k now (get_illness_severity k) "recovering"))
        (last_recovery_time (self w)) (cool_down_end_time (self w)) /\
    clock w' = clock w.
Proof.
  intros Hcur Hfrozen Hdue Hsucc Hu. cbv zeta.
  pose proof (duration_positive (illness_type i)) as Hpos.
  unfold update_illness_state, bind, get_self, time_time.
  cbn [fst snd self clock ticks rand rand_below draws]. rewrite Hcur.
  cbn [fst snd self clock ticks rand rand_below draws].
  unfold get_duration_hours. rewrite !Hfrozen.
  apply Qgeb_le in Hdue. rewrite Hdue.
  destruct (get_possible_transitions (illness_type i)) as [|first rest] eqn:Et;
    [congruence|].
  unfold random_random, random_choice, transition_to_illness, bind, get_self,
    time_time, put_self.
  cbn [fst snd self clock ticks rand rand_below draws].
  apply Qltb_lt in Hu. rewrite Hu.
  cbn [fst snd self clock ticks rand rand_below draws].
  rewrite !Hfrozen.
  set (k := nth _ (first :: rest) first).
  assert (Hk : In k (first :: rest)).
  { apply nth_In. apply Nat.mod_upper_bound. discriminate. }
  step_save.
  assert (Hcur0 : current_illness (self w0) =
                  Some (mkIllnessInfo k now (get_illness_severity k) "initial"))
    by (rewrite Hself; reflexivity).
  destruct (update_stage_run ((now - start_time i) / 3600)
              (get_illness_duration (illness_type i)) w0 _ Hcur0) as [Hs Hc].
  exists k. split; [exact Hk|]. split; [|congruence].
  rewrite Hs, Hself. cbn [illness_type start_time severity
    last_recovery_time cool_down_end_time].
  apply Qltb_lt in Hpos. rewrite Hpos.
  rewrite stage_of_progress_done;
    [reflexivity|apply Qltb_lt; exact Hpos|apply Qgeb_le; exact Hdue].
Qed.

Lemma update_fresh_illness (w : World) (k : IllnessType) (now sev : Q) (stg : string) :
  current_illness (self w) = Some (mkIllnessInfo k now sev stg) ->
  frozen now w ->
  self (snd (update_illness_state w)) =
    mkManager (Some (mkIllnessInfo k now sev "initial"))
      (last_recovery_time (self w)) (cool_down_end_time (self w)).
Proof.
  intros Hcur Hfrozen.
  pose proof (duration_positive k) as Hpos.
  assert (Hzero : (now - now) / 3600 == 0).
  { unfold Qdiv, Qminus. rewrite Qplus_opp_r. apply Qmult_0_l. }
  unfold update_illness_state, bind, get_self, time_time.
  cbn [fst snd self clock ticks rand rand_below draws]. rewrite Hcur.
  cbn [fst snd self clock ticks rand rand_below draws].
  unfold get_duration_hours. rewrite !Hfrozen.
  cbn [illness_type start_time].
  assert (Hnot : Qgeb ((now - now) / 3600) (get_illness_duration k) = false).
  { destruct (Qgeb _ _) eqn:E; [|reflexivity].
    apply Qgeb_le in E. rewrite Hzero in E.
    exfalso. exact (Qlt_not_le _ _ Hpos E). }
  rewrite Hnot. unfold ret at 1.
  match goal with
  | |- context [_update_illness_stage ?d ?e ?W] =>
      destruct (update_stage_run d e W _ Hcur) as [Hs _]
  end.
  rewrite Hs. cbn [illness_type start_time severity self
    last_recovery_time cool_down_end_time].
  rewrite (stage_of_progress_start _ _ Hzero). reflexivity.
Qed.

(** C1, the transition branch: with the clock frozen at [now], an illness
    whose nominal duration has elapsed, a non-empty successor list and a
    draw below 0.7, [update_illness_state] leaves an illness whose kind is
    one of the successors, whose [start_time] is [now] and whose severity
    is the catalog severity of the new kind; its stage, however, is
    "recovering" and not "initial", because the stage is recomputed from the
    elapsed time and duration of the illness that was replaced. *)
Theorem transition_stage_is_recovering (w : World) (i : IllnessInfo) (now : Q) :
  current_illness (self w) = Some i ->
  frozen now w ->
  get_illness_duration (illness_type i) <= (now - start_time i) / 3600 ->
  get_possible_transitions (illness_type i) <> [] ->
  rand w (draws w) < 0.7 ->
  exists new : IllnessInfo,
    current_illness (self (snd (update_illness_state w))) = Some new /\
    In (illness_type new) (get_possible_transitions (illness_type i)) /\
    start_time new = now /\
    severity new = get_illness_severity (illness_type new) /\
    stage new = "recovering" /\
    stage new <> "initial".
Proof.
  intros Hcur Hfrozen Hdue Hsucc Hu.
  destruct (update_transition_branch w i now Hcur Hfrozen Hdue Hsucc Hu)
    as (k & Hk & Hs & _).
  eexists. rewrite Hs. cbn [current_illness]. split; [reflexivity|].
  cbn [illness_type start_time severity stage]. splits; try reflexivity.
  - exact Hk.
  - discriminate.
Qed.

Lemma transition_stage_is_recovering_witness :
  let i := mkIllnessInfo SEVERE_COLD 0 0.8 "recovering" in
  let w := test_world (mkManager (Some i) 0 0) ∅ 176400 0.5 in
  current_illness (self w) = Some i /\
  frozen 176400 w /\
  get_illness_duration SEVERE_COLD <= (176400 - 0) / 3600 /\
  get_possible_transitions SEVERE_COLD <> [] /\
  rand w (draws w) < 0.7 /\
  exists new : IllnessInfo,
    current_illness (self (snd (update_illness_state w))) = Some new /\
    In (illness_type new) [MILD_COLD] /\
    start_time new = 176400 /\
    severity new = get_illness_severity (illness_type new) /\
    stage new = "recovering" /\
    stage new <> "initial".
Proof.
  cbv zeta.
  assert (H1 : get_illness_duration SEVERE_COLD <= (176400 - 0) / 3600)
    by discriminate.
  assert (H2 : get_possible_transitions SEVERE_COLD <> []) by discriminate.
  assert (H3 : 0.5 < 0.7) by reflexivity.
  splits; try assumption; try reflexivity.
  - intros k. reflexivity.
  - exact (transition_stage_is_recovering
             (test_world
                (mkManager (Some (mkIllnessInfo SEVERE_COLD 0 0.8 "recovering")) 0 0)
                ∅ 176400 0.5)
             (mkIllnessInfo SEVERE_COLD 0 0.8 "recovering") 176400
             eq_refl (fun _ => eq_refl) H1 H2 H3).
Defined.

(** The same input run on the model. *)
Example severe_cold_after_49_hours :
  self (snd (update_illness_state
               (test_world
                  (mkManager (Some (mkIllnessInfo SEVERE_COLD 0 0.8 "recovering")) 0 0)
                  ∅ 176400 0.5))) =
  mkManager (Some (mkIllnessInfo MILD_COLD 176400 0.3 "recovering")) 0 0.
Proof. vm_compute. reflexivity. Qed.

(** C2, after a transition: under the hypotheses of the transition branch,
    a second [update_illness_state] at the same [now] changes the stage of
    the new illness from "recovering" to "initial", so the attributes after
    the second call differ from those after the first. *)
Theorem update_twice_differs_after_transition (w : World) (i : IllnessInfo) (now : Q) :
  current_illness (self w) = Some i ->
  frozen now w ->
  get_illness_duration (illness_type i) <= (now - start_time i) / 3600 ->
  get_possible_transitions (illness_type i) <> [] ->
  rand w (draws w) < 0.7 ->
  let w1 := snd (update_illness_state w) in
  let w2 := snd (update_illness_state w1) in
  self w2 <> self w1 /\
  exists k : IllnessType,
    current_illness (self w1) =
      Some (mkIllnessInfo k now (get_illness_severity k) "recovering") /\
    current_illness (self w2) =
      Some (mkIllnessInfo k now (get_illness_severity k) "initial").
Proof.
  intros Hcur Hfrozen Hdue Hsucc Hu. cbv zeta.
  destruct (update_transition_branch w i now Hcur Hfrozen Hdue Hsucc Hu)
    as (k & _ & Hs1 & Hc1).
  assert (Hcur1 : current_illness (self (snd (update_illness_state w))) =
                  Some (mkIllnessInfo k now (get_illness_severity k) "recovering"))
    by (rewrite Hs1; reflexivity).
  assert (Hfrozen1 : frozen now (snd (update_illness_state w))).
  { intros n. rewrite Hc1. apply Hfrozen. }
  pose proof (update_fresh_illness _ k now _ _ Hcur1 Hfrozen1) as Hs2.
  split.
  - rewrite Hs2, Hs1. cbn [last_recovery_time cool_down_end_time].
    intros Heq. discriminate Heq.
  - exists k. split; [exact Hcur1|]. rewrite Hs2. reflexivity.
Qed.

Lemma update_twice_differs_after_transition_witness :
  let i := mkIllnessInfo SEVERE_COLD 0 0.8 "recovering" in
  let w := test_world (mkManager (Some i) 0 0) ∅ 176400 0.5 in
  let w1 := snd (update_illness_state w) in
  let w2 := snd (update_illness_state w1) in
  current_illness (self w) = Some i /\
  frozen 176400 w /\
  get_illness_duration SEVERE_COLD <= (176400 - 0) / 3600 /\
  get_possible_transitions SEVERE_COLD <> [] /\
  rand w (draws w) < 0.7 /\
  self w2 <> self w1.
Proof.
  cbv zeta.
  assert (H1 : get_illness_duration SEVERE_COLD <= (176400 - 0) / 3600)
    by discriminate.
  assert (H2 : get_possible_transitions SEVERE_COLD <> []) by discriminate.
  assert (H3 : 0.5 < 0.7) by reflexivity.
  splits; try assumption; try reflexivity.
  - intros k. reflexivity.
  - exact (proj1 (update_twice_differs_after_transition
                    (test_world
                       (mkManager
                          (Some (mkIllnessInfo SEVERE_COLD 0 0.8 "recovering")) 0 0)
                       ∅ 176400 0.5)
                    (mkIllnessInfo SEVERE_COLD 0 0.8 "recovering") 176400
                    eq_refl (fun _ => eq_refl) H1 H2 H3)).
Defined.

(** The two calls run on the model. *)
Example severe_cold_updated_twice :
  let w := test_world
             (mkManager (Some (mkIllnessInfo SEVERE_COLD 0 0.8 "recovering")) 0 0)
             ∅ 176400 0.5 in
  let w1 := snd (update_illness_state w) in
  let w2 := snd (update_illness_state w1) in
  self w1 = mkManager (Some (mkIllnessInfo MILD_COLD 176400 0.3 "recovering")) 0 0 /\
  self w2 = mkManager (Some (mkIllnessInfo MILD_COLD 176400 0.3 "initial")) 0 0.
Proof. vm_compute. split; reflexivity. Qed.

(** Apart from the transition branch, a second call at the same [now]
    changes neither the attributes nor the storage. *)
Lemma update_stage_noop (d e : Q) (w : World) (i : IllnessInfo) :
  current_illness (self w) = Some i ->
  stage i = stage_of_progress (if Qltb 0 e then d / e else 0) ->
  _update_illness_stage d e w = (tt, w).
Proof.
  intros Hcur Hstage. unfold _update_illness_stage, bind, get_self.
  rewrite Hcur, Hstage.
  rewrite bool_decide_eq_true_2 by reflexivity. reflexivity.
Qed.

Lemma update_stage_healthy (d e : Q) (w : World) :
  current_illness (self w) = None -> _update_illness_stage d e w = (tt, w).
Proof.
  intros Hcur. unfold _update_illness_stage, bind, get_self.
  rewrite Hcur. reflexivity.
Qed.

Lemma update_when_healthy (w : World) :
  current_illness (self w) = None -> update_illness_state w = (tt, w).
Proof.
  intros Hcur. unfold update_illness_state, bind, get_self.
  rewrite Hcur. reflexivity.
Qed.

Lemma update_not_due_again (w : World) (i : IllnessInfo) (now : Q) :
  current_illness (self w) = Some i ->
  frozen now w ->
  Qgeb ((now - start_time i) / 3600) (get_illness_duration (illness_type i)) = false ->
  let w1 := snd (update_illness_state w) in
  let w2 := snd (update_illness_state w1) in
  self w2 = self w1 /\ storage w2 = storage w1.
Proof.
  intros Hcur Hfrozen Hnot. cbv zeta.
  set (d := (now - start_time i) / 3600) in *.
  set (e := get_illness_duration (illness_type i)) in *.
  assert (Hfirst : exists w0,
             current_illness (self w0) = Some i /\ clock w0 = clock w /\
             update_illness_state w = _update_illness_stage d e w0).
  { eexists. splits; [| |
      unfold update_illness_state, bind, get_self, time_time;
      cbn [fst snd self clock ticks]; rewrite Hcur;
      cbn [fst snd self clock ticks]; unfold get_duration_hours;
      rewrite !Hfrozen; fold d; fold e; rewrite Hnot; unfold ret at 1;
      reflexivity ].
    - exact Hcur.
    - reflexivity. }
  destruct Hfirst as (w0 & Hcur0 & Hclock0 & ->).
  destruct (update_stage_run d e w0 i Hcur0) as [Hs1 Hc1].
  set (w1 := snd (_update_illness_stage d e w0)) in *.
  set (i1 := mkIllnessInfo (illness_type i) (start_time i) (severity i)
               (stage_of_progress (if Qltb 0 e then d / e else 0))) in *.
  assert (Hcur1 : current_illness (self w1) = Some i1)
    by (rewrite Hs1; reflexivity).
  assert (Hfrozen1 : frozen now w1).
  { intros n. rewrite Hc1, Hclock0. apply Hfrozen. }
  unfold update_illness_state, bind, get_self, time_time.
  cbn [fst snd self clock ticks]. rewrite Hcur1.
  cbn [fst snd self clock ticks]. unfold get_duration_hours.
  rewrite !Hfrozen1. cbn [illness_type start_time i1]. fold d. fold e.
  rewrite Hnot. unfold ret. cbv beta iota.
  rewrite (update_stage_noop d e _ i1); [split; reflexivity| |reflexivity].
  exact Hcur1.
Qed.

Lemma update_resolved_again (w : World) (i : IllnessInfo) (now : Q) :
  current_illness (self w) = Some i ->
  frozen now w ->
  Qgeb ((now - start_time i) / 3600) (get_illness_duration (illness_type i)) = true ->
  get_possible_transitions (illness_type i) = [] \/
  Qltb (rand w (draws w)) 0.7 = false ->
  let w1 := snd (update_illness_state w) in
  current_illness (self w1) = None /\ update_illness_state w1 = (tt, w1).
Proof.
  intros Hcur Hfrozen Hdue Hbranch. cbv zeta.
  assert (Hnone : current_illness (self (snd (update_illness_state w))) = None).
  { unfold update_illness_state, bind, get_self, time_time.
    cbn [fst snd self clock ticks rand rand_below draws]. rewrite Hcur.
    cbn [fst snd self clock ticks rand rand_below draws].
    unfold get_duration_hours. rewrite !Hfrozen, Hdue.
    assert (Hrec : forall W, current_illness (self W) = Some i ->
              current_illness
                (self (snd (let (_, w') := recover_from_illness W in
                            _update_illness_stage ((now - start_time i) / 3600)
                              (get_illness_duration (illness_type i)) w'))) = None).
    { intros W HW. pose proof (recover_self W i HW) as Hr.
      destruct (recover_from_illness W) as [[] W']. cbn [snd] in Hr.
      rewrite update_stage_healthy by (rewrite Hr; reflexivity).
      cbn [snd]. rewrite Hr. reflexivity. }
    destruct (get_possible_transitions (illness_type i)) as [|first rest] eqn:Et.
    - apply Hrec. exact Hcur.
    - destruct Hbranch as [Hbranch|Hbranch]; [discriminate|].
      unfold random_random. cbn [fst snd self rand draws]. rewrite Hbranch.
      apply Hrec. exact Hcur. }
  split; [exact Hnone|]. apply update_when_healthy. exact Hnone.
Qed.

(** *** The model on further concrete inputs *)

Example code_points_examples :
  map String.length (code_points "重感冒") = [3; 3; 3]%nat /\
  length (code_points "abc") = 3%nat /\
  str_slice_from (-2) "重感冒" = "感冒".
Proof. vm_compute. splits; reflexivity. Qed.

Example slice_from_examples :
  slice_from (-2) [1; 2; 3]%nat = [2; 3]%nat /\
  slice_from (-5) [1; 2; 3]%nat = [1; 2; 3]%nat /\
  slice_from 0 [1; 2; 3]%nat = [1; 2; 3]%nat /\
  slice_from 1 [1; 2; 3]%nat = [2; 3]%nat /\
  slice_from 7 [1; 2; 3]%nat = @nil nat.
Proof. vm_compute. splits; reflexivity. Qed.

(** A draw of 0.5 falls at 70.5 of 141, in the slot of the fourth kind of
    the weight table; a draw of 0 takes the first kind, one just below 1 the
    last. *)
Example trigger_random_illness_examples :
  let s := mkManager None 0 0 in
  fst (trigger_random_illness (test_world s ∅ 5000 0.5)) =
    Some (mkIllnessInfo MINOR_SCRATCH 5000 0.2 "initial") /\
  fst (trigger_random_illness (test_world s ∅ 5000 0)) =
    Some (mkIllnessInfo MILD_COLD 5000 0.3 "initial") /\
  fst (trigger_random_illness (test_world s ∅ 5000 0.999)) =
    Some (mkIllnessInfo SEVERE_COLD 5000 0.8 "initial").
Proof. vm_compute. splits; reflexivity. Qed.

(** With a draw of 0.9 the severe cold of the transition example resolves
    to healthy instead, and its history record has a duration of 49 hours. *)
Example severe_cold_resolved_after_49_hours :
  let w := test_world
             (mkManager (Some (mkIllnessInfo SEVERE_COLD 0 0.8 "recovering")) 0 0)
             ∅ 176400 0.9 in
  let w' := snd (update_illness_state w) in
  self w' = mkManager None 176400 0 /\
  stored_history (storage w') =
    Some [VDict [ ("type", VStr "重感冒"); ("start_time", VNum 0);
                  ("end_time", VNum 176400);
                  ("duration_hours", VNum ((176400 - 0) / 3600));
                  ("severity", VNum 0.8) ]] /\
  (176400 - 0) / 3600 == 49.
Proof. vm_compute. splits; reflexivity. Qed.

(** The stage follows the elapsed fraction of the nominal duration: a
    headache (24 hours) is "initial" after 7 hours, "progressing" after 8
    and "recovering" after 17. *)
Example headache_stages :
  let at_hour (h : Q) :=
    current_illness
      (self (snd (update_illness_state
                    (test_world
                       (mkManager (Some (mkIllnessInfo HEADACHE 0 0.3 "initial")) 0 0)
                       ∅ (h * 3600) 0.5)))) in
  option_map stage (at_hour 7) = Some "initial" /\
  option_map stage (at_hour 8) = Some "progressing" /\
  option_map stage (at_hour 17) = Some "recovering" /\
  at_hour 24 = None.
Proof. vm_compute. splits; reflexivity. Qed.

(** [load_state] on a manager that already holds an illness keeps it when
    the blob has none: only a fresh manager is sure to come out healthy. *)
Example load_state_keeps_prior_illness :
  let prior :=
    mkLoaded (Some (mkLoadedIllness HEADACHE (VNum 10) (VNum 0.3) (VStr "initial")))
      (VNum 0) (VNum 0) in
  let st := test_storage (<["illness_state" :=
              VDict [("current_illness", VNone); ("last_recovery_time", VNum 7)]]> ∅) in
  load_state prior st =
    mkLoaded (l_current_illness prior) (VNum 7) (VNum 0) /\
  init st = mkLoaded None (VNum 7) (VNum 0).
Proof. vm_compute. split; reflexivity. Qed.

(** ** Further properties of the code *)

(** *** Symbolic execution of [M] *)

Lemma wp_bind {A B} (c : M A) (f : A -> M B) (Q : B -> World -> Prop) (w : World) :
  wp c (fun a w' => wp (f a) Q w') w -> wp (bind c f) Q w.
Proof. unfold wp, bind. destruct (c w) as [a w']. simpl. auto. Qed.

Lemma wp_ret {A} (a : A) (Q : A -> World -> Prop) (w : World) :
  Q a w -> wp (ret a) Q w.
Proof. auto. Qed.

Lemma wp_mono {A} (c : M A) (Q Q' : A -> World -> Prop) (w : World) :
  wp c Q w -> (forall a w', Q a w' -> Q' a w') -> wp c Q' w.
Proof. unfold wp. auto. Qed.

Lemma wp_get_self (Q : Manager -> World -> Prop) (w : World) :
  Q (self w) w -> wp get_self Q w.
Proof. auto. Qed.

Lemma wp_get_storage (Q : Storage -> World -> Prop) (w : World) :
  Q (storage w) w -> wp get_storage Q w.
Proof. auto. Qed.

Lemma wp_put_self (s : Manager) (Q : unit -> World -> Prop) (w : World) :
  Q tt (mkWorld s (storage w) (clock w) (ticks w) (rand w) (rand_below w) (draws w)) ->
  wp (put_self s) Q w.
Proof. auto. Qed.

Lemma wp_put_storage (st : Storage) (Q : unit -> World -> Prop) (w : World) :
  Q tt (mkWorld (self w) st (clock w) (ticks w) (rand w) (rand_below w) (draws w)) ->
  wp (put_storage st) Q w.
Proof. auto. Qed.

Lemma wp_time_time (Q : Q -> World -> Prop) (w : World) :
  Q (clock w (ticks w))
    (mkWorld (self w) (storage w) (clock w) (S (ticks w)) (rand w)
       (rand_below w) (draws w)) ->
  wp time_time Q w.
Proof. auto. Qed.

Lemma wp_random_random (Q : Q -> World -> Prop) (w : World) :
  Q (rand w (draws w))
    (mkWorld (self w) (storage w) (clock w) (ticks w) (rand w)
       (rand_below w) (S (draws w))) ->
  wp random_random Q w.
Proof. auto. Qed.

Lemma wp_random_choice {A} (d : A) (seq : list A) (Q : A -> World -> Prop) (w : World) :
  Q (nth (rand_below w (draws w) mod length seq) seq d)
    (mkWorld (self w) (storage w) (clock w) (ticks w) (rand w)
       (rand_below w) (S (draws w))) ->
  wp (random_choice d seq) Q w.
Proof. auto. Qed.

Ltac wp_prim :=
  lazymatch goal with
  | |- wp (bind _ _) _ _ => apply wp_bind
  | |- wp (ret _) _ _ => apply wp_ret
  | |- wp get_self _ _ => apply wp_get_self
  | |- wp get_storage _ _ => apply wp_get_storage
  | |- wp (put_self _) _ _ => apply wp_put_self
  | |- wp (put_storage _) _ _ => apply wp_put_storage
  | |- wp time_time _ _ => apply wp_time_time
  | |- wp random_random _ _ => apply wp_random_random
  | |- wp (random_choice _ _) _ _ => apply wp_random_choice
  end.

Ltac wp_run := repeat wp_prim; cbn [self storage clock ticks rand rand_below draws].

(** *** What the operations leave alone *)

Lemma kept_refl (w : World) : kept w w.
Proof. unfold kept. auto. Qed.

Lemma save_state_kept (w0 w : World) :
  kept w0 w -> wp save_state (fun _ => kept w0) w.
Proof.
  intros (Hc & Hr & Hb & Hd). unfold wp, kept.
  rewrite save_state_self.
  destruct (save_state_oracles w) as (-> & -> & -> & _). auto.
Qed.

Lemma add_to_history_kept (illness : IllnessInfo) (end_time : Q) (w0 w : World) :
  kept w0 w -> wp (_add_to_history illness end_time) (fun _ => kept w0) w.
Proof.
  intros (Hc & Hr & Hb & Hd). unfold wp, kept.
  destruct (add_to_history_frame illness end_time w)
    as (-> & -> & _ & -> & -> & _). auto.
Qed.

Lemma recover_kept (w0 w : World) :
  kept w0 w -> wp recover_from_illness (fun _ => kept w0) w.
Proof.
  intros Hk. unfold recover_from_illness. wp_run.
  destruct (current_illness (self w)) as [i|]; [|apply wp_ret; exact Hk].
  wp_run. eapply wp_mono; [apply add_to_history_kept|].
  - exact Hk.
  - intros a w1 Hk1. cbv beta in *. wp_run. apply save_state_kept.
    destruct Hk as (_ & _ & _ & Hd0). destruct Hk1 as (Hc & Hr & Hb & Hd).
    unfold kept. cbn. auto.
Qed.

Lemma transition_kept (k : IllnessType) (w0 w : World) :
  kept w0 w -> wp (transition_to_illness k) (fun _ => kept w0) w.
Proof.
  intros Hk. unfold transition_to_illness. wp_run.
  apply save_state_kept. exact Hk.
Qed.

Lemma update_stage_kept (d e : Q) (w0 w : World) :
  kept w0 w -> wp (_update_illness_stage d e) (fun _ => kept w0) w.
Proof.
  intros Hk. unfold _update_illness_stage. wp_run.
  destruct (current_illness (self w)) as [i|]; [|apply wp_ret; exact Hk].
  destruct (bool_decide _); [apply wp_ret; exact Hk|].
  wp_run. apply save_state_kept. exact Hk.
Qed.

Lemma update_kept (w0 w : World) :
  kept w0 w -> wp update_illness_state (fun _ => kept w0) w.
Proof.
  intros Hk. unfold update_illness_state. wp_run.
  destruct (current_illness (self w)) as [i|]; [|apply wp_ret; exact Hk].
  wp_run.
  match goal with
  | |- wp ?c _ ?W => assert (Hbranch : wp c (fun _ => kept w0) W)
  end.
  { destruct (Qgeb _ _); [|apply wp_ret; exact Hk].
    destruct (get_possible_transitions _) as [|first rest];
      [apply recover_kept; exact Hk|].
    wp_run. destruct (Qltb _ _).
    - wp_run. apply transition_kept. exact Hk.
    - apply recover_kept. exact Hk. }
  eapply wp_mono; [exact Hbranch|].
  intros a w1 Hk1. apply update_stage_kept. exact Hk1.
Qed.

Lemma should_get_sick_kept (p : Q) (w0 w : World) :
  kept w0 w -> wp (should_get_sick p) (fun _ => kept w0) w.
Proof.
  intros Hk. unfold should_get_sick. wp_run.
  destruct (Qltb _ _); [apply wp_ret; exact Hk|].
  destruct (current_illness (self w)); [apply wp_ret; exact Hk|].
  wp_run. destruct (Qltb _ _); apply wp_ret; exact Hk.
Qed.

Lemma random_choices_kept {A} (population : list A) (weights : list Z) (w0 w : World) :
  kept w0 w -> wp (random_choices population weights) (fun _ => kept w0) w.
Proof.
  intros (Hc & Hr & Hb & Hd). unfold wp, kept.
  destruct (random_choices_world population weights w)
    as (-> & _ & -> & _ & -> & ->). auto.
Qed.

Lemma trigger_with_kept (weights : table Z) (w0 w : World) :
  kept w0 w -> wp (trigger_random_illness_with weights) (fun _ => kept w0) w.
Proof.
  intros Hk. unfold trigger_random_illness_with. wp_run.
  unfold _get_weighted_random_illness_with.
  eapply wp_mono; [apply random_choices_kept; exact Hk|].
  intros r w1 Hk1. cbv beta.
  destruct r as [k|e]; [|apply wp_ret; exact Hk1].
  wp_run. eapply wp_mono; [apply save_state_kept; exact Hk1|].
  intros a w2 Hk2. apply wp_ret. exact Hk2.
Qed.

Lemma force_recovery_kept (w0 w : World) :
  kept w0 w -> wp force_recovery (fun _ => kept w0) w.
Proof.
  intros Hk. unfold force_recovery. wp_run.
  destruct (current_illness (self w)); [apply recover_kept|apply wp_ret]; exact Hk.
Qed.

(** X1: only [set_cool_down] moves the cooldown deadline.  Advancing the
    state (whether it changes the stage, transitions or resolves to healthy),
    asking [should_get_sick], triggering an illness and forcing recovery all
    leave [cool_down_end_time] as it was: recovering, naturally or forced,
    starts no cooldown by itself. *)
Theorem only_set_cool_down_moves_deadline (w : World) :
  cool_down_end_time (self (snd (update_illness_state w))) =
    cool_down_end_time (self w) /\
  (forall p, cool_down_end_time (self (snd (should_get_sick p w))) =
             cool_down_end_time (self w)) /\
  cool_down_end_time (self (snd (trigger_random_illness w))) =
    cool_down_end_time (self w) /\
  cool_down_end_time (self (snd (recover_from_illness w))) =
    cool_down_end_time (self w) /\
  cool_down_end_time (self (snd (force_recovery w))) =
    cool_down_end_time (self w) /\
  (forall days,
     cool_down_end_time (self (snd (set_cool_down days w))) =
       clock w (ticks w) + days * 24 * 3600).
Proof.
  splits.
  - apply (update_kept w w (kept_refl w)).
  - intros p. apply (should_get_sick_kept p w w (kept_refl w)).
  - apply (trigger_with_kept weights_table w w (kept_refl w)).
  - apply (recover_kept w w (kept_refl w)).
  - apply (force_recovery_kept w w (kept_refl w)).
  - intros days. rewrite set_cool_down_self. reflexivity.
Qed.

(** *** Advancing the state, branch by branch *)

Lemma Qgeb_lt (x y : Q) : x < y -> Qgeb x y = false.
Proof.
  intros Hlt. destruct (Qgeb x y) eqn:E; [|reflexivity].
  apply Qgeb_le in E. exfalso. exact (Qlt_not_le _ _ Hlt E).
Qed.

Lemma save_state_history (w : World) :
  stored_history (storage (snd (save_state w))) = stored_history (storage w).
Proof.
  run. unfold storage_set. destruct (set_raises (storage w)); [reflexivity|].
  unfold stored_history. simpl. rewrite lookup_insert_ne by discriminate.
  reflexivity.
Qed.

Lemma update_stage_history (d e : Q) (w : World) :
  stored_history (storage (snd (_update_illness_stage d e w))) =
  stored_history (storage w).
Proof.
  unfold _update_illness_stage, bind, get_self, put_self.
  cbn [fst snd self]. destruct (current_illness (self w)); [|reflexivity].
  destruct (bool_decide _); [reflexivity|].
  cbn [fst snd]. rewrite save_state_history. reflexivity.
Qed.

Lemma update_stage_draws (d e : Q) (w : World) :
  draws (snd (_update_illness_stage d e w)) = draws w.
Proof.
  unfold _update_illness_stage, bind, get_self, put_self.
  cbn [fst snd self]. destruct (current_illness (self w)); [|reflexivity].
  destruct (bool_decide _); [reflexivity|].
  cbn [fst snd].
  match goal with
  | |- context [save_state ?W] =>
      destruct (save_state_oracles W) as (_ & _ & _ & -> & _)
  end.
  reflexivity.
Qed.

(** Before the nominal duration has elapsed, [update_illness_state] is the
    stage update alone, after two readings of the clock. *)
Lemma update_not_due_unfold (w : World) (i : IllnessInfo) :
  current_illness (self w) = Some i ->
  Qgeb (get_duration_hours (clock w (S (ticks w))) i)
       (get_illness_duration (illness_type i)) = false ->
  update_illness_state w =
    _update_illness_stage (get_duration_hours (clock w (S (ticks w))) i)
      (get_illness_duration (illness_type i))
      (mkWorld (self w) (storage w) (clock w) (S (S (ticks w))) (rand w)
         (rand_below w) (draws w)).
Proof.
  intros Hcur Hnot.
  unfold update_illness_state, bind, get_self, time_time.
  cbn [fst snd self clock ticks]. rewrite Hcur.
  cbn [fst snd self clock ticks]. rewrite Hnot. reflexivity.
Qed.

Lemma stage_of_progress_values (p : Q) :
  stage_of_progress p = "initial" \/
  stage_of_progress p = "progressing" \/
  stage_of_progress p = "recovering".
Proof.
  unfold stage_of_progress.
  destruct (Qltb p 0.3); [auto|]. destruct (Qltb p 0.7); auto.
Qed.

Lemma stage_of_progress_thresholds (p : Q) :
  (p < 0.3 -> stage_of_progress p = "initial") /\
  (0.3 <= p -> p < 0.7 -> stage_of_progress p = "progressing") /\
  (0.7 <= p -> stage_of_progress p = "recovering").
Proof.
  unfold stage_of_progress. splits.
  - intros H. apply Qltb_lt in H. rewrite H. reflexivity.
  - intros H3 H7. apply Qltb_ge in H3. apply Qltb_lt in H7.
    rewrite H3, H7. reflexivity.
  - intros H7.
    assert (H3 : 0.3 <= p) by (eapply Qle_trans; [|exact H7]; discriminate).
    apply Qltb_ge in H3. apply Qltb_ge in H7. rewrite H3, H7. reflexivity.
Qed.

Lemma update_not_due_run (w : World) (i : IllnessInfo) (now : Q) :
  current_illness (self w) = Some i ->
  frozen now w ->
  (now - start_time i) / 3600 < get_illness_duration (illness_type i) ->
  let p := (now - start_time i) / 3600 / get_illness_duration (illness_type i) in
  let w' := snd (update_illness_state w) in
  self w' =
    mkManager
      (Some (mkIllnessInfo (illness_type i) (start_time i) (severity i)
               (stage_of_progress p)))
      (last_recovery_time (self w)) (cool_down_end_time (self w)) /\
  stored_history (storage w') = stored_history (storage w) /\
  draws w' = draws w.
Proof.
  intros Hcur Hfrozen Hnot. cbv zeta.
  pose proof (duration_positive (illness_type i)) as Hpos.
  apply Qltb_lt in Hpos.
  rewrite update_not_due_unfold with (i := i);
    [|exact Hcur|unfold get_duration_hours; rewrite Hfrozen; apply Qgeb_lt; exact Hnot].
  unfold get_duration_hours. rewrite Hfrozen.
  match goal with
  | |- context [_update_illness_stage ?d ?e ?W] =>
      destruct (update_stage_run d e W i Hcur) as [Hs _];
      rewrite Hs, update_stage_history, update_stage_draws
  end.
  rewrite Hpos. cbn [self storage draws].
  splits; reflexivity.
Qed.

(** X2: while the nominal duration has not elapsed, [update_illness_state]
    keeps the kind, the start time, the severity and the recovery and
    cooldown timestamps, draws nothing, leaves the history log alone and
    sets the stage from the elapsed fraction [p] of the nominal duration:
    "initial" for [p < 0.3], "progressing" for [0.3 <= p < 0.7],
    "recovering" from 0.7 on. *)
Theorem update_before_due (w : World) (i : IllnessInfo) (now : Q) :
  current_illness (self w) = Some i ->
  frozen now w ->
  (now - start_time i) / 3600 < get_illness_duration (illness_type i) ->
  let p := (now - start_time i) / 3600 / get_illness_duration (illness_type i) in
  let w' := snd (update_illness_state w) in
  self w' =
    mkManager
      (Some (mkIllnessInfo (illness_type i) (start_time i) (severity i)
               (stage_of_progress p)))
      (last_recovery_time (self w)) (cool_down_end_time (self w)) /\
  stored_history (storage w') = stored_history (storage w) /\
  draws w' = draws w /\
  (p < 0.3 -> stage_of_progress p = "initial") /\
  (0.3 <= p -> p < 0.7 -> stage_of_progress p = "progressing") /\
  (0.7 <= p -> stage_of_progress p = "recovering").
Proof.
  intros Hcur Hfrozen Hnot. cbv zeta.
  destruct (update_not_due_run w i now Hcur Hfrozen Hnot) as (Hs & Hh & Hd).
  splits; try assumption; apply stage_of_progress_thresholds.
Qed.

Lemma update_before_due_witness :
  let i := mkIllnessInfo HEADACHE 0 0.3 "initial" in
  let w := test_world (mkManager (Some i) 0 0) ∅ 36000 0.5 in
  current_illness (self w) = Some i /\
  frozen 36000 w /\
  (36000 - 0) / 3600 < get_illness_duration HEADACHE /\
  self (snd (update_illness_state w)) =
    mkManager
      (Some (mkIllnessInfo HEADACHE 0 0.3
               (stage_of_progress ((36000 - 0) / 3600 / get_illness_duration HEADACHE))))
      0 0 /\
  stage_of_progress ((36000 - 0) / 3600 / get_illness_duration HEADACHE) =
    "progressing".
Proof.
  cbv zeta.
  assert (H1 : (36000 - 0) / 3600 < get_illness_duration HEADACHE) by reflexivity.
  split; [reflexivity|]. split; [intros k; reflexivity|].
  split; [exact H1|]. split; [|reflexivity].
  exact (proj1 (update_before_due
                    (test_world
                       (mkManager (Some (mkIllnessInfo HEADACHE 0 0.3 "initial")) 0 0)
                       ∅ 36000 0.5)
                    (mkIllnessInfo HEADACHE 0 0.3 "initial") 36000
                    eq_refl (fun _ => eq_refl) H1)).
Defined.

Lemma stage_rank_monotone (p q : Q) :
  p <= q ->
  (stage_rank (stage_of_progress p) <= stage_rank (stage_of_progress q))%nat.
Proof.
  intros Hpq. unfold stage_of_progress.
  destruct (Qltb p 0.3) eqn:Ep3.
  { destruct (Qltb q 0.3); [|destruct (Qltb q 0.7)]; vm_compute; lia. }
  apply Qltb_ge in Ep3.
  assert (Eq3 : Qltb q 0.3 = false)
    by (apply Qltb_ge; eapply Qle_trans; eassumption).
  rewrite Eq3.
  destruct (Qltb p 0.7) eqn:Ep7; [destruct (Qltb q 0.7); vm_compute; lia|].
  apply Qltb_ge in Ep7.
  assert (Eq7 : Qltb q 0.7 = false)
    by (apply Qltb_ge; eapply Qle_trans; eassumption).
  rewrite Eq7. vm_compute. lia.
Qed.

Lemma progress_monotone (now1 now2 start e : Q) :
  0 < e -> now1 <= now2 ->
  (now1 - start) / 3600 / e <= (now2 - start) / 3600 / e.
Proof.
  intros He Hle. unfold Qdiv.
  apply Qmult_le_compat_r; [|apply Qlt_le_weak, Qinv_lt_0_compat; exact He].
  apply Qmult_le_compat_r; [|discriminate].
  unfold Qminus. apply Qplus_le_compat; [exact Hle|apply Qle_refl].
Qed.

Lemma elapsed_monotone (now1 now2 start : Q) :
  now1 <= now2 -> (now1 - start) / 3600 <= (now2 - start) / 3600.
Proof.
  intros Hle. unfold Qdiv.
  apply Qmult_le_compat_r; [|discriminate].
  unfold Qminus. apply Qplus_le_compat; [exact Hle|apply Qle_refl].
Qed.

Lemma at_time_frozen (now : Q) (w : World) : frozen now (at_time now w).
Proof. intros k. reflexivity. Qed.

(** X3: the stage never goes back while an illness runs its course: for
    the same illness advanced at two times [now1 <= now2], both before its
    nominal duration has elapsed, the stage set at [now1] comes no later in
    the order initial, progressing, recovering than the stage set at
    [now2]. *)
Theorem stage_never_goes_back (w : World) (i : IllnessInfo) (now1 now2 : Q) :
  current_illness (self w) = Some i ->
  now1 <= now2 ->
  (now2 - start_time i) / 3600 < get_illness_duration (illness_type i) ->
  exists j1 j2 : IllnessInfo,
    current_illness (self (snd (update_illness_state (at_time now1 w)))) = Some j1 /\
    current_illness (self (snd (update_illness_state (at_time now2 w)))) = Some j2 /\
    illness_type j1 = illness_type i /\ illness_type j2 = illness_type i /\
    (stage_rank (stage j1) <= stage_rank (stage j2))%nat.
Proof.
  intros Hcur Hle Hnot2.
  assert (Hnot1 : (now1 - start_time i) / 3600 <
                  get_illness_duration (illness_type i)).
  { eapply Qle_lt_trans; [apply elapsed_monotone; exact Hle|exact Hnot2]. }
  destruct (update_not_due_run (at_time now1 w) i now1 Hcur
              (at_time_frozen now1 w) Hnot1) as (Hs1 & _).
  destruct (update_not_due_run (at_time now2 w) i now2 Hcur
              (at_time_frozen now2 w) Hnot2) as (Hs2 & _).
  eexists. eexists. rewrite Hs1, Hs2. cbn [current_illness].
  splits; try reflexivity. cbn [stage].
  apply stage_rank_monotone, progress_monotone;
    [apply duration_positive|exact Hle].
Qed.

Lemma stage_never_goes_back_witness :
  let i := mkIllnessInfo HEADACHE 0 0.3 "initial" in
  let w := test_world (mkManager (Some i) 0 0) ∅ 0 0.5 in
  current_illness (self w) = Some i /\
  25200 <= 61200 /\
  (61200 - 0) / 3600 < get_illness_duration HEADACHE /\
  exists j1 j2 : IllnessInfo,
    current_illness (self (snd (update_illness_state (at_time 25200 w)))) = Some j1 /\
    current_illness (self (snd (update_illness_state (at_time 61200 w)))) = Some j2 /\
    illness_type j1 = HEADACHE /\ illness_type j2 = HEADACHE /\
    (stage_rank (stage j1) <= stage_rank (stage j2))%nat.
Proof.
  cbv zeta.
  assert (H1 : 25200 <= 61200) by discriminate.
  assert (H2 : (61200 - 0) / 3600 < get_illness_duration HEADACHE) by reflexivity.
  split; [reflexivity|]. split; [exact H1|]. split; [exact H2|].
  exact (stage_never_goes_back
           (test_world (mkManager (Some (mkIllnessInfo HEADACHE 0 0.3 "initial")) 0 0)
              ∅ 0 0.5)
           (mkIllnessInfo HEADACHE 0 0.3 "initial") 25200 61200 eq_refl H1 H2).
Defined.

Lemma update_stage_sets_stage (d e : Q) (w : World) :
  wp (_update_illness_stage d e)
     (fun _ w' => forall j, current_illness (self w') = Some j ->
                  stage j = stage_of_progress (if Qltb 0 e then d / e else 0)) w.
Proof.
  unfold wp. destruct (current_illness (self w)) as [i|] eqn:Hcur.
  - destruct (update_stage_run d e w i Hcur) as [Hs _]. rewrite Hs.
    intros j [= <-]. reflexivity.
  - rewrite (update_stage_healthy d e w Hcur). cbn [snd].
    rewrite Hcur. discriminate.
Qed.

(** X4: whatever stage an illness carries before (a loaded blob may hold
    any string), after [update_illness_state] the stage of the illness that
    is left, if any, is one of "initial", "progressing" and "recovering". *)
Theorem update_normalises_stage (w : World) (j : IllnessInfo) :
  current_illness (self (snd (update_illness_state w))) = Some j ->
  stage j = "initial" \/ stage j = "progressing" \/ stage j = "recovering".
Proof.
  revert j.
  change (wp update_illness_state
            (fun _ w' => forall j, current_illness (self w') = Some j ->
               stage j = "initial" \/ stage j = "progressing" \/
               stage j = "recovering") w).
  unfold update_illness_state. wp_run.
  destruct (current_illness (self w)) as [i|] eqn:Hcur.
  - wp_run.
    match goal with
    | |- wp ?c _ ?W => apply (wp_mono c (fun _ _ => True)); [exact I|]
    end.
    intros a w1 _.
    eapply wp_mono; [apply update_stage_sets_stage|].
    intros b w2 Hstage j Hj. cbv beta in Hstage.
    rewrite (Hstage j Hj). apply stage_of_progress_values.
  - apply wp_ret. intros j Hj. congruence.
Qed.

Lemma update_normalises_stage_witness :
  let i := mkIllnessInfo MOUTH_ULCER 0 0.4 "relapsing" in
  let w := test_world (mkManager (Some i) 0 0) ∅ 3600 0.5 in
  current_illness (self (snd (update_illness_state w))) =
    Some (mkIllnessInfo MOUTH_ULCER 0 0.4 "initial") /\
  ("initial" = "initial" \/ "initial" = "progressing" \/ "initial" = "recovering").
Proof.
  cbv zeta. split; [reflexivity|].
  exact (update_normalises_stage
           (test_world
              (mkManager (Some (mkIllnessInfo MOUTH_ULCER 0 0.4 "relapsing")) 0 0)
              ∅ 3600 0.5)
           (mkIllnessInfo MOUTH_ULCER 0 0.4 "initial") eq_refl).
Defined.

(** When the duration has elapsed and the illness has no successor, or the
    draw is not below 0.7, [update_illness_state] ends as
    [recover_from_illness] does, after two readings of the clock (and the
    draw, if there was one). *)
Lemma update_due_recover_unfold (w : World) (i : IllnessInfo) :
  current_illness (self w) = Some i ->
  Qgeb (get_duration_hours (clock w (S (ticks w))) i)
       (get_illness_duration (illness_type i)) = true ->
  get_possible_transitions (illness_type i) = [] \/
  Qltb (rand w (draws w)) 0.7 = false ->
  exists W : World,
    self W = self w /\ storage W = storage w /\ clock W = clock w /\
    ticks W = S (S (ticks w)) /\
    snd (update_illness_state w) = snd (recover_from_illness W).
Proof.
  intros Hcur Hdue Hbranch.
  assert (Hrec : forall W d e, current_illness (self W) = Some i ->
            snd (let (_, w') := recover_from_illness W in
                 _update_illness_stage d e w') = snd (recover_from_illness W)).
  { intros W d e HW. pose proof (recover_self W i HW) as Hr.
    destruct (recover_from_illness W) as [[] W']. cbn [snd] in *.
    rewrite update_stage_healthy by (rewrite Hr; reflexivity). reflexivity. }
  unfold update_illness_state, bind, get_self, time_time.
  cbn [fst snd self clock ticks rand rand_below draws]. rewrite Hcur.
  cbn [fst snd self clock ticks rand rand_below draws]. rewrite Hdue.
  destruct (get_possible_transitions (illness_type i)) as [|first rest] eqn:Et.
  - eexists. splits; [| | | |apply Hrec; exact Hcur]; reflexivity.
  - destruct Hbranch as [Hbranch|Hbranch]; [discriminate|].
    unfold random_random. cbn [fst snd self rand draws]. rewrite Hbranch.
    eexists. splits; [| | | |apply Hrec; exact Hcur]; reflexivity.
Qed.

(** X5: with the clock frozen at [now], when the nominal duration has
    elapsed and the illness has no successor, or [random()] is 0.7 or more,
    [update_illness_state] resolves to healthy: the illness is cleared,
    [last_recovery_time] is [now], the cooldown deadline is untouched, and
    on a working storage the record of the illness, ended at [now], is
    appended to the history log. *)
Theorem update_due_resolves (w : World) (i : IllnessInfo) (now : Q) (h : list PyVal) :
  current_illness (self w) = Some i ->
  frozen now w ->
  get_illness_duration (illness_type i) <= (now - start_time i) / 3600 ->
  get_possible_transitions (illness_type i) = [] \/ 0.7 <= rand w (draws w) ->
  working (storage w) -> stored_history (storage w) = Some h ->
  let w' := snd (update_illness_state w) in
  self w' = mkManager None now (cool_down_end_time (self w)) /\
  stored_history (storage w') =
    Some (most_recent 20 (h ++ [history_record i now])).
Proof.
  intros Hcur Hfrozen Hdue Hbranch Hw Hh. cbv zeta.
  destruct (update_due_recover_unfold w i Hcur) as (W & HsW & HstW & HcW & _ & ->).
  - unfold get_duration_hours. rewrite Hfrozen. apply Qgeb_le. exact Hdue.
  - destruct Hbranch as [Hb|Hb]; [left; exact Hb|right; apply Qltb_ge; exact Hb].
  - assert (HcurW : current_illness (self W) = Some i) by (rewrite HsW; exact Hcur).
    rewrite (recover_self W i HcurW), HsW, HcW, Hfrozen.
    split; [reflexivity|].
    rewrite <- HstW in Hw, Hh.
    destruct (recover_storage W i h HcurW Hw Hh) as (H1 & _).
    rewrite H1, HcW, Hfrozen. reflexivity.
Qed.

Lemma update_due_resolves_witness :
  let i := mkIllnessInfo NOSEBLEED 0 0.3 "initial" in
  let w := test_world (mkManager (Some i) 0 0) ∅ 1800 0.5 in
  current_illness (self w) = Some i /\
  frozen 1800 w /\
  get_illness_duration NOSEBLEED <= (1800 - 0) / 3600 /\
  working (storage w) /\ stored_history (storage w) = Some [] /\
  self (snd (update_illness_state w)) = mkManager None 1800 0 /\
  stored_history (storage (snd (update_illness_state w))) =
    Some (most_recent 20 ([] ++ [history_record i 1800])).
Proof.
  cbv zeta.
  assert (H1 : get_illness_duration NOSEBLEED <= (1800 - 0) / 3600) by discriminate.
  split; [reflexivity|]. split; [intros k; reflexivity|]. split; [exact H1|].
  split; [split; reflexivity|]. split; [reflexivity|].
  exact (update_due_resolves
           (test_world (mkManager (Some (mkIllnessInfo NOSEBLEED 0 0.3 "initial")) 0 0)
              ∅ 1800 0.5)
           (mkIllnessInfo NOSEBLEED 0 0.3 "initial") 1800 []
           eq_refl (fun _ => eq_refl) H1 (or_introl eq_refl)
           (conj eq_refl eq_refl) eq_refl).
Defined.

Lemma successors_have_no_successors (k k' : IllnessType) :
  In k' (get_possible_transitions k) -> get_possible_transitions k' = [].
Proof.
  destruct k; cbn; intros H; try contradiction.
  destruct H as [<-|[]]. reflexivity.
Qed.

(** X6: an episode ends after at most one transition.  When an illness is
    advanced once its duration has elapsed, and what is left (if anything)
    is advanced again at a time [now2] when its own duration has elapsed,
    the manager is healthy: the successor of an illness has no successor
    itself, so the second call can only resolve. *)
Theorem episode_ends_after_one_transition
    (w : World) (i : IllnessInfo) (now now2 : Q) :
  current_illness (self w) = Some i ->
  frozen now w ->
  get_illness_duration (illness_type i) <= (now - start_time i) / 3600 ->
  let w1 := snd (update_illness_state w) in
  (forall j, current_illness (self w1) = Some j ->
     get_illness_duration (illness_type j) <= (now2 - start_time j) / 3600) ->
  current_illness (self (snd (update_illness_state (at_time now2 w1)))) = None.
Proof.
  intros Hcur Hfrozen Hdue. cbv zeta. intros Hdue2.
  apply Qgeb_le in Hdue.
  destruct (get_possible_transitions (illness_type i)) as [|first rest] eqn:Et;
    [|destruct (Qltb (rand w (draws w)) 0.7) eqn:Eu].
  - destruct (update_resolved_again w i now Hcur Hfrozen Hdue (or_introl Et))
      as [Hnone _].
    rewrite update_when_healthy; [exact Hnone|exact Hnone].
  - assert (Hsucc : get_possible_transitions (illness_type i) <> [])
      by (rewrite Et; discriminate).
    apply Qgeb_le in Hdue. apply Qltb_lt in Eu.
    destruct (update_transition_branch w i now Hcur Hfrozen Hdue Hsucc Eu)
      as (k & Hk & Hs1 & _).
    set (j := mkIllnessInfo k now (get_illness_severity k) "recovering") in *.
    assert (Hcur1 : current_illness (self (snd (update_illness_state w))) = Some j)
      by (rewrite Hs1; reflexivity).
    specialize (Hdue2 j Hcur1). apply Qgeb_le in Hdue2.
    apply (update_resolved_again (at_time now2 (snd (update_illness_state w)))
             j now2 Hcur1 (at_time_frozen now2 _) Hdue2).
    left. apply (successors_have_no_successors (illness_type i)). exact Hk.
  - destruct (update_resolved_again w i now Hcur Hfrozen Hdue (or_intror Eu))
      as [Hnone _].
    rewrite update_when_healthy; [exact Hnone|exact Hnone].
Qed.

Lemma episode_ends_after_one_transition_witness :
  let i := mkIllnessInfo SEVERE_COLD 0 0.8 "recovering" in
  let w := test_world (mkManager (Some i) 0 0) ∅ 176400 0.5 in
  let w1 := snd (update_illness_state w) in
  current_illness (self w) = Some i /\
  frozen 176400 w /\
  get_illness_duration SEVERE_COLD <= (176400 - 0) / 3600 /\
  current_illness (self w1) =
    Some (mkIllnessInfo MILD_COLD 176400 0.3 "recovering") /\
  get_illness_duration MILD_COLD <= (349200 - 176400) / 3600 /\
  current_illness (self (snd (update_illness_state (at_time 349200 w1)))) = None.
Proof.
  cbv zeta.
  assert (H1 : get_illness_duration SEVERE_COLD <= (176400 - 0) / 3600)
    by discriminate.
  assert (H2 : get_illness_duration MILD_COLD <= (349200 - 176400) / 3600)
    by discriminate.
  split; [reflexivity|]. split; [intros k; reflexivity|]. split; [exact H1|].
  split; [vm_compute; reflexivity|]. split; [exact H2|].
  apply (episode_ends_after_one_transition
           (test_world
              (mkManager (Some (mkIllnessInfo SEVERE_COLD 0 0.8 "recovering")) 0 0)
              ∅ 176400 0.5)
           (mkIllnessInfo SEVERE_COLD 0 0.8 "recovering") 176400 349200
           eq_refl (fun _ => eq_refl) H1).
  intros j Hj. vm_compute in Hj. injection Hj as <-. exact H2.
Defined.

(** *** The weighted draw, slot by slot *)

Lemma lookup_map {A B} (f : A -> B) (l : list A) (i : nat) :
  map f l !! i = option_map f (l !! i).
Proof.
  revert i. induction l as [|x l IH]; intros [|i]; cbn; auto.
Qed.

Lemma accumulate_length (ws : list Z) (acc : Z) :
  length (accumulate acc ws) = length ws.
Proof.
  revert acc. induction ws as [|x ws IH]; intros acc; cbn; [reflexivity|].
  rewrite IH. reflexivity.
Qed.

Lemma accumulate_lookup (ws : list Z) :
  forall (acc : Z) (j : nat), (j < length ws)%nat ->
    accumulate acc ws !! j =
      Some (acc + fold_right Z.add 0 (take (S j) ws))%Z.
Proof.
  induction ws as [|x ws IH]; intros acc j Hj; cbn in Hj; [lia|].
  destruct j as [|j].
  - cbn. rewrite take_0. cbn. f_equal. lia.
  - cbn [accumulate]. change ((?a :: ?l) !! S j) with (l !! j).
    rewrite IH by lia. change (take (S (S j)) (x :: ws)) with (x :: take (S j) ws).
    cbn [fold_right]. f_equal. lia.
Qed.

Lemma sum_take_le (ws : list Z) :
  (forall x, In x ws -> (0 <= x)%Z) ->
  forall j j' : nat, (j <= j')%nat ->
    (fold_right Z.add 0 (take j ws) <= fold_right Z.add 0 (take j' ws))%Z.
Proof.
  induction ws as [|x ws IH]; intros Hpos j j' Hle.
  - rewrite !take_nil. lia.
  - assert (Hx : (0 <= x)%Z) by (apply Hpos; left; reflexivity).
    assert (Hws : forall y, In y ws -> (0 <= y)%Z)
      by (intros y Hy; apply Hpos; right; exact Hy).
    assert (H0 : forall n, (0 <= fold_right Z.add 0 (take n ws))%Z).
    { intros n. specialize (IH Hws 0%nat n (Nat.le_0_l n)).
      rewrite take_0 in IH. exact IH. }
    destruct j as [|j], j' as [|j']; cbn; try lia.
    + specialize (H0 j'). lia.
    + specialize (IH Hws j j'). lia.
Qed.

Lemma sum_take_all (ws : list Z) :
  fold_right Z.add 0%Z (take (length ws) ws) = fold_right Z.add 0%Z ws.
Proof. rewrite firstn_all. reflexivity. Qed.

(** Bisection finds the index [i] at which the comparison [x < a[j]] turns
    from false to true. *)
Lemma bisect_threshold (a : list Q) (x : Q) (i : nat) :
  (forall j am, (j < i)%nat -> a !! j = Some am -> Qltb x am = false) ->
  (forall j am, (i <= j)%nat -> a !! j = Some am -> Qltb x am = true) ->
  forall fuel lo hi : nat,
    (lo <= i <= hi)%nat -> (hi <= length a)%nat -> (hi - lo <= fuel)%nat ->
    bisect fuel a x lo hi = i.
Proof.
  intros Hbelow Habove. induction fuel as [|fuel IH]; intros lo hi Hi Hhi Hfuel.
  - cbn. lia.
  - cbn [bisect]. destruct (lo <? hi)%nat eqn:Elt.
    + apply Nat.ltb_lt in Elt.
      assert (Hmid : (lo <= (lo + hi) / 2 < hi)%nat).
      { split.
        - apply Nat.div_le_lower_bound; lia.
        - apply Nat.Div0.div_lt_upper_bound; lia. }
      destruct (lookup_lt_is_Some_2 a ((lo + hi) / 2)%nat) as [am Ham]; [lia|].
      rewrite Ham. destruct (Qltb x am) eqn:Ex.
      * apply IH; [|lia|lia].
        destruct (Nat.le_gt_cases i ((lo + hi) / 2)) as [Hle|Hgt]; [lia|].
        rewrite (Hbelow _ _ Hgt Ham) in Ex. discriminate.
      * apply IH; [|lia|lia].
        destruct (Nat.le_gt_cases i ((lo + hi) / 2)) as [Hle|Hgt]; [|lia].
        rewrite (Habove _ _ Hle Ham) in Ex. discriminate.
    + apply Nat.ltb_ge in Elt. lia.
Qed.

Lemma weight_below_S (weights : list (IllnessType * Z)) (i : nat)
    (k : IllnessType) (wt : Z) :
  weights !! i = Some (k, wt) ->
  weight_below weights (S i) = (weight_below weights i + wt)%Z.
Proof.
  intros Hi. unfold weight_below.
  rewrite (take_S_r _ _ _ Hi), map_app, fold_right_app. cbn.
  generalize (map snd (take i weights)). intros l.
  induction l as [|x l IH]; cbn; [lia|]. rewrite IH. lia.
Qed.

Lemma weight_below_take (weights : list (IllnessType * Z)) (j : nat) :
  weight_below weights j = fold_right Z.add 0%Z (take j (map snd weights)).
Proof.
  unfold weight_below. rewrite firstn_map. reflexivity.
Qed.

(** X7: the weighted draw cuts the interval from 0 to the total weight
    into consecutive slots, one per entry of the weight table in order, each
    as wide as its weight, and returns the kind in whose slot
    [random() * total] falls.  This holds for every table of non-negative
    weights, so with a uniform [random()] a kind is drawn with probability
    weight / total. *)
Theorem weighted_draw_by_slot (weights : list (IllnessType * Z)) (w : World)
    (i : nat) (k : IllnessType) (wt : Z) :
  (forall e, In e weights -> (0 <= snd e)%Z) ->
  weights !! i = Some (k, wt) ->
  let x := rand w (draws w) * inject_Z (total_weight weights) in
  inject_Z (weight_below weights i) <= x ->
  x < inject_Z (weight_below weights i + wt) ->
  fst (_get_weighted_random_illness_with weights w) = Ok k /\
  draws (snd (_get_weighted_random_illness_with weights w)) = S (draws w).
Proof.
  intros Hpos Hi. cbv zeta. intros Hlo Hhi.
  set (ws := map snd weights).
  assert (Hposws : forall y, In y ws -> (0 <= y)%Z).
  { intros y Hy. apply in_map_iff in Hy as (e & <- & He). apply Hpos, He. }
  assert (Hn : (i < length weights)%nat) by (eapply lookup_lt_Some; exact Hi).
  assert (Hlen : length ws = length weights) by apply length_map.
  assert (Hmono : forall j j', (j <= j')%nat ->
            (weight_below weights j <= weight_below weights j')%Z).
  { intros j j' Hle. rewrite !weight_below_take. apply sum_take_le; assumption. }
  assert (Htotal : total_weight weights = weight_below weights (length weights)).
  { rewrite weight_below_take. fold ws. rewrite <- Hlen, sum_take_all.
    reflexivity. }
  assert (Hwt : (0 < wt)%Z).
  { apply Qle_lt_trans with (z := inject_Z (weight_below weights i + wt)) in Hlo;
      [|exact Hhi].
    rewrite <- Zlt_Qlt in Hlo. lia. }
  assert (Htotal_pos : (0 < total_weight weights)%Z).
  { rewrite Htotal.
    pose proof (Hmono (S i) (length weights) ltac:(lia)) as H1.
    pose proof (Hmono 0%nat i ltac:(lia)) as H0.
    rewrite (weight_below_S _ _ _ _ Hi) in H1.
    change (weight_below weights 0) with 0%Z in H0. lia. }
  unfold _get_weighted_random_illness_with, random_choices. subst ws.
  rewrite accumulate_length, Hlen, !length_map, Nat.eqb_refl. cbn [negb].
  rewrite last_lookup, accumulate_length, Hlen.
  rewrite accumulate_lookup by lia.
  replace (S (Init.Nat.pred (length weights))) with (length weights) by lia.
  rewrite Z.add_0_l, <- weight_below_take, <- Htotal.
  replace (total_weight weights <=? 0)%Z with false
    by (symmetry; apply Z.leb_gt; exact Htotal_pos).
  unfold bind, random_random, ret. cbn [fst snd draws rand].
  rewrite (bisect_threshold _ (rand w (draws w) * inject_Z (total_weight weights)) i).
  - rewrite lookup_map, Hi. cbn. split; reflexivity.
  - intros j am Hj Ham. rewrite lookup_map in Ham.
    rewrite accumulate_lookup in Ham by lia. cbn in Ham. injection Ham as <-.
    rewrite Z.add_0_l, <- weight_below_take.
    apply Qltb_ge. eapply Qle_trans; [|exact Hlo].
    rewrite <- Zle_Qle. apply Hmono. lia.
  - intros j am Hj Ham. rewrite lookup_map in Ham.
    assert (Hjn : (j < length (map snd weights))%nat).
    { destruct (accumulate 0 (map snd weights) !! j) eqn:E; [|discriminate].
      apply lookup_lt_Some in E. rewrite accumulate_length in E. exact E. }
    rewrite accumulate_lookup in Ham by exact Hjn. cbn in Ham.
    injection Ham as <-. rewrite Z.add_0_l, <- weight_below_take.
    apply Qltb_lt. eapply Qlt_le_trans; [exact Hhi|].
    rewrite <- Zle_Qle, <- (weight_below_S _ _ _ _ Hi). apply Hmono. lia.
  - lia.
  - rewrite length_map, accumulate_length. lia.
  - lia.
Qed.

Lemma weighted_draw_by_slot_witness :
  let w := test_world (mkManager None 0 0) ∅ 5000 0.5 in
  weights_table !! 3%nat = Some (MINOR_SCRATCH, 15%Z) /\
  weight_below weights_table 3 = 65%Z /\
  total_weight weights_table = 141%Z /\
  fst (_get_weighted_random_illness w) = Ok MINOR_SCRATCH.
Proof.
  cbv zeta. split; [reflexivity|]. split; [reflexivity|]. split; [reflexivity|].
  refine (proj1 (weighted_draw_by_slot weights_table
                   (test_world (mkManager None 0 0) ∅ 5000 0.5)
                   3 MINOR_SCRATCH 15 _ eq_refl _ _)).
  - intros e He. cbn in He.
    repeat (destruct He as [<-|He]; [cbn; lia|]). contradiction.
  - discriminate.
  - reflexivity.
Defined.

(** *** Memory and storage stay in step *)

Lemma in_sync_same (w W : World) :
  in_sync w -> self W = self w -> storage W = storage w -> in_sync W.
Proof. unfold in_sync. intros H -> ->. exact H. Qed.

Lemma in_sync_cell (w W : World) :
  in_sync w -> self W = self w ->
  get_raises (storage W) = get_raises (storage w) ->
  cells (storage W) !! "illness_state" = cells (storage w) !! "illness_state" ->
  in_sync W.
Proof.
  unfold in_sync, init, load_state, load_state_try, storage_get.
  intros H -> -> ->. exact H.
Qed.

Lemma save_state_synced (w : World) :
  working (storage w) ->
  wp save_state (fun _ w' => working (storage w') /\ in_sync w') w.
Proof.
  intros [Hg Hs]. unfold wp. run. unfold storage_set. rewrite Hs. simpl.
  split; [split; [exact Hg|reflexivity]|].
  unfold in_sync, init, load_state, load_state_try, storage_get. simpl.
  rewrite Hg, lookup_insert_eq. simpl.
  destruct (self w) as [[i|] lrt cd]; simpl; [|reflexivity].
  rewrite of_value_value. destruct i; reflexivity.
Qed.

Lemma add_to_history_synced (illness : IllnessInfo) (end_time : Q) (w : World) :
  working (storage w) ->
  wp (_add_to_history illness end_time)
     (fun _ w' => working (storage w') /\ (in_sync w -> in_sync w')) w.
Proof.
  intros [Hg Hs]. unfold wp.
  destruct (add_to_history_frame illness end_time w)
    as (Hself & _ & _ & _ & _ & _ & Hg' & Hs' & Hcell).
  split; [split; congruence|].
  intros Hsync. eapply in_sync_cell; eassumption.
Qed.

Ltac synced_leaf :=
  match goal with
  | Hw : working _, Hs : in_sync _ |- _ =>
      split; [exact Hw|eapply in_sync_same; [exact Hs|reflexivity|reflexivity]]
  end.

Lemma recover_synced (w : World) :
  working (storage w) -> in_sync w ->
  wp recover_from_illness (fun _ w' => working (storage w') /\ in_sync w') w.
Proof.
  intros Hw Hsync. unfold recover_from_illness. wp_run.
  destruct (current_illness (self w)) as [i|]; [|apply wp_ret; synced_leaf].
  wp_run. eapply wp_mono; [apply add_to_history_synced; exact Hw|].
  intros a w1 [Hw1 _]. cbv beta. wp_run.
  apply save_state_synced. exact Hw1.
Qed.

Lemma transition_synced (k : IllnessType) (w : World) :
  working (storage w) ->
  wp (transition_to_illness k) (fun _ w' => working (storage w') /\ in_sync w') w.
Proof.
  intros Hw. unfold transition_to_illness. wp_run.
  apply save_state_synced. exact Hw.
Qed.

Lemma update_stage_synced (d e : Q) (w : World) :
  working (storage w) -> in_sync w ->
  wp (_update_illness_stage d e)
     (fun _ w' => working (storage w') /\ in_sync w') w.
Proof.
  intros Hw Hsync. unfold _update_illness_stage. wp_run.
  destruct (current_illness (self w)) as [i|]; [|apply wp_ret; synced_leaf].
  destruct (bool_decide _); [apply wp_ret; synced_leaf|].
  wp_run. apply save_state_synced. exact Hw.
Qed.

Lemma update_synced (w : World) :
  working (storage w) -> in_sync w ->
  wp update_illness_state (fun _ w' => working (storage w') /\ in_sync w') w.
Proof.
  intros Hw Hsync. unfold update_illness_state. wp_run.
  destruct (current_illness (self w)) as [i|]; [|apply wp_ret; synced_leaf].
  wp_run.
  match goal with
  | |- wp ?c _ ?W =>
      assert (Hbranch : wp c (fun _ w' => working (storage w') /\ in_sync w') W)
  end.
  { destruct (Qgeb _ _); [|apply wp_ret; synced_leaf].
    destruct (get_possible_transitions _) as [|first rest].
    - apply recover_synced; [exact Hw|].
      eapply in_sync_same; [exact Hsync|reflexivity|reflexivity].
    - wp_run. destruct (Qltb _ _).
      + wp_run. apply transition_synced. exact Hw.
      + apply recover_synced; [exact Hw|].
        eapply in_sync_same; [exact Hsync|reflexivity|reflexivity]. }
  eapply wp_mono; [exact Hbranch|].
  intros a w1 [Hw1 Hs1]. apply update_stage_synced; assumption.
Qed.

Lemma should_get_sick_synced (p : Q) (w : World) :
  working (storage w) -> in_sync w ->
  wp (should_get_sick p) (fun _ w' => working (storage w') /\ in_sync w') w.
Proof.
  intros Hw Hsync. unfold should_get_sick. wp_run.
  destruct (Qltb _ _); [apply wp_ret; synced_leaf|].
  destruct (current_illness (self w)); [apply wp_ret; synced_leaf|].
  wp_run. destruct (Qltb _ _); apply wp_ret; synced_leaf.
Qed.

Lemma trigger_with_synced (weights : table Z) (w : World) :
  working (storage w) -> in_sync w ->
  wp (trigger_random_illness_with weights)
     (fun _ w' => working (storage w') /\ in_sync w') w.
Proof.
  intros Hw Hsync. unfold trigger_random_illness_with. wp_run.
  unfold _get_weighted_random_illness_with.
  pose proof (random_choices_world (map fst weights) (map snd weights) w) as Hrc.
  cbv zeta in Hrc. destruct Hrc as (Hs & Hst & _).
  unfold wp at 1.
  destruct (random_choices (map fst weights) (map snd weights) w) as [r w1].
  cbn [fst snd] in *.
  assert (Hw1 : working (storage w1)) by (rewrite Hst; exact Hw).
  assert (Hs1 : in_sync w1) by (eapply in_sync_same; eassumption).
  destruct r as [k|e]; [|apply wp_ret; split; assumption].
  wp_run. eapply wp_mono; [apply save_state_synced; exact Hw1|].
  intros a w2 H2. apply wp_ret. exact H2.
Qed.

Lemma set_cool_down_synced (days : Q) (w : World) :
  working (storage w) ->
  wp (set_cool_down days) (fun _ w' => working (storage w') /\ in_sync w') w.
Proof.
  intros Hw. unfold set_cool_down. wp_run.
  apply save_state_synced. exact Hw.
Qed.

Lemma force_recovery_synced (w : World) :
  working (storage w) -> in_sync w ->
  wp force_recovery (fun _ w' => working (storage w') /\ in_sync w') w.
Proof.
  intros Hw Hsync. unfold force_recovery. wp_run.
  destruct (current_illness (self w)) eqn:E; [|apply wp_ret; synced_leaf].
  apply recover_synced; assumption.
Qed.

(** X8: on a working storage, memory and storage stay in step across every
    operation.  If a manager restarted from the storage would hold the
    attributes of the running manager, the same is true after
    [update_illness_state], [should_get_sick], [trigger_random_illness],
    [recover_from_illness], [force_recovery] and [set_cool_down], in every
    branch they take; each of them saves whenever it changes an attribute. *)
Theorem operations_keep_storage_in_step (w : World) :
  working (storage w) -> in_sync w ->
  in_sync (snd (update_illness_state w)) /\
  (forall p, in_sync (snd (should_get_sick p w))) /\
  in_sync (snd (trigger_random_illness w)) /\
  in_sync (snd (recover_from_illness w)) /\
  in_sync (snd (force_recovery w)) /\
  (forall days, in_sync (snd (set_cool_down days w))).
Proof.
  intros Hw Hsync. splits.
  - apply (update_synced w Hw Hsync).
  - intros p. apply (should_get_sick_synced p w Hw Hsync).
  - apply (trigger_with_synced weights_table w Hw Hsync).
  - apply (recover_synced w Hw Hsync).
  - apply (force_recovery_synced w Hw Hsync).
  - intros days. apply (set_cool_down_synced days w Hw).
Qed.

Lemma operations_keep_storage_in_step_witness :
  let s := mkManager (Some (mkIllnessInfo SEVERE_COLD 0 0.8 "initial")) 0 0 in
  let w := snd (save_state (test_world s ∅ 176400 0.5)) in
  working (storage w) /\ in_sync w /\
  init (storage (snd (update_illness_state w))) =
    loaded_of (self (snd (update_illness_state w))).
Proof.
  cbv zeta.
  assert (Hw : working
                 (storage
                    (snd (save_state
                            (test_world
                               (mkManager
                                  (Some (mkIllnessInfo SEVERE_COLD 0 0.8 "initial")) 0 0)
                               ∅ 176400 0.5))))) by (split; reflexivity).
  assert (Hs : in_sync
                 (snd (save_state
                         (test_world
                            (mkManager
                               (Some (mkIllnessInfo SEVERE_COLD 0 0.8 "initial")) 0 0)
                            ∅ 176400 0.5)))) by (vm_compute; reflexivity).
  split; [exact Hw|]. split; [exact Hs|].
  exact (proj1 (operations_keep_storage_in_step _ Hw Hs)).
Defined.

(** *** The storage never steers the manager *)

Lemma blind_ret {A} (a : A) : storage_blind (ret a).
Proof. intros w w' Hm. split; [reflexivity|exact Hm]. Qed.

Lemma blind_bind {A B} (c : M A) (f : A -> M B) :
  storage_blind c -> (forall a, storage_blind (f a)) -> storage_blind (bind c f).
Proof.
  intros Hc Hf w w' Hm. destruct (Hc w w' Hm) as [Hr Hm'].
  unfold bind. destruct (c w) as [a w1], (c w') as [a' w1'].
  cbn [fst snd] in *. subst a'. apply Hf. exact Hm'.
Qed.

Lemma blind_get_self : storage_blind get_self.
Proof. intros w w' Hm. split; [apply Hm|exact Hm]. Qed.

Lemma blind_put_self (s : Manager) : storage_blind (put_self s).
Proof.
  intros w w' (Hs & Hc & Ht & Hr & Hb & Hd).
  split; [reflexivity|]. unfold same_memory. cbn. splits; auto.
Qed.

Lemma blind_time_time : storage_blind time_time.
Proof.
  intros w w' (Hs & Hc & Ht & Hr & Hb & Hd). unfold same_memory. cbn.
  rewrite Hc, Ht. splits; auto.
Qed.

Lemma blind_random_random : storage_blind random_random.
Proof.
  intros w w' (Hs & Hc & Ht & Hr & Hb & Hd). unfold same_memory. cbn.
  rewrite Hr, Hd. splits; auto.
Qed.

Lemma blind_random_choice {A} (d : A) (seq : list A) :
  storage_blind (random_choice d seq).
Proof.
  intros w w' (Hs & Hc & Ht & Hr & Hb & Hd). unfold same_memory. cbn.
  rewrite Hb, Hd. splits; auto.
Qed.

Lemma blind_save_state : storage_blind save_state.
Proof.
  intros w w' (Hs & Hc & Ht & Hr & Hb & Hd).
  split; [destruct (fst (save_state w)), (fst (save_state w')); reflexivity|].
  unfold same_memory. rewrite !save_state_self.
  destruct (save_state_oracles w) as (-> & -> & -> & -> & ->).
  destruct (save_state_oracles w') as (-> & -> & -> & -> & ->).
  rewrite Ht. splits; auto.
Qed.

Lemma blind_add_to_history (illness : IllnessInfo) (end_time : Q) :
  storage_blind (_add_to_history illness end_time).
Proof.
  intros w w' (Hs & Hc & Ht & Hr & Hb & Hd).
  split; [destruct (fst (_ w)), (fst (_ w')); reflexivity|].
  unfold same_memory.
  destruct (add_to_history_frame illness end_time w)
    as (-> & -> & -> & -> & -> & -> & _).
  destruct (add_to_history_frame illness end_time w')
    as (-> & -> & -> & -> & -> & -> & _).
  splits; auto.
Qed.

Lemma blind_random_choices {A} (population : list A) (weights : list Z) :
  storage_blind (random_choices population weights).
Proof.
  unfold random_choices.
  destruct (negb _); [apply blind_ret|].
  destruct (last _) as [total|]; [|apply blind_ret].
  destruct (total <=? 0)%Z; [apply blind_ret|].
  apply blind_bind; [apply blind_random_random|]. intros u. apply blind_ret.
Qed.

Ltac blind :=
  repeat first
    [ apply blind_ret
    | apply blind_get_self
    | apply blind_put_self
    | apply blind_time_time
    | apply blind_random_random
    | apply blind_random_choice
    | apply blind_save_state
    | apply blind_add_to_history
    | apply blind_random_choices
    | apply blind_bind; [|intros ?] ].

Lemma blind_recover : storage_blind recover_from_illness.
Proof.
  unfold recover_from_illness. apply blind_bind; [blind|]. intros s.
  destruct (current_illness s); blind.
Qed.

Lemma blind_transition (k : IllnessType) : storage_blind (transition_to_illness k).
Proof. unfold transition_to_illness. blind. Qed.

Lemma blind_update_stage (d e : Q) : storage_blind (_update_illness_stage d e).
Proof.
  unfold _update_illness_stage. apply blind_bind; [blind|]. intros s.
  destruct (current_illness s); [|blind].
  destruct (bool_decide _); blind.
Qed.

Lemma blind_update : storage_blind update_illness_state.
Proof.
  unfold update_illness_state. apply blind_bind; [blind|]. intros s.
  destruct (current_illness s) as [i|]; [|blind].
  apply blind_bind; [blind|]. intros t0.
  apply blind_bind; [blind|]. intros t.
  apply blind_bind; [|intros ?; apply blind_update_stage].
  destruct (Qgeb _ _); [|blind].
  destruct (get_possible_transitions _); [apply blind_recover|].
  apply blind_bind; [blind|]. intros u.
  destruct (Qltb _ _); [|apply blind_recover].
  apply blind_bind; [blind|]. intros k. apply blind_transition.
Qed.

Lemma blind_should_get_sick (p : Q) : storage_blind (should_get_sick p).
Proof.
  unfold should_get_sick. apply blind_bind; [blind|]. intros t.
  apply blind_bind; [blind|]. intros s.
  destruct (Qltb _ _); [blind|]. destruct (current_illness s); [blind|].
  apply blind_bind; [blind|]. intros u. destruct (Qltb _ _); blind.
Qed.

Lemma blind_trigger_with (weights : table Z) :
  storage_blind (trigger_random_illness_with weights).
Proof.
  unfold trigger_random_illness_with, _get_weighted_random_illness_with.
  apply blind_bind; [blind|]. intros [k|e]; blind.
Qed.

Lemma blind_force_recovery : storage_blind force_recovery.
Proof.
  unfold force_recovery. apply blind_bind; [blind|]. intros s.
  destruct (current_illness s); [apply blind_recover|blind].
Qed.

Lemma blind_set_cool_down (days : Q) : storage_blind (set_cool_down days).
Proof. unfold set_cool_down. blind. Qed.

(** X9: the storage never steers the manager.  Run in two worlds that
    differ only in their storage (one may raise on every call or hold
    garbage), each operation returns the same result and leaves the same
    attributes, clock position and number of draws: storage failures are
    swallowed without a trace in memory. *)
Theorem operations_ignore_storage :
  storage_blind update_illness_state /\
  (forall p, storage_blind (should_get_sick p)) /\
  storage_blind trigger_random_illness /\
  storage_blind recover_from_illness /\
  storage_blind force_recovery /\
  (forall days, storage_blind (set_cool_down days)).
Proof.
  splits.
  - apply blind_update.
  - apply blind_should_get_sick.
  - apply blind_trigger_with.
  - apply blind_recover.
  - apply blind_force_recovery.
  - apply blind_set_cool_down.
Qed.

Lemma operations_ignore_storage_witness :
  let s := mkManager (Some (mkIllnessInfo NOSEBLEED 0 0.3 "initial")) 0 0 in
  let good := test_world s ∅ 1800 0.5 in
  let broken :=
    mkWorld s (mkStorage (<["illness_history" := VStr "garbage"]> ∅) true true)
      (fun _ => 1800) 0 (fun _ => 0.5) (fun _ => 0%nat) 0 in
  same_memory good broken /\
  self (snd (update_illness_state good)) = self (snd (update_illness_state broken)) /\
  self (snd (update_illness_state broken)) = mkManager None 1800 0.
Proof.
  cbv zeta.
  assert (Hm : same_memory
                 (test_world
                    (mkManager (Some (mkIllnessInfo NOSEBLEED 0 0.3 "initial")) 0 0)
                    ∅ 1800 0.5)
                 (mkWorld
                    (mkManager (Some (mkIllnessInfo NOSEBLEED 0 0.3 "initial")) 0 0)
                    (mkStorage (<["illness_history" := VStr "garbage"]> ∅) true true)
                    (fun _ => 1800) 0 (fun _ => 0.5) (fun _ => 0%nat) 0))
    by (unfold same_memory; cbn; splits; reflexivity).
  split; [exact Hm|]. split.
  - exact (proj1 (proj2 (proj1 operations_ignore_storage _ _ Hm))).
  - vm_compute. reflexivity.
Defined.

(** *** The random kind with exclusions *)

Lemma not_in_spec (l : list IllnessType) (t : IllnessType) :
  not_in l t = true <-> ~ In t l.
Proof.
  unfold not_in. rewrite negb_true_iff. split.
  - intros Hex Hin.
    assert (H : existsb (fun e => bool_decide (e = t)) l = true).
    { apply existsb_exists. exists t. split; [exact Hin|].
      apply bool_decide_eq_true_2. reflexivity. }
    congruence.
  - intros Hnot. destruct (existsb _ l) eqn:E; [|reflexivity].
    apply existsb_exists in E as (e & He & Heq).
    apply bool_decide_eq_true_1 in Heq. subst e. contradiction.
Qed.

Lemma available_spec (l : list IllnessType) (t : IllnessType) :
  In t (List.filter (not_in l) get_all_illness_types) <-> ~ In t l.
Proof.
  rewrite filter_In, not_in_spec. split; [tauto|].
  intros H. split; [apply all_illness_types_complete|exact H].
Qed.

Lemma random_choice_in {A} (d : A) (seq : list A) (w : World) :
  seq <> [] -> In (fst (random_choice d seq w)) seq.
Proof.
  intros Hne. unfold random_choice. cbn [fst].
  apply nth_In. apply Nat.mod_upper_bound.
  destruct seq; [congruence|discriminate].
Qed.

(** X10: [get_random_illness_type] never returns an excluded kind as long
    as some kind is left, and then takes exactly one draw; when every kind
    is excluded it draws nothing and returns the mild cold, which is itself
    excluded.  No exclusion list and the empty list both allow every
    kind.  The manager and the storage are not touched. *)
Theorem get_random_illness_type_spec
    (exclude_types : option (list IllnessType)) (w : World) :
  let excluded t :=
    match exclude_types with Some l => In t l | None => False end in
  let r := fst (get_random_illness_type exclude_types w) in
  let w' := snd (get_random_illness_type exclude_types w) in
  ((exists t, ~ excluded t) -> ~ excluded r /\ draws w' = S (draws w)) /\
  ((forall t, excluded t) -> r = MILD_COLD /\ draws w' = draws w) /\
  self w' = self w /\ storage w' = storage w.
Proof.
  cbv zeta. unfold get_random_illness_type.
  destruct exclude_types as [[|e es]|].
  - splits; try reflexivity.
    + intros _. split; [|reflexivity]. intros [].
    + intros Hall. destruct (Hall MILD_COLD).
  - destruct (List.filter (not_in (e :: es)) get_all_illness_types)
      as [|first rest] eqn:Ef.
    + splits; try reflexivity.
      * intros [t Ht]. apply available_spec in Ht. rewrite Ef in Ht.
        destruct Ht.
      * intros _. split; reflexivity.
    + splits; try reflexivity.
      * intros _. split; [|reflexivity].
        apply available_spec. rewrite Ef.
        apply random_choice_in. discriminate.
      * intros Hall.
        assert (Hfirst : In first (first :: rest)) by (left; reflexivity).
        rewrite <- Ef in Hfirst. apply available_spec in Hfirst.
        destruct (Hfirst (Hall first)).
  - splits; try reflexivity.
    + intros _. split; [|reflexivity]. intros [].
    + intros Hall. destruct (Hall MILD_COLD).
Qed.

Lemma get_random_illness_type_spec_witness :
  let w := test_world (mkManager None 0 0) ∅ 0 0 in
  fst (get_random_illness_type (Some get_all_illness_types) w) = MILD_COLD /\
  In MILD_COLD get_all_illness_types /\
  ~ In (fst (get_random_illness_type (Some [SEVERE_COLD; MILD_COLD]) w))
       [SEVERE_COLD; MILD_COLD].
Proof.
  cbv zeta. split; [|split].
  - apply (proj1 (proj2 (get_random_illness_type_spec
                           (Some get_all_illness_types)
                           (test_world (mkManager None 0 0) ∅ 0 0)))).
    intros t. apply all_illness_types_complete.
  - apply all_illness_types_complete.
  - apply (proj1 (get_random_illness_type_spec
                    (Some [SEVERE_COLD; MILD_COLD])
                    (test_world (mkManager None 0 0) ∅ 0 0))).
    exists HEADACHE. cbn. intros [H|[H|[]]]; discriminate.
Defined.

(** *** Reading the history at other limits *)

Lemma drop_min_length {A} (a : nat) (l : list A) :
  drop (Nat.min a (length l)) l = drop a l.
Proof.
  destruct (Nat.le_gt_cases a (length l)) as [Hle|Hgt].
  - rewrite Nat.min_l by exact Hle. reflexivity.
  - rewrite Nat.min_r by lia. rewrite drop_all, drop_ge by lia. reflexivity.
Qed.

(** X11: [get_illness_history] never raises.  On a stored list it returns,
    for a positive limit, the last [limit] records (all of them when there
    are fewer), oldest first; for a negative limit it returns the list
    without its first [-limit] records.  It returns the empty list when the
    storage raises and when the cell holds a value that is neither a list
    nor a string. *)
Theorem get_illness_history_edges (st : Storage) (limit : Z) :
  (get_raises st = true -> get_illness_history st limit = VList []) /\
  (forall h, get_raises st = false -> stored_history st = Some h ->
     ((0 < limit)%Z ->
        get_illness_history st limit = VList (most_recent (Z.to_nat limit) h)) /\
     ((limit < 0)%Z ->
        get_illness_history st limit = VList (drop (Z.to_nat (- limit)) h))) /\
  (forall v, get_raises st = false ->
     cells st !! "illness_history" = Some v ->
     (forall l, v <> VList l) -> (forall s, v <> VStr s) ->
     get_illness_history st limit = VList []).
Proof.
  splits.
  - apply get_illness_history_read_failure.
  - intros h Hg Hh. split.
    + apply get_illness_history_positive; assumption.
    + intros Hneg.
      unfold get_illness_history, storage_get, stored_history in *.
      rewrite Hg.
      assert (Hv : match cells st !! "illness_history" with
                   | Some v => v | None => VList [] end = VList h).
      { destruct (cells st !! "illness_history") as [[]|];
          try discriminate; injection Hh as ->; reflexivity. }
      rewrite Hv. cbn [bindE].
      destruct h as [|r h]; [rewrite drop_nil; reflexivity|].
      cbn [truthy length bool_decide negb py_slice_from].
      change (negb (bool_decide (S (length h) = 0%nat))) with true. cbv iota.
      f_equal. unfold slice_from.
      replace (- limit <? 0)%Z with false by (symmetry; apply Z.ltb_ge; lia).
      rewrite <- (drop_min_length (Z.to_nat (- limit))). f_equal. lia.
  - intros v Hg Hc Hl Hs.
    unfold get_illness_history, storage_get. rewrite Hg, Hc. cbn [bindE].
    destruct v; try reflexivity.
    + destruct (truthy _); reflexivity.
    + destruct (truthy _); reflexivity.
    + exfalso. exact (Hs s eq_refl).
    + exfalso. exact (Hl l eq_refl).
    + destruct (truthy _); reflexivity.
Qed.

Lemma get_illness_history_edges_witness :
  let r1 := history_record (mkIllnessInfo HEADACHE 0 0.3 "recovering") 86400 in
  let r2 := history_record (mkIllnessInfo NOSEBLEED 90000 0.3 "recovering") 91800 in
  let r3 := history_record (mkIllnessInfo STIFF_NECK 100000 0.3 "recovering") 186400 in
  let st := test_storage (<["illness_history" := VList [r1; r2; r3]]> ∅) in
  get_illness_history st 2 = VList [r2; r3] /\
  get_illness_history st 10 = VList [r1; r2; r3] /\
  get_illness_history st (-1) = VList [r2; r3] /\
  get_illness_history (test_storage (<["illness_history" := VNum 7]> ∅)) 2 = VList [].
Proof.
  intros r1 r2 r3 st.
  assert (Hg : get_raises st = false) by reflexivity.
  assert (Hh : stored_history st = Some [r1; r2; r3]) by reflexivity.
  splits.
  - exact (proj1 (proj1 (proj2 (get_illness_history_edges st 2)) _ Hg Hh) eq_refl).
  - exact (proj1 (proj1 (proj2 (get_illness_history_edges st 10)) _ Hg Hh) eq_refl).
  - exact (proj2 (proj1 (proj2 (get_illness_history_edges st (-1))) _ Hg Hh) eq_refl).
  - apply (proj2 (proj2 (get_illness_history_edges
                           (test_storage (<["illness_history" := VNum 7]> ∅)) 2))
             (VNum 7)); solve [reflexivity | discriminate].
Defined.

(** *** The names of the kinds *)

(** X12: the display name of a kind identifies it.  [IllnessType(v)]
    succeeds exactly on the eleven names and gives back the kind whose name
    [v] is, no two kinds share a name, and so the "type" field written by
    [save_state] and [_add_to_history] is read back as the same kind. *)
Theorem illness_type_value_roundtrip :
  (forall t, of_value (value t) = Some t) /\
  (forall s t, of_value s = Some t -> value t = s) /\
  (forall t1 t2, value t1 = value t2 -> t1 = t2) /\
  (forall v t, IllnessType_call v = Ok t <-> v = VStr (value t)) /\
  (forall i end_time,
     bindE (py_getitem (history_record i end_time) "type") IllnessType_call =
       Ok (illness_type i)) /\
  (forall i,
     bindE (py_getitem (illness_to_val i) "type") IllnessType_call =
       Ok (illness_type i)).
Proof.
  splits.
  - apply of_value_value.
  - intros s t E. unfold of_value in E.
    apply find_some in E as [_ E]. apply bool_decide_eq_true_1 in E. exact E.
  - intros t1 t2 H.
    pose proof (of_value_value t1) as H1. rewrite H, of_value_value in H1.
    congruence.
  - apply IllnessType_call_valid.
  - intros [t start sev stg] end_time. destruct t; vm_compute; reflexivity.
  - intros [t start sev stg]. destruct t; vm_compute; reflexivity.
Qed.

(** *** The status report *)

Lemma max0_nonneg (x : Q) : 0 <= max0 x.
Proof.
  unfold max0. destruct (Qltb 0 x) eqn:E; [|apply Qle_refl].
  apply Qltb_lt in E. apply Qlt_le_weak. exact E.
Qed.

Lemma max0_covers (e d : Q) : e <= d + max0 (e - d).
Proof.
  unfold max0. destruct (Qltb 0 (e - d)) eqn:E.
  - assert (H : d + (e - d) == e) by ring. rewrite H. apply Qle_refl.
  - apply Qltb_ge in E. rewrite Qplus_0_r.
    apply Qle_minus_iff. apply Qle_minus_iff in E.
    assert (H : d + - e == 0 + - (e - d)) by ring. rewrite H. exact E.
Qed.

Lemma hours_until_positive (now deadline : Q) :
  now < deadline -> 0 < (deadline - now) / 3600.
Proof.
  intros Hlt. apply Qlt_shift_div_l; [reflexivity|].
  rewrite Qmult_0_l. unfold Qminus. apply Qlt_minus_iff in Hlt. exact Hlt.
Qed.

(** X13: [get_health_status] changes nothing and draws nothing.  It
    reports healthy exactly when no illness is present, and the keys
    "current_illness" (non-null) and "recovery_remaining_hours" exactly
    when one is.  It reports the cooldown exactly when the clock is
    strictly before the deadline, with a positive number of remaining
    hours, and 0 otherwise.  The remaining hours of an illness are never
    negative, and elapsed plus remaining hours cover the nominal duration
    (they exceed it only when the illness is overdue). *)
Theorem get_health_status_spec (w : World) :
  let st := fst (get_health_status w) in
  let w' := snd (get_health_status w) in
  let now := clock w (ticks w) in
  self w' = self w /\ storage w' = storage w /\ draws w' = draws w /\
  (is_healthy st = true <-> current_illness (self w) = None) /\
  (status_current_illness st = None <-> is_healthy st = true) /\
  (recovery_remaining_hours st = None <-> is_healthy st = true) /\
  (in_cool_down st = true <-> now < cool_down_end_time (self w)) /\
  (in_cool_down st = true ->
     cool_down_remaining st = (cool_down_end_time (self w) - now) / 3600 /\
     0 < cool_down_remaining st) /\
  (in_cool_down st = false -> cool_down_remaining st = 0) /\
  (forall i, current_illness (self w) = Some i ->
     exists info,
       status_current_illness st = Some info /\
       status_type info = value (illness_type i) /\
       status_description info = get_illness_description (illness_type i) /\
       status_stage info = stage i /\
       status_duration_hours info = (clock w (S (ticks w)) - start_time i) / 3600 /\
       0 <= status_remaining_hours info /\
       get_illness_duration (illness_type i) <=
         status_duration_hours info + status_remaining_hours info /\
       recovery_remaining_hours st = Some (status_remaining_hours info) /\
       recovery_time_text st = Some (remaining_text (status_remaining_hours info))).
Proof.
  cbv zeta. unfold get_health_status, bind, get_self, time_time, ret.
  cbn [fst snd self clock ticks].
  assert (Hcd : forall b : bool,
            b = Qltb (clock w (ticks w)) (cool_down_end_time (self w)) ->
            (b = true <-> clock w (ticks w) < cool_down_end_time (self w)) /\
            (b = true ->
               (if b then (cool_down_end_time (self w) - clock w (ticks w)) / 3600
                else 0) = (cool_down_end_time (self w) - clock w (ticks w)) / 3600 /\
               0 < (if b then (cool_down_end_time (self w) - clock w (ticks w)) / 3600
                    else 0)) /\
            (b = false ->
               (if b then (cool_down_end_time (self w) - clock w (ticks w)) / 3600
                else 0) = 0)).
  { intros b ->. splits.
    - apply Qltb_lt.
    - intros E. rewrite E. split; [reflexivity|].
      apply hours_until_positive, Qltb_lt, E.
    - intros E. rewrite E. reflexivity. }
  destruct (Hcd _ eq_refl) as (Hcd1 & Hcd2 & Hcd3).
  destruct (current_illness (self w)) as [i|];
    cbn [fst snd self storage draws is_healthy in_cool_down
         status_current_illness cool_down_remaining recovery_remaining_hours
         recovery_time_text].
  - splits; try reflexivity; try assumption;
      try (split; intros; discriminate).
    intros i' [= <-]. eexists. split; [reflexivity|].
    cbn [status_type status_description status_stage status_duration_hours
         status_remaining_hours].
    unfold get_duration_hours. splits; try reflexivity.
    + apply max0_nonneg.
    + apply max0_covers.
  - splits; try reflexivity; try assumption;
      try (split; reflexivity).
    intros i' [=].
Qed.

(** A severe cold ten hours in: 38 hours remain, reported in days. *)
Example get_health_status_example :
  let i := mkIllnessInfo SEVERE_COLD 0 0.8 "initial" in
  let st := fst (get_health_status
                   (test_world (mkManager (Some i) 0 50000) ∅ 36000 0.5)) in
  is_healthy st = false /\ in_cool_down st = true /\
  recovery_remaining_hours st = Some (48 - (36000 - 0) / 3600) /\
  recovery_time_text st =
    Some [Lit "预计还有"; Fixed1 ((48 - (36000 - 0) / 3600) / 24); Lit "天康复"].
Proof. cbv zeta. splits; reflexivity. Qed.

(** *** The scheduler tick *)

Lemma should_get_sick_clock (p : Q) (w : World) :
  clock (snd (should_get_sick p w)) = clock w /\
  ticks (snd (should_get_sick p w)) = S (ticks w) /\
  rand (snd (should_get_sick p w)) = rand w /\
  rand_below (snd (should_get_sick p w)) = rand_below w.
Proof.
  run. destruct (Qltb _ _); [splits; reflexivity|].
  destruct (current_illness (self w)); [splits; reflexivity|].
  simpl. destruct (Qltb _ _); splits; reflexivity.
Qed.

(** One tick with a numeric probability, step by step. *)
Lemma handler_execute_numeric (cfg : list (string * PyVal)) (p : Q) (w : World) :
  cfg <> [] ->
  assoc cfg "daily_probability" = Some (VNum p) ->
  handler_execute true (Some cfg) w =
    (mkHandlerResult true true (Some [Lit "疾病状态更新完成"]),
     let w1 := snd (update_illness_state w) in
     let w2 := snd (should_get_sick p w1) in
     if fst (should_get_sick p w1) then snd (trigger_random_illness w2) else w2).
Proof.
  intros Hne Hp. destruct cfg as [|c cs]; [congruence|].
  unfold handler_execute, bind. rewrite Hp.
  destruct (update_illness_state w) as [[] w1]. cbn [snd].
  unfold should_get_sick_dyn, bind.
  destruct (should_get_sick p w1) as [b w2]. cbn [fst snd ret].
  destruct b; [|reflexivity].
  destruct (trigger_random_illness w2) as [r w3]. reflexivity.
Qed.

(** X14: one scheduler tick ([IllnessStateHandler.execute] with a manager,
    a non-empty config and a numeric daily probability [p]) always reports
    success.  After advancing the state it triggers a new illness only when
    the manager is then healthy and the clock has reached the cooldown
    deadline, and then exactly when the single draw is below [p]: an
    illness that is still present is never overwritten, and before the
    deadline a healthy manager stays healthy whatever [p] is. *)
Theorem handler_tick (cfg : list (string * PyVal)) (p : Q) (w : World) :
  cfg <> [] ->
  assoc cfg "daily_probability" = Some (VNum p) ->
  let w1 := snd (update_illness_state w) in
  let r := fst (handler_execute true (Some cfg) w) in
  let w2 := snd (handler_execute true (Some cfg) w) in
  success r = true /\ continue_process r = true /\
  (current_illness (self w1) <> None \/
   clock w1 (ticks w1) < cool_down_end_time (self w1) ->
   self w2 = self w1 /\ storage w2 = storage w1 /\ draws w2 = draws w1) /\
  (current_illness (self w1) = None ->
   cool_down_end_time (self w1) <= clock w1 (ticks w1) ->
   (p <= rand w1 (draws w1) -> self w2 = self w1 /\ storage w2 = storage w1) /\
   (rand w1 (draws w1) < p ->
    exists i : IllnessInfo,
      self w2 = mkManager (Some i) (last_recovery_time (self w1))
                  (cool_down_end_time (self w1)) /\
      start_time i = clock w1 (S (ticks w1)) /\
      severity i = get_illness_severity (illness_type i) /\
      stage i = "initial")).
Proof.
  intros Hne Hp. cbv zeta.
  rewrite (handler_execute_numeric cfg p w Hne Hp). cbn [fst snd].
  set (w1 := snd (update_illness_state w)).
  destruct (should_get_sick_pure p w1) as [Hself Hstore].
  destruct (should_get_sick_clock p w1) as (Hclock & Hticks & _).
  splits; try reflexivity.
  - intros Hskip.
    assert (Hno : fst (should_get_sick p w1) = false /\
                  draws (snd (should_get_sick p w1)) = draws w1).
    { destruct Hskip as [Hill|Hcd].
      - apply should_get_sick_when_ill. exact Hill.
      - apply should_get_sick_in_cool_down. exact Hcd. }
    destruct Hno as [-> Hd]. auto.
  - intros Hnone Hcd.
    destruct (should_get_sick_draw p w1 Hcd Hnone) as [_ Hiff].
    split.
    + intros Hge.
      destruct (fst (should_get_sick p w1)) eqn:E; [|auto].
      exfalso. apply (Qlt_not_le _ _ (proj1 Hiff eq_refl)). exact Hge.
    + intros Hlt. rewrite (proj2 Hiff Hlt).
      destruct (weighted_draw_succeeds (snd (should_get_sick p w1)))
        as (k & Hk & _).
      destruct (trigger_with_ok weights_table _ k Hk) as [_ Hs].
      unfold trigger_random_illness. rewrite Hs, Hself, Hclock, Hticks.
      eexists. split; [reflexivity|]. splits; reflexivity.
Qed.

Lemma handler_tick_witness :
  let cfg := [("daily_probability", VNum 1); ("cool_down_days", VNum 3)] in
  let cooling := test_world (mkManager None 0 5000) ∅ 4000 0 in
  let ready := test_world (mkManager None 0 5000) ∅ 5000 0 in
  cfg <> [] /\
  assoc cfg "daily_probability" = Some (VNum 1) /\
  self (snd (handler_execute true (Some cfg) cooling)) = mkManager None 0 5000 /\
  current_illness (self (snd (handler_execute true (Some cfg) ready))) =
    Some (mkIllnessInfo MILD_COLD 5000 0.3 "initial").
Proof.
  cbv zeta. split; [discriminate|]. split; [reflexivity|]. split.
  - refine (proj1 (proj1 (proj2 (proj2
              (handler_tick
                 [("daily_probability", VNum 1); ("cool_down_days", VNum 3)] 1
                 (test_world (mkManager None 0 5000) ∅ 4000 0) _ eq_refl))) _)).
    + discriminate.
    + right. reflexivity.
  - vm_compute. reflexivity.
Defined.

(** X15: [IllnessStateHandler.execute] never raises.  Without a manager,
    without a config or with an empty one it reports success and touches
    nothing.  A config without "daily_probability" behaves as one that
    gives 0.05.  A daily probability that is not a number makes the tick
    fail only when the comparison is reached, that is when the manager is
    healthy and past the cooldown deadline after advancing; while it is ill
    or cooling down the tick reports success and the bad value goes
    unnoticed.  In neither case is an illness triggered. *)
Theorem handler_edge_cases (w : World) :
  (forall cfg, handler_execute false cfg w = (mkHandlerResult true true None, w)) /\
  (forall m, handler_execute m None w = (mkHandlerResult true true None, w)) /\
  (forall m, handler_execute m (Some []) w = (mkHandlerResult true true None, w)) /\
  (forall cfg, cfg <> [] -> assoc cfg "daily_probability" = None ->
     handler_execute true (Some cfg) w =
     handler_execute true (Some (("daily_probability", VNum 0.05) :: cfg)) w) /\
  (forall cfg v, cfg <> [] ->
     assoc cfg "daily_probability" = Some v -> is_number v = false ->
     let w1 := snd (update_illness_state w) in
     let r := fst (handler_execute true (Some cfg) w) in
     let w2 := snd (handler_execute true (Some cfg) w) in
     self w2 = self w1 /\ storage w2 = storage w1 /\
     continue_process r = true /\
     (success r = false <->
        current_illness (self w1) = None /\
        cool_down_end_time (self w1) <= clock w1 (ticks w1))).
Proof.
  splits.
  - intros cfg. reflexivity.
  - intros [|]; reflexivity.
  - intros [|]; reflexivity.
  - intros [|c cs] Hne Hp; [congruence|].
    unfold handler_execute. rewrite Hp. reflexivity.
  - intros [|c cs] v Hne Hp Hnum; [congruence|]. cbv zeta.
    unfold handler_execute, bind. rewrite Hp.
    destruct (update_illness_state w) as [[] w1]. cbn [snd].
    assert (Hdyn : should_get_sick_dyn v w1 =
              (let s := self w1 in
               if Qltb (clock w1 (ticks w1)) (cool_down_end_time s)
               then (Ok false,
                     mkWorld (self w1) (storage w1) (clock w1) (S (ticks w1))
                       (rand w1) (rand_below w1) (draws w1))
               else match current_illness s with
                    | Some _ =>
                        (Ok false,
                         mkWorld (self w1) (storage w1) (clock w1) (S (ticks w1))
                           (rand w1) (rand_below w1) (draws w1))
                    | None =>
                        (Raise TypeError,
                         mkWorld (self w1) (storage w1) (clock w1) (S (ticks w1))
                           (rand w1) (rand_below w1) (S (draws w1)))
                    end)).
    { destruct v; try discriminate; cbv zeta;
        unfold should_get_sick_dyn, bind, time_time, get_self, ret,
          random_random; cbn [fst snd self clock ticks];
        destruct (Qltb _ _); try reflexivity;
        destruct (current_illness (self w1)); reflexivity. }
    rewrite Hdyn. cbv zeta.
    destruct (Qltb (clock w1 (ticks w1)) (cool_down_end_time (self w1))) eqn:Ecd.
    + cbn. splits; try reflexivity. split; [discriminate|].
      intros [_ Hle]. apply Qltb_lt in Ecd.
      exfalso. exact (Qlt_not_le _ _ Ecd Hle).
    + apply Qltb_ge in Ecd.
      destruct (current_illness (self w1)) eqn:Ecur; cbn.
      * splits; try reflexivity. split; [discriminate|]. intros [H _].
        discriminate.
      * splits; try reflexivity. split; [|reflexivity]. intros _.
        split; [reflexivity|exact Ecd].
Qed.

Lemma handler_edge_cases_witness :
  let cfg := [("daily_probability", VStr "often")] in
  let ill := test_world (mkManager (Some (mkIllnessInfo HEADACHE 0 0.3 "initial")) 0 0)
               ∅ 3600 0 in
  let healthy := test_world (mkManager None 0 0) ∅ 3600 0 in
  success (fst (handler_execute true (Some cfg) ill)) = true /\
  success (fst (handler_execute true (Some cfg) healthy)) = false /\
  self (snd (handler_execute true (Some cfg) healthy)) =
    self (snd (update_illness_state healthy)).
Proof.
  cbv zeta. split; [reflexivity|]. split; [reflexivity|].
  refine (proj1 (proj2 (proj2 (proj2 (proj2
            (handler_edge_cases (test_world (mkManager None 0 0) ∅ 3600 0)))))
            [("daily_probability", VStr "often")] (VStr "often") _ eq_refl eq_refl)).
  discriminate.
Defined.

(** *** The commands *)

Lemma set_cool_down_history (days : Q) (w : World) :
  stored_history (storage (snd (set_cool_down days w))) =
  stored_history (storage w).
Proof.
  unfold set_cool_down, bind, get_self, time_time, put_self.
  cbn [fst snd]. rewrite save_state_history. reflexivity.
Qed.

Lemma force_recovery_execute_eq (days : Q) (w : World) :
  force_recovery_execute true days w =
    (((true, "强制康复成功", true),
      [[Lit "✅ 已强制麦麦恢复健康，并开始休息恢复期。"]]),
     snd (set_cool_down days (snd (force_recovery w)))).
Proof.
  unfold force_recovery_execute, bind. cbn [negb].
  destruct (force_recovery w) as [[] w1]. cbn [snd].
  destruct (set_cool_down days w1) as [[] w2]. reflexivity.
Qed.

(** X16: [ForceRecoveryCommand.execute] with a manager and the clock frozen
    at [now] leaves the manager healthy with the cooldown deadline at
    [now + days * 24 * 3600], also when the manager was healthy already.
    An illness that was present is recorded in the history (on a working
    storage) and [last_recovery_time] becomes [now]; a healthy manager
    keeps its [last_recovery_time] and its history.  Until the deadline
    [should_get_sick] answers false.  Without a manager the command reports
    failure and changes nothing. *)
Theorem force_recovery_command_spec (days now : Q) (w : World) :
  frozen now w ->
  let r := fst (force_recovery_execute true days w) in
  let w' := snd (force_recovery_execute true days w) in
  fst r = (true, "强制康复成功", true) /\
  current_illness (self w') = None /\
  cool_down_end_time (self w') = now + days * 24 * 3600 /\
  (current_illness (self w) = None ->
     last_recovery_time (self w') = last_recovery_time (self w) /\
     stored_history (storage w') = stored_history (storage w)) /\
  (forall i, current_illness (self w) = Some i ->
     last_recovery_time (self w') = now /\
     forall h, working (storage w) -> stored_history (storage w) = Some h ->
       stored_history (storage w') =
         Some (most_recent 20 (h ++ [history_record i now]))) /\
  (forall p w2, self w2 = self w' ->
     clock w2 (ticks w2) < now + days * 24 * 3600 ->
     fst (should_get_sick p w2) = false) /\
  force_recovery_execute false days w =
    (((false, "系统未初始化", true), [[Lit "健康系统未初始化"]]), w).
Proof.
  intros Hfrozen. cbv zeta. rewrite force_recovery_execute_eq. cbn [fst snd].
  rewrite set_cool_down_self, set_cool_down_history.
  cbn [current_illness cool_down_end_time last_recovery_time].
  pose proof (force_recovery_kept w w (kept_refl w)) as Hkept.
  unfold wp in Hkept. destruct Hkept as (Hclock & _).
  assert (Hnow : clock (snd (force_recovery w)) (ticks (snd (force_recovery w))) = now)
    by (rewrite Hclock; apply Hfrozen).
  rewrite Hnow.
  assert (Hhealthy : current_illness (self (snd (force_recovery w))) = None).
  { unfold force_recovery, bind, get_self. cbn [fst snd].
    destruct (current_illness (self w)) as [i|] eqn:Ecur.
    - rewrite (recover_self w i Ecur). reflexivity.
    - exact Ecur. }
  splits; try reflexivity.
  - exact Hhealthy.
  - intros Hnone. unfold force_recovery, bind, get_self. cbn [fst snd].
    rewrite Hnone. split; reflexivity.
  - intros i Hcur.
    assert (Hfr : force_recovery w = recover_from_illness w).
    { unfold force_recovery, bind, get_self. cbn [fst snd]. rewrite Hcur.
      reflexivity. }
    rewrite Hfr, (recover_self w i Hcur), Hfrozen. split; [reflexivity|].
    intros h Hw Hh.
    destruct (recover_storage w i h Hcur Hw Hh) as (H1 & _).
    rewrite H1, Hfrozen. reflexivity.
  - intros p w2 Hs Hlt. apply should_get_sick_in_cool_down.
    rewrite Hs. cbn [cool_down_end_time]. exact Hlt.
Qed.

Lemma force_recovery_command_spec_witness :
  let i := mkIllnessInfo TONSILLITIS 0 0.6 "progressing" in
  let w := test_world (mkManager (Some i) 0 0) ∅ 90000 0 in
  let w' := snd (force_recovery_execute true 3 w) in
  frozen 90000 w /\
  self w' = mkManager None 90000 (90000 + 3 * 24 * 3600) /\
  stored_history (storage w') = Some [history_record i 90000].
Proof.
  cbv zeta. split; [intros k; reflexivity|].
  pose proof (force_recovery_command_spec 3 90000
                (test_world
                   (mkManager (Some (mkIllnessInfo TONSILLITIS 0 0.6 "progressing")) 0 0)
                   ∅ 90000 0) (fun _ => eq_refl)) as H.
  cbv zeta in H. destruct H as (_ & _ & _ & _ & H5 & _).
  destruct (H5 _ eq_refl) as [_ Hh].
  split; [vm_compute; reflexivity|].
  exact (Hh [] (conj eq_refl eq_refl) eq_refl).
Defined.

Lemma trigger_with_history (weights : table Z) (w : World) :
  stored_history (storage (snd (trigger_random_illness_with weights w))) =
  stored_history (storage w).
Proof.
  unfold trigger_random_illness_with, bind, _get_weighted_random_illness_with.
  destruct (random_choices_world (map fst weights) (map snd weights) w)
    as (_ & Hst & _).
  destruct (random_choices (map fst weights) (map snd weights) w) as [r w1].
  cbn [fst snd] in *. destruct r as [k|e]; [|cbn; rewrite Hst; reflexivity].
  unfold get_self, time_time, put_self. cbn [fst snd].
  match goal with
  | |- context [save_state ?W] =>
      pose proof (save_state_history W) as Hh;
      destruct (save_state W) as [[] w2]
  end.
  cbn [fst snd ret] in *. rewrite Hh. cbn [storage]. rewrite Hst. reflexivity.
Qed.

Lemma force_sick_execute_ok (weights : table Z) (w : World) (k : IllnessType) :
  fst (_get_weighted_random_illness_with weights w) = Ok k ->
  force_sick_execute_with weights true w =
    (((true, "强制生病成功", true),
      [[Lit ("✅ 已强制麦麦生病" ++ nl ++ nl ++ "**疾病类型**: ")%string;
        Lit (value k);
        Lit (nl ++ "**症状描述**: ")%string;
        Lit (get_illness_description k);
        Lit (nl ++ nl ++ "请对麦麦温柔一些哦～")%string]]),
     snd (trigger_random_illness_with weights w)).
Proof.
  intros Hk. destruct (trigger_with_ok weights w k Hk) as [Hr Hs].
  unfold force_sick_execute_with, bind. cbn [negb].
  destruct (trigger_random_illness_with weights w) as [r w1].
  cbn [fst snd] in *. subst r. unfold get_self, ret. cbn [fst snd].
  unfold get_current_illness_description. rewrite Hs. reflexivity.
Qed.

(** X17: [ForceSickCommand.execute] with a manager always succeeds with the
    weights of the source.  Whatever the manager held, it then holds a new
    illness in stage "initial" that started at the clock reading, and the
    text sent names the kind and gives its catalog description.  An illness
    that was present is dropped without a history record, and
    [last_recovery_time] and the cooldown deadline are kept, so the command
    also works during a cooldown.  When the draw raises the command reports
    failure and the manager is unchanged; without a manager it reports
    failure as well. *)
Theorem force_sick_command_spec (w : World) :
  (exists k : IllnessType,
     let i := mkIllnessInfo k (clock w (ticks w)) (get_illness_severity k) "initial" in
     fst (force_sick_execute true w) =
       ((true, "强制生病成功", true),
        [[Lit ("✅ 已强制麦麦生病" ++ nl ++ nl ++ "**疾病类型**: ")%string;
          Lit (value k);
          Lit (nl ++ "**症状描述**: ")%string;
          Lit (get_illness_description k);
          Lit (nl ++ nl ++ "请对麦麦温柔一些哦～")%string]]) /\
     self (snd (force_sick_execute true w)) =
       mkManager (Some i) (last_recovery_time (self w))
         (cool_down_end_time (self w))) /\
  stored_history (storage (snd (force_sick_execute true w))) =
    stored_history (storage w) /\
  (forall weights e,
     fst (_get_weighted_random_illness_with weights w) = Raise e ->
     fst (force_sick_execute_with weights true w) =
       ((false, "触发疾病失败", true), [[Lit "❌ 触发疾病失败，请检查日志"]]) /\
     self (snd (force_sick_execute_with weights true w)) = self w) /\
  force_sick_execute false w =
    (((false, "系统未初始化", true), [[Lit "健康系统未初始化"]]), w).
Proof.
  destruct (weighted_draw_succeeds w) as (k & Hk & _).
  pose proof (force_sick_execute_ok weights_table w k Hk) as Heq.
  splits.
  - exists k. cbv zeta. unfold force_sick_execute. rewrite Heq. cbn [fst snd].
    split; [reflexivity|]. apply (trigger_with_ok weights_table w k Hk).
  - unfold force_sick_execute. rewrite Heq. cbn [snd].
    apply trigger_with_history.
  - intros weights e He.
    destruct (trigger_with_raise weights w e He) as (Hr & Hs & _).
    unfold force_sick_execute_with, bind. cbn [negb].
    destruct (trigger_random_illness_with weights w) as [r w1].
    cbn [fst snd] in *. subst r. cbn. split; [reflexivity|exact Hs].
  - reflexivity.
Qed.

Lemma force_sick_command_spec_witness :
  let old := mkIllnessInfo ANKLE_SPRAIN 0 0.5 "progressing" in
  let w := test_world (mkManager (Some old) 7 999999) ∅ 5000 0.5 in
  fst (_get_weighted_random_illness_with [] w) = Raise IndexError /\
  fst (fst (force_sick_execute_with [] true w)) = (false, "触发疾病失败", true) /\
  self (snd (force_sick_execute true w)) =
    mkManager (Some (mkIllnessInfo MINOR_SCRATCH 5000 0.2 "initial")) 7 999999 /\
  stored_history (storage (snd (force_sick_execute true w))) = Some [].
Proof.
  cbv zeta. split; [reflexivity|].
  pose proof (force_sick_command_spec
                (test_world
                   (mkManager (Some (mkIllnessInfo ANKLE_SPRAIN 0 0.5 "progressing"))
                      7 999999) ∅ 5000 0.5)) as H.
  destruct H as (_ & Hh & Hfail & _).
  split; [|split].
  - rewrite (proj1 (Hfail [] IndexError eq_refl)). reflexivity.
  - vm_compute. reflexivity.
  - rewrite Hh. reflexivity.
Defined.

(** *** The health check *)

Lemma remaining_text_pieces (x : Q) :
  ~ In (Lit "突发性症状，很快就会恢复") (remaining_text x).
Proof.
  unfold remaining_text. destruct (Qltb 24 x); cbn;
    intros [H|[H|[H|[]]]]; discriminate.
Qed.

(** X18: [HealthCheckCommand.execute] with a manager never raises, always
    reports success and sends exactly one text, without changing the
    manager or the storage.  For an ill manager the text carries the name
    and the description of the kind and the same remaining-time phrase as
    the "recovery_time_text" of the status; the branch for a status without
    "recovery_remaining_hours" is never taken, so the phrase about a sudden
    symptom is never sent.  For a healthy manager the text mentions the
    recovery period exactly when the clock is before the deadline. *)
Theorem health_check_command_spec (w : World) :
  let st := fst (get_health_status w) in
  let w' := snd (health_check_execute true w) in
  self w' = self w /\ storage w' = storage w /\
  (exists msg : Text,
     fst (health_check_execute true w) =
       Ok ((true, "健康状态查询成功", true), [msg]) /\
     ~ In (Lit "突发性症状，很快就会恢复") msg /\
     (forall i, current_illness (self w) = Some i ->
        exists text, recovery_time_text st = Some text /\
          msg = [Lit ("🤒 麦麦目前生病了" ++ nl ++ nl ++ "**疾病类型**: ")%string;
                 Lit (value (illness_type i));
                 Lit (nl ++ "**症状描述**: ")%string;
                 Lit (get_illness_description (illness_type i));
                 Lit (nl ++ "**恢复时间**: ")%string]
                ++ text ++ [Lit (nl ++ nl ++ "请对麦麦温柔一些哦～")%string]) /\
     (current_illness (self w) = None ->
      cool_down_end_time (self w) <= clock w (ticks w) ->
      msg = [Lit "✅ 麦麦目前非常健康，精力充沛！"]) /\
     (current_illness (self w) = None ->
      clock w (ticks w) < cool_down_end_time (self w) ->
      exists x unit_text,
        msg = [Lit ("✅ 麦麦目前很健康！" ++ nl ++ nl
                    ++ "刚刚康复不久，正在休息恢复中，还有")%string;
               Fixed1 x; Lit unit_text])) /\
  health_check_execute false w =
    (Ok ((false, "系统未初始化", true), [[Lit "健康系统未初始化"]]), w).
Proof.
  cbv zeta. unfold health_check_execute, bind. cbn [negb].
  unfold get_health_status, bind, get_self, time_time, ret.
  cbn [fst snd self clock ticks].
  destruct (current_illness (self w)) as [i|] eqn:Ecur;
    cbn [fst snd self storage is_healthy in_cool_down status_current_illness
         cool_down_remaining recovery_remaining_hours recovery_time_text].
  - splits; try reflexivity.
    eexists. split; [reflexivity|]. splits.
    + intros Hin. apply in_app_or in Hin as [Hin|Hin].
      * cbn in Hin. destruct Hin as [H|[H|[H|[H|[H|[]]]]]]; try discriminate.
        -- destruct i as [[] ? ? ?]; discriminate.
        -- destruct i as [[] ? ? ?]; discriminate.
      * apply in_app_or in Hin as [Hin|Hin].
        -- revert Hin. fold (remaining_text
             (max0 (get_illness_duration (illness_type i) -
                    get_duration_hours (clock w (S (ticks w))) i))).
           apply remaining_text_pieces.
        -- cbn in Hin. destruct Hin as [H|[]]. discriminate.
    + intros i' [= <-]. eexists. split; [reflexivity|].
      cbn [status_type status_description]. reflexivity.
    + discriminate.
    + discriminate.
  - destruct (Qltb (clock w (ticks w)) (cool_down_end_time (self w))) eqn:Ecd.
    + destruct (Qltb 24 _); cbn [fst snd self storage];
        (splits; try reflexivity;
         eexists; split; [reflexivity|]; splits;
         [ cbn; intros [H|[H|[H|[]]]]; discriminate
         | discriminate
         | intros _ Hle; apply Qltb_lt in Ecd;
           exfalso; exact (Qlt_not_le _ _ Ecd Hle)
         | intros _ _; eexists; eexists; reflexivity ]).
    + cbn [fst snd self storage]. splits; try reflexivity.
      eexists. split; [reflexivity|]. splits.
      * cbn. intros [H|[]]. discriminate.
      * discriminate.
      * reflexivity.
      * intros _ Hlt. apply Qltb_lt in Hlt. congruence.
Qed.

(** *** The prompt *)



Lemma kfc_prompt_not_unified (k : IllnessType) (desc : string) (mode : PyVal) :
  mode <> VStr "unified" ->
  _generate_kfc_prompt k desc mode = _generate_kfc_prompt k desc (VStr "split").
Proof.
  intros Hne. unfold _generate_kfc_prompt. destruct mode; try reflexivity.
  rewrite bool_decide_eq_false_2; [reflexivity|]. intros ->. congruence.
Qed.


(** X19: for each of the eleven kinds the three tone tables of the prompt
    have an entry under the display name of the kind, so the fallback tone
    is never used, and each generated prompt is its template with the
    catalog description and that tone filled in, the only effect of
    [strip()] being the removal of the line break at either end. *)
Theorem prompts_embed_description_and_tone (k : IllnessType) :
  let desc := get_illness_description k in
  let tone := str_get tone_adjustments (value k) "" in
  let kfc_tone := str_get kfc_tone_adjustments (value k) "" in
  let afc_tone := str_get afc_tone_adjustments (value k) "" in
  In (value k, tone) tone_adjustments /\
  In (value k, kfc_tone) kfc_tone_adjustments /\
  In (value k, afc_tone) afc_tone_adjustments /\
  _generate_normal_prompt k desc =
    ("请注意：麦麦目前生病了，具体症状是：" ++ desc ++ nl ++ nl
     ++ "回复时需要体现以下特点：" ++ nl ++ "1. " ++ tone ++ nl
     ++ "2. 回复内容可以稍微简短一些，因为精力有限" ++ nl
     ++ "3. 可以适当地表达需要休息的意愿" ++ nl
     ++ "4. 对于复杂的问题可能需要更多时间思考" ++ nl
     ++ "5. 语气要温和、耐心，但略带疲惫" ++ nl ++ nl
     ++ "记住：这只是模拟生病状态，麦麦的核心人格和知识不受影响。")%string /\
  _generate_afc_prompt k desc =
    ("请注意：麦麦目前生病了。" ++ nl ++ "症状：" ++ desc ++ nl
     ++ "表现：" ++ afc_tone ++ nl ++ nl ++ "回复要求：" ++ nl
     ++ "1. 内容可适当简短，体现精力有限" ++ nl
     ++ "2. 可表达需要休息的意愿" ++ nl
     ++ "3. 对复杂问题可能需要更多思考时间" ++ nl
     ++ "4. 保持温和耐心的语气" ++ nl ++ nl
     ++ "此为模拟生病状态，核心功能不受影响。")%string /\
  _generate_kfc_prompt k desc (VStr "unified") =
    ("你当前生病了：" ++ desc ++ nl ++ kfc_tone ++ "，需要多休息。" ++ nl
     ++ "回复简短些，语气温和但疲惫，可以表达需要休息。" ++ nl
     ++ "记住这只是模拟状态，核心人格不变。")%string /\
  (forall mode, mode <> VStr "unified" ->
     _generate_kfc_prompt k desc mode =
       ("【身体状态】" ++ kfc_tone ++ nl ++ "【症状描述】" ++ desc ++ nl
        ++ "【当前需求】需要休息，回复简短" ++ nl
        ++ "【语气要求】温和耐心，略带疲惫")%string).
Proof.
  cbv zeta. splits.
  - destruct k; vm_compute; tauto.
  - destruct k; vm_compute; tauto.
  - destruct k; vm_compute; tauto.
  - destruct k; vm_compute; reflexivity.
  - destruct k; vm_compute; reflexivity.
  - destruct k; vm_compute; reflexivity.
  - intros mode Hne. rewrite (kfc_prompt_not_unified _ _ _ Hne).
    destruct k; vm_compute; reflexivity.
Qed.

